(** * Development-session lifecycle of the [Component] class

    A shallow embedding of the dev-loop supervision code of the extension:
    [Component.getComponentDevState], [Component.exitDevelopmentMode],
    [Component.devRunOn] with the listeners and pseudo-terminal callbacks it
    installs, and [Component.forceExitDevMode].  [window.createTerminal] and
    [CliChannel.spawnTool] are taken to succeed.

    JavaScript objects are references, so the objects the code shares between
    closures live in stores: the [ChildProcess] objects, the closure
    environments created by [exitDevelopmentMode], the [Timeout] objects of
    the runtime and the terminals.  A field such as [cs.devProcess] holds an
    index into its store.  Every listener is a function from [World] to
    [World]; a listener that dereferences [undefined] throws a [TypeError]
    before it has mutated anything, which is rendered as [None]. *)

From stdpp Require Import base option list gmap strings.
From Stdlib Require Import ZArith Ascii.

Local Open Scope string_scope.
Local Open Scope list_scope.

(** ** Data *)

(** [enum ComponentContextState]. *)
Inductive ComponentContextState :=
| DEV            (* 'dev-nrn' *)
| DEV_STARTING   (* 'dev-str' *)
| DEV_RUNNING    (* 'dev-run' *)
| DEV_STOPPING   (* 'dev-stp' *)
| DEB            (* 'deb-nrn' *)
| DEB_RUNNING    (* 'deb-run' *)
| DEP            (* 'dep-nrn' *)
| DEP_RUNNING.   (* 'dep-run' *)

#[global] Instance ComponentContextState_eq_dec : EqDecision ComponentContextState.
Proof. solve_decision. Defined.

(** [runOn?: undefined | 'podman'] is [option RunTarget]. *)
Inductive RunTarget := podman.

#[global] Instance RunTarget_eq_dec : EqDecision RunTarget.
Proof. solve_decision. Defined.

(** The two signals the code passes to [ChildProcess.kill]. *)
Inductive Signal := SIGINT | SIGABRT.

#[global] Instance Signal_eq_dec : EqDecision Signal.
Proof. solve_decision. Defined.

(** The part of a [ComponentWorkspaceFolder] the code reads. *)
Record ComponentWorkspaceFolder := mkFolder {
  contextPath : string;
  metadata_name : string;      (* component.devfileData.devfile.metadata.name *)
  supports_dev : bool;         (* ...supportedOdoFeatures?.dev *)
  supports_debug : bool;
  supports_deploy : bool;
}.

(** Command lines come from [Command] (odo/command.ts), kept symbolic. *)
Inductive Command :=
| Command_dev (debug : bool) (runOn : option RunTarget)
| Command_deletePreviouslyPushedResources (name : string).

(** [interface ComponentDevState]. *)
Record ComponentDevState := mkDevState {
  devTerminal : option nat;
  devProcess : option nat;
  devStatus : option ComponentContextState;
  contextValue : option string;
  devProcessStopRequest : option nat;
  debugStatus : option ComponentContextState;
  deployStatus : option ComponentContextState;
  runOn : option RunTarget;
}.

(** Where a child process stands with respect to the events it emits. *)
Inductive Phase := Pending | Spawned | Failed | Exited.

#[global] Instance Phase_eq_dec : EqDecision Phase.
Proof. solve_decision. Defined.

(** A [ChildProcess] object together with the variables its listeners close
    over: [component.contextPath] (also its working directory) and the
    [outputEmitter] of the terminal that spawned it. *)
Record ChildProcess := mkProcess {
  spawnargs : Command;
  cwd : string;
  sink : nat;
  phase : Phase;
  exitCode : option Z;
  signalCode : option Signal;
  received : list Signal;      (* signals delivered by [kill], oldest first *)
}.

(** A [Timeout] object of the runtime.  [setTimeout] creates it armed. *)
Inductive TimerState := Armed | Expired | Cancelled.

#[global] Instance TimerState_eq_dec : EqDecision TimerState.
Proof. solve_decision. Defined.

Record Timeout := mkTimeout {
  timer_state : TimerState;
  timer_delay : Z;
  timer_env : nat;             (* the closure environment its callback uses *)
}.

(** The variables of one call of [exitDevelopmentMode], shared by the timer
    callback and by the three methods of the returned object. *)
Record StopRequestEnv := mkStopEnv {
  sigAbortSent : bool;
  devCleaningTimeout : option nat;
  env_devProcess : nat;
}.

(** A terminal created by [window.createTerminal], with the variables its
    pseudo-terminal callbacks close over. *)
Record Terminal := mkTerminal {
  term_component : ComponentWorkspaceFolder;
  term_runOn : option RunTarget;
  term_opened : bool;
  term_closed : bool;
  term_shown : nat;
  term_disposed : bool;
}.

(** What [outputEmitter.fire] writes. *)
Inductive Output :=
| Starting (c : Command)       (* `Starting ${Command.dev(...)}\r\n` *)
| Text (s : string).

(** [window.show*Message]. *)
Inductive Message :=
| ErrorMessage (text : string)
| WarningMessage (text : string) (items : list string)
| InformationMessage (text : string).

Record World := mkWorld {
  componentStates : gmap string ComponentDevState;
  processes : list ChildProcess;
  stopRequests : list StopRequestEnv;
  timers : list Timeout;
  terminals : list Terminal;
  prompts : list nat;                 (* warnings awaiting an answer, by closure *)
  written : list (nat * Output);      (* outputEmitter.fire, by terminal *)
  stateChanged : list string;         (* Component.stateChanged.fire *)
  messages : list Message;
  executed : list Command;            (* CliChannel.executeTool *)
  suspended : list (ComponentWorkspaceFolder * option RunTarget);
                                      (* calls of devRunOn at their await *)
  stopDevModeTimeout : Z;             (* openshiftToolkit.stopDevModeTimeout *)
}.

Definition initial (timeout : Z) : World :=
  mkWorld ∅ [] [] [] [] [] [] [] [] [] [] timeout.

(** ** Field updates *)

Definition set_devTerminal (v : option nat) (cs : ComponentDevState) :=
  mkDevState v (devProcess cs) (devStatus cs) (contextValue cs)
    (devProcessStopRequest cs) (debugStatus cs) (deployStatus cs) (runOn cs).
Definition set_devProcess (v : option nat) (cs : ComponentDevState) :=
  mkDevState (devTerminal cs) v (devStatus cs) (contextValue cs)
    (devProcessStopRequest cs) (debugStatus cs) (deployStatus cs) (runOn cs).
Definition set_devStatus (v : option ComponentContextState) (cs : ComponentDevState) :=
  mkDevState (devTerminal cs) (devProcess cs) v (contextValue cs)
    (devProcessStopRequest cs) (debugStatus cs) (deployStatus cs) (runOn cs).
Definition set_devProcessStopRequest (v : option nat) (cs : ComponentDevState) :=
  mkDevState (devTerminal cs) (devProcess cs) (devStatus cs) (contextValue cs)
    v (debugStatus cs) (deployStatus cs) (runOn cs).
Definition set_runOn (v : option RunTarget) (cs : ComponentDevState) :=
  mkDevState (devTerminal cs) (devProcess cs) (devStatus cs) (contextValue cs)
    (devProcessStopRequest cs) (debugStatus cs) (deployStatus cs) v.

Definition with_componentStates (f : gmap string ComponentDevState -> gmap string ComponentDevState) (w : World) :=
  mkWorld (f (componentStates w)) (processes w) (stopRequests w) (timers w)
    (terminals w) (prompts w) (written w) (stateChanged w) (messages w)
    (executed w) (suspended w) (stopDevModeTimeout w).
Definition with_processes (f : list ChildProcess -> list ChildProcess) (w : World) :=
  mkWorld (componentStates w) (f (processes w)) (stopRequests w) (timers w)
    (terminals w) (prompts w) (written w) (stateChanged w) (messages w)
    (executed w) (suspended w) (stopDevModeTimeout w).
Definition with_stopRequests (f : list StopRequestEnv -> list StopRequestEnv) (w : World) :=
  mkWorld (componentStates w) (processes w) (f (stopRequests w)) (timers w)
    (terminals w) (prompts w) (written w) (stateChanged w) (messages w)
    (executed w) (suspended w) (stopDevModeTimeout w).
Definition with_timers (f : list Timeout -> list Timeout) (w : World) :=
  mkWorld (componentStates w) (processes w) (stopRequests w) (f (timers w))
    (terminals w) (prompts w) (written w) (stateChanged w) (messages w)
    (executed w) (suspended w) (stopDevModeTimeout w).
Definition with_terminals (f : list Terminal -> list Terminal) (w : World) :=
  mkWorld (componentStates w) (processes w) (stopRequests w) (timers w)
    (f (terminals w)) (prompts w) (written w) (stateChanged w) (messages w)
    (executed w) (suspended w) (stopDevModeTimeout w).
Definition with_prompts (f : list nat -> list nat) (w : World) :=
  mkWorld (componentStates w) (processes w) (stopRequests w) (timers w)
    (terminals w) (f (prompts w)) (written w) (stateChanged w) (messages w)
    (executed w) (suspended w) (stopDevModeTimeout w).
Definition with_written (f : list (nat * Output) -> list (nat * Output)) (w : World) :=
  mkWorld (componentStates w) (processes w) (stopRequests w) (timers w)
    (terminals w) (prompts w) (f (written w)) (stateChanged w) (messages w)
    (executed w) (suspended w) (stopDevModeTimeout w).
Definition with_stateChanged (f : list string -> list string) (w : World) :=
  mkWorld (componentStates w) (processes w) (stopRequests w) (timers w)
    (terminals w) (prompts w) (written w) (f (stateChanged w)) (messages w)
    (executed w) (suspended w) (stopDevModeTimeout w).
Definition with_messages (f : list Message -> list Message) (w : World) :=
  mkWorld (componentStates w) (processes w) (stopRequests w) (timers w)
    (terminals w) (prompts w) (written w) (stateChanged w) (f (messages w))
    (executed w) (suspended w) (stopDevModeTimeout w).
Definition with_executed (f : list Command -> list Command) (w : World) :=
  mkWorld (componentStates w) (processes w) (stopRequests w) (timers w)
    (terminals w) (prompts w) (written w) (stateChanged w) (messages w)
    (f (executed w)) (suspended w) (stopDevModeTimeout w).
Definition with_suspended (f : list (ComponentWorkspaceFolder * option RunTarget) ->
                               list (ComponentWorkspaceFolder * option RunTarget)) (w : World) :=
  mkWorld (componentStates w) (processes w) (stopRequests w) (timers w)
    (terminals w) (prompts w) (written w) (stateChanged w) (messages w)
    (executed w) (f (suspended w)) (stopDevModeTimeout w).

(** An assignment [cs.field = v] on the state object of [path]. *)
Definition assign (path : string) (f : ComponentDevState -> ComponentDevState) : World -> World :=
  with_componentStates (alter f path).

(** ** Effects of the platform *)

Definition fire_stateChanged (path : string) : World -> World :=
  with_stateChanged (fun l => l ++ [path]).

Definition fire_output (emitter : nat) (o : Output) : World -> World :=
  with_written (fun l => l ++ [(emitter, o)]).

Definition show (m : Message) : World -> World :=
  with_messages (fun l => l ++ [m]).

(** A process still has its handle until it has failed or exited. *)
Definition running (p : ChildProcess) : bool :=
  match phase p with Pending | Spawned => true | Failed | Exited => false end.

Definition deliver (sig : Signal) (p : ChildProcess) : ChildProcess :=
  if running p
  then mkProcess (spawnargs p) (cwd p) (sink p) (phase p) (exitCode p) (signalCode p)
         (received p ++ [sig])
  else p.

(** [devProcess.kill(sig)]: delivered while the process has its handle, a
    no-op afterwards. *)
Definition kill (pid : nat) (sig : Signal) : World -> World :=
  with_processes (alter (deliver sig) pid).

Definition set_timer_state (s : TimerState) (t : Timeout) : Timeout :=
  mkTimeout s (timer_delay t) (timer_env t).

(** [clearTimeout(handle)]; [clearTimeout(undefined)] does nothing. *)
Definition clearTimeout (handle : option nat) : World -> World :=
  match handle with
  | Some t => with_timers (alter (set_timer_state Cancelled) t)
  | None => fun w => w
  end.

(** [timeout.refresh()]: restarts the countdown with the delay the timer was
    created with; a cleared timer stays cleared. *)
Definition refresh_timer (t : Timeout) : Timeout :=
  match timer_state t with
  | Cancelled => t
  | Armed | Expired => set_timer_state Armed t
  end.

Definition refresh (t : nat) : World -> World :=
  with_timers (alter refresh_timer t).

(** ** Strings *)

Definition LF : ascii := "010"%char.
Definition CR : ascii := "013"%char.
Definition ESC : ascii := "027"%char.
Definition ETX : ascii := "003"%char.
Definition CRLF : string := String CR (String LF "").

(** [s.replaceAll('\n', '\r\n')]. *)
Fixpoint replaceAll_LF_CRLF (s : string) : string :=
  match s with
  | EmptyString => EmptyString
  | String c s' =>
      if decide (c = LF) then String CR (String LF (replaceAll_LF_CRLF s'))
      else String c (replaceAll_LF_CRLF s')
  end.

(** [Buffer.toString()], which [`${chunk}`] calls on the chunks of the
    output streams: UTF-8 decoding as the Encoding Standard describes it.  A
    string of the model holds text as its UTF-8 bytes, so decoding copies
    every well-formed character and puts U+FFFD in the place of every
    maximal ill-formed part; a character that the end of the chunk cuts
    short is ill-formed. *)
Definition REPLACEMENT : string :=
  String "239"%char (String "191"%char (String "189"%char "")).

Inductive Utf8State :=
| utf8_start
| utf8_more (needed : nat) (lower upper : N) (seen : string).

Definition between (lower upper : N) (b : ascii) : bool :=
  ((lower <=? N_of_ascii b) && (N_of_ascii b <=? upper))%N.

(** A byte that does not continue a character: the text it gives at once
    and the state it leaves. *)
Definition utf8_lead (b : ascii) : string * Utf8State :=
  if between 0 127 b then (String b "", utf8_start)
  else if between 194 223 b then ("", utf8_more 1 128 191 (String b ""))
  else if between 224 224 b then ("", utf8_more 2 160 191 (String b ""))
  else if between 237 237 b then ("", utf8_more 2 128 159 (String b ""))
  else if between 225 239 b then ("", utf8_more 2 128 191 (String b ""))
  else if between 240 240 b then ("", utf8_more 3 144 191 (String b ""))
  else if between 241 243 b then ("", utf8_more 3 128 191 (String b ""))
  else if between 244 244 b then ("", utf8_more 3 128 143 (String b ""))
  else (REPLACEMENT, utf8_start).

Definition utf8_step (st : Utf8State) (b : ascii) : string * Utf8State :=
  match st with
  | utf8_start => utf8_lead b
  | utf8_more needed lower upper seen =>
      if between lower upper b then
        match needed with
        | S (S n) => ("", utf8_more (S n) 128 191 (seen +:+ String b ""))
        | _ => (seen +:+ String b "", utf8_start)
        end
      else
        let '(out, st') := utf8_lead b in (REPLACEMENT +:+ out, st')
  end.

(** The text the decoder gives at the end of the input. *)
Definition utf8_end (st : Utf8State) : string :=
  match st with
  | utf8_start => ""
  | utf8_more _ _ _ _ => REPLACEMENT
  end.

Fixpoint decode (st : Utf8State) (bytes : string) : string :=
  match bytes with
  | EmptyString => utf8_end st
  | String b rest =>
      let '(out, st') := utf8_step st b in out +:+ decode st' rest
  end.

Definition toString (chunk : string) : string := decode utf8_start chunk.

(** [`\x1b[31m${chunk}\x1b[0m`]; [chunk] is the decoded text. *)
Definition red (chunk : string) : string :=
  String ESC "[31m" +:+ chunk +:+ String ESC "[0m".

(** [data.charCodeAt(0) === 3]. *)
Definition charCodeAt0_is_3 (data : string) : bool :=
  match data with
  | EmptyString => false
  | String c _ => bool_decide (c = ETX)
  end.

(** ** Reading the state object of a workspace *)

Definition devStatus_of (w : World) (path : string) : option ComponentContextState :=
  cs ← componentStates w !! path; devStatus cs.
Definition devProcess_of (w : World) (path : string) : option nat :=
  cs ← componentStates w !! path; devProcess cs.
Definition devProcessStopRequest_of (w : World) (path : string) : option nat :=
  cs ← componentStates w !! path; devProcessStopRequest cs.
Definition devTerminal_of (w : World) (path : string) : option nat :=
  cs ← componentStates w !! path; devTerminal cs.

(** [devProcess.exitCode === null] for the process object [pid]. *)
Definition exitCode_is_null (pid : nat) (w : World) : bool :=
  match processes w !! pid with
  | Some p => bool_decide (exitCode p = None)
  | None => false
  end.

(** ** [Component.getComponentDevState] *)

Definition new_state (folder : ComponentWorkspaceFolder) : ComponentDevState :=
  mkDevState None None
    (if supports_dev folder then Some DEV else None) None None
    (if supports_debug folder then Some DEB else None)
    (if supports_deploy folder then Some DEP else None) None.

Definition getComponentDevState (folder : ComponentWorkspaceFolder) (w : World) : World :=
  match componentStates w !! contextPath folder with
  | Some _ => w
  | None => with_componentStates (insert (contextPath folder) (new_state folder)) w
  end.

(** ** [Component.devModeExitTimeout] and [Component.exitDevelopmentMode] *)

(** The setting is taken to hold a whole number of milliseconds. *)
Definition devModeExitTimeout (w : World) : Z := stopDevModeTimeout w.

(** [setTimeout(callback, after)] of the runtime: a delay between 1 and
    [TIMEOUT_MAX] milliseconds is taken as it is, any other is replaced
    by 1. *)
Definition TIMEOUT_MAX : Z := 2147483647.

Definition timeout_delay (after : Z) : Z :=
  if decide (1 <= after <= TIMEOUT_MAX)%Z then after else 1%Z.

Definition set_sigAbortSent (b : bool) (e : StopRequestEnv) : StopRequestEnv :=
  mkStopEnv b (devCleaningTimeout e) (env_devProcess e).
Definition set_devCleaningTimeout (h : option nat) (e : StopRequestEnv) : StopRequestEnv :=
  mkStopEnv (sigAbortSent e) h (env_devProcess e).

Definition warning_text : string := "Exiting development mode is taking to long.".
Definition expired_text : string :=
  "The warning message has expired and requested action cannot be executed.".

(** The function passed to [setTimeout]: it shows the warning, whose answer
    is handled by [warning_answered] below. *)
Definition timeout_callback (env : nat) (w : World) : World :=
  with_prompts (fun l => l ++ [env])
    (show (WarningMessage warning_text ["Keep waiting"; "Force exit"]) w).

(** The function passed to [then]: [action] is the chosen item, [None] when
    the warning was dismissed. *)
Definition warning_answered (env : nat) (action : option string) (w : World) : World :=
  match stopRequests w !! env with
  | None => w
  | Some e =>
      match devCleaningTimeout e with
      | None => show (InformationMessage expired_text) w
      | Some t =>
          if decide (action = Some "Keep waiting") then refresh t w
          else if decide (action = Some "Force exit") then
            kill (env_devProcess e) SIGABRT
              (with_stopRequests (alter (set_sigAbortSent true) env) w)
          else w
      end
  end.

(** [exitDevelopmentMode(devProcess)]: one new closure environment and one
    new timer; the result is the returned object, named by its environment. *)
Definition exitDevelopmentMode (devProcess : nat) (w : World) : nat * World :=
  let env := length (stopRequests w) in
  let t := length (timers w) in
  (env,
   with_stopRequests (fun l => l ++ [mkStopEnv false (Some t) devProcess])
     (with_timers
        (fun l => l ++ [mkTimeout Armed (timeout_delay (devModeExitTimeout w)) env]) w)).

Definition dispose (env : nat) (w : World) : World :=
  match stopRequests w !! env with
  | Some e =>
      with_stopRequests (alter (set_devCleaningTimeout None) env)
        (clearTimeout (devCleaningTimeout e) w)
  | None => w
  end.

Definition isSigabrtSent (env : nat) (w : World) : bool :=
  match stopRequests w !! env with
  | Some e => sigAbortSent e
  | None => false
  end.

Definition sendSigabrt (env : nat) (w : World) : World :=
  match stopRequests w !! env with
  | Some e =>
      kill (env_devProcess e) SIGABRT
        (with_stopRequests (alter (set_sigAbortSent true) env) w)
  | None => w
  end.

(** ** [Component.devRunOn] *)

(** Up to the [await] of the clean-up command, which is only run (and only
    awaited) without a run target. *)
Definition devRunOn_enter (component : ComponentWorkspaceFolder)
    (target : option RunTarget) (w : World) : World :=
  let path := contextPath component in
  let w := getComponentDevState component w in
  let w := assign path (set_devStatus (Some DEV_STARTING)) w in
  let w := assign path (set_runOn target) w in
  let w := fire_stateChanged path w in
  match target with
  | None =>
      with_executed
        (fun l => l ++ [Command_deletePreviouslyPushedResources (metadata_name component)]) w
  | Some _ => w
  end.

(** [cs.devTerminal = window.createTerminal({...})]. *)
Definition devRunOn_createTerminal (component : ComponentWorkspaceFolder)
    (target : option RunTarget) (w : World) : World :=
  let t := length (terminals w) in
  assign (contextPath component) (set_devTerminal (Some t))
    (with_terminals (fun l => l ++ [mkTerminal component target false false 0 false]) w).

Definition devRunOn (component : ComponentWorkspaceFolder)
    (target : option RunTarget) (w : World) : World :=
  devRunOn_createTerminal component target (devRunOn_enter component target w).

(** [pty.open]: the banner, then [spawnTool] yields the process on which the
    listeners below are installed. *)
Definition pty_open (component : ComponentWorkspaceFolder)
    (target : option RunTarget) (emitter : nat) (w : World) : World :=
  let w := fire_output emitter (Starting (Command_dev (supports_debug component) None)) w in
  with_processes
    (fun l => l ++ [mkProcess (Command_dev (supports_debug component) target)
                      (contextPath component) emitter Pending None None []]) w.

Definition shown (t : Terminal) : Terminal :=
  mkTerminal (term_component t) (term_runOn t) (term_opened t) (term_closed t)
    (S (term_shown t)) (term_disposed t).
Definition disposed (t : Terminal) : Terminal :=
  mkTerminal (term_component t) (term_runOn t) (term_opened t) (term_closed t)
    (term_shown t) true.

(** [devProcess.on('spawn', ...)]. *)
Definition on_spawn (path : string) (devProc : nat) (w : World) : option World :=
  t ← devTerminal_of w path;
  let w := with_terminals (alter shown t) w in
  let w := assign path (set_devProcess (Some devProc)) w in
  let w := assign path (set_devStatus (Some DEV_RUNNING)) w in
  Some (fire_stateChanged path w).

(** [devProcess.on('error', ...)]. *)
Definition on_error (path : string) (message : string) (w : World) : World :=
  let w := show (ErrorMessage message) w in
  let w := assign path (set_devStatus (Some DEV)) w in
  fire_stateChanged path w.

(** [devProcess.stdout.on('data', ...)]; [chunk] holds the bytes of the
    [Buffer] the listener is handed. *)
Definition on_stdout_data (path : string) (emitter : nat) (chunk : string) (w : World) : World :=
  let w :=
    if decide (devStatus_of w path = Some DEV_STARTING)
    then fire_stateChanged path (assign path (set_devStatus (Some DEV_RUNNING)) w)
    else w in
  fire_output emitter (Text (replaceAll_LF_CRLF (toString chunk))) w.

(** [cs.devProcessStopRequest?.isSigabrtSent()], [undefined] being falsy. *)
Definition stop_request_sigabrt_sent (path : string) (w : World) : bool :=
  match devProcessStopRequest_of w path with
  | Some env => isSigabrtSent env w
  | None => false
  end.

(** [devProcess.stderr.on('data', ...)]. *)
Definition on_stderr_data (path : string) (emitter : nat) (chunk : string) (w : World) : World :=
  if stop_request_sigabrt_sent path w then w
  else fire_output emitter (Text (replaceAll_LF_CRLF (red (toString chunk)))) w.

Definition close_text : string :=
  CRLF +:+ "Press any key to close this terminal" +:+ CRLF.

(** [devProcess.on('exit', ...)]. *)
Definition on_exit (path : string) (emitter : nat) (w : World) : World :=
  let w :=
    match devProcessStopRequest_of w path with
    | Some env => assign path (set_devProcessStopRequest None) (dispose env w)
    | None => w
    end in
  let w := fire_output emitter (Text close_text) w in
  let w := assign path (set_devStatus (Some DEV)) w in
  let w := assign path (set_devProcess None) w in
  fire_stateChanged path w.

(** The four statements shared by [close] and [handleInput]. *)
Definition interrupt (path : string) (pid : nat) (w : World) : World :=
  let w := assign path (set_devStatus (Some DEV_STOPPING)) w in
  let w := fire_stateChanged path w in
  let w := kill pid SIGINT w in
  let '(env, w) := exitDevelopmentMode pid w in
  assign path (set_devProcessStopRequest (Some env)) w.

(** [pty.close]. *)
Definition pty_close (path : string) (w : World) : World :=
  let w :=
    match devProcess_of w path with
    | Some pid =>
        if exitCode_is_null pid w && bool_decide (devProcessStopRequest_of w path = None)
        then interrupt path pid w
        else w
    | None => w
    end in
  assign path (set_devTerminal None) w.

(** [pty.handleInput]. *)
Definition pty_handleInput (path : string) (emitter : nat) (data : string) (w : World) : option World :=
  if decide (devStatus_of w path = Some DEV_STARTING) then Some w
  else
    match devProcess_of w path with
    | None =>
        t ← devTerminal_of w path;
        Some (with_terminals (alter disposed t) w)
    | Some pid =>
        if bool_decide (devProcessStopRequest_of w path = None) && charCodeAt0_is_3 data
        then Some (interrupt path pid (fire_output emitter (Text ("^C" +:+ CRLF)) w))
        else Some w
    end.

(** ** [Component.forceExitDevMode] *)

Definition forceExitDevMode (component : ComponentWorkspaceFolder) (w : World) : option World :=
  componentState ← componentStates w !! contextPath component;
  match devProcess componentState with
  | Some pid =>
      if exitCode_is_null pid w
      then env ← devProcessStopRequest componentState; Some (sendSigabrt env w)
      else Some w
  | None => Some w
  end.

(** ** Events

    What the editor, the child processes, the timers and the user can make
    happen, and the code each of them runs.  [handle] adds the bookkeeping of
    the platform (the phase and exit status of a process, the flags of a
    terminal, the state of a timer) to the listener of the source. *)

Inductive Event :=
| Dev (component : ComponentWorkspaceFolder) (target : option RunTarget)
| Resume (k : nat)                         (* the awaited clean-up completes *)
| TerminalOpen (t : nat)
| TerminalClose (t : nat)
| TerminalInput (t : nat) (data : string)
| ProcessSpawn (pid : nat)
| ProcessError (pid : nat) (message : string)
| ProcessStdout (pid : nat) (chunk : string)
| ProcessStderr (pid : nat) (chunk : string)
| ProcessExit (pid : nat) (code : option Z) (signal : option Signal)
| ForceExit (component : ComponentWorkspaceFolder)
| TimerExpires (t : nat)
| WarningAnswer (env : nat) (action : option string).

Definition set_phase (ph : Phase) (p : ChildProcess) : ChildProcess :=
  mkProcess (spawnargs p) (cwd p) (sink p) ph (exitCode p) (signalCode p) (received p).
Definition exited (code : option Z) (signal : option Signal) (p : ChildProcess) : ChildProcess :=
  mkProcess (spawnargs p) (cwd p) (sink p) Exited code signal (received p).
Definition opened (t : Terminal) : Terminal :=
  mkTerminal (term_component t) (term_runOn t) true (term_closed t)
    (term_shown t) (term_disposed t).
Definition closed (t : Terminal) : Terminal :=
  mkTerminal (term_component t) (term_runOn t) (term_opened t) true
    (term_shown t) (term_disposed t).

(** An answered warning no longer awaits its answer. *)
Fixpoint remove_first (x : nat) (l : list nat) : list nat :=
  match l with
  | [] => []
  | y :: l' => if decide (x = y) then l' else y :: remove_first x l'
  end.

(** A listener that throws leaves the world as it found it. *)
Definition unless_thrown (w : World) (r : option World) : World := default w r.

Definition handle (ev : Event) (w : World) : World :=
  match ev with
  | Dev component None =>
      with_suspended (fun l => l ++ [(component, None)]) (devRunOn_enter component None w)
  | Dev component (Some target) => devRunOn component (Some target) w
  | Resume k =>
      match suspended w !! k with
      | Some (component, target) =>
          devRunOn_createTerminal component target (with_suspended (delete k) w)
      | None => w
      end
  | TerminalOpen t =>
      match terminals w !! t with
      | Some T =>
          pty_open (term_component T) (term_runOn T) t (with_terminals (alter opened t) w)
      | None => w
      end
  | TerminalClose t =>
      match terminals w !! t with
      | Some T =>
          pty_close (contextPath (term_component T)) (with_terminals (alter closed t) w)
      | None => w
      end
  | TerminalInput t data =>
      match terminals w !! t with
      | Some T => unless_thrown w (pty_handleInput (contextPath (term_component T)) t data w)
      | None => w
      end
  | ProcessSpawn pid =>
      match processes w !! pid with
      | Some p =>
          let w := with_processes (alter (set_phase Spawned) pid) w in
          unless_thrown w (on_spawn (cwd p) pid w)
      | None => w
      end
  | ProcessError pid message =>
      match processes w !! pid with
      | Some p => on_error (cwd p) message (with_processes (alter (set_phase Failed) pid) w)
      | None => w
      end
  | ProcessStdout pid chunk =>
      match processes w !! pid with
      | Some p => on_stdout_data (cwd p) (sink p) chunk w
      | None => w
      end
  | ProcessStderr pid chunk =>
      match processes w !! pid with
      | Some p => on_stderr_data (cwd p) (sink p) chunk w
      | None => w
      end
  | ProcessExit pid code signal =>
      match processes w !! pid with
      | Some p => on_exit (cwd p) (sink p) (with_processes (alter (exited code signal) pid) w)
      | None => w
      end
  | ForceExit component => unless_thrown w (forceExitDevMode component w)
  | TimerExpires t =>
      match timers w !! t with
      | Some T =>
          if decide (timer_state T = Armed)
          then timeout_callback (timer_env T) (with_timers (alter (set_timer_state Expired) t) w)
          else w
      | None => w
      end
  | WarningAnswer env action =>
      if decide (env ∈ prompts w)
      then warning_answered env action (with_prompts (remove_first env) w)
      else w
  end.

(** The events of a list, handled in order. *)
Definition run (evs : list Event) (w : World) : World :=
  foldl (fun w ev => handle ev w) w evs.

(** ** A session, step by step

    The worlds a single workspace goes through when its dev loop is started,
    interrupted with Ctrl-C and left to the escalation timer.  Each world is
    stored evaluated. *)

Module Scenario.

Definition app : ComponentWorkspaceFolder :=
  mkFolder "/home/user/app" "app" true true false.

Definition ctrl_c : string := String ETX "".

(** [devRunOn] has run, the terminal is open, the process was requested. *)
Definition starting : World :=
  Eval vm_compute in run [Dev app None; Resume 0; TerminalOpen 0] (initial 20000).
(** The process has signalled 'spawn'. *)
Definition up : World := Eval vm_compute in handle (ProcessSpawn 0) starting.
(** Ctrl-C was typed into the terminal. *)
Definition stopping : World := Eval vm_compute in handle (TerminalInput 0 ctrl_c) up.
(** The timer ran out and the warning is on screen. *)
Definition asked : World := Eval vm_compute in handle (TimerExpires 0) stopping.
(** The process went away while the warning was still on screen. *)
Definition gone : World := Eval vm_compute in handle (ProcessExit 0 None (Some SIGINT)) asked.
(** "Force exit" was chosen while the process was still there. *)
Definition forced : World :=
  Eval vm_compute in handle (WarningAnswer 0 (Some "Force exit")) asked.
(** The terminal was closed before the process signalled 'spawn'. *)
Definition unattended : World := Eval vm_compute in handle (TerminalClose 0) starting.
(** The dev command was issued twice before the first start came to its
    process; the first process signalled 'spawn', the second 'error'. *)
Definition overtaken : World :=
  Eval vm_compute in
    run [Dev app (Some podman); Dev app (Some podman); TerminalOpen 0; ProcessSpawn 0;
         TerminalOpen 1; ProcessError 1 "spawn odo ENOENT"] (initial 20000).

End Scenario.

(** ** Stop requests that have sent SIGABRT *)

(** [ev] is the exit of a process of the workspace [path]. *)
Definition exits (path : string) (w : World) (ev : Event) : bool :=
  match ev with
  | ProcessExit pid _ _ => bool_decide (cwd <$> processes w !! pid = Some path)
  | _ => false
  end.

(** None of the events of the list is the exit of a process of [path]. *)
Fixpoint before_exit (path : string) (evs : list Event) (w : World) : Prop :=
  match evs with
  | [] => True
  | ev :: evs' => exits path w ev = false /\ before_exit path evs' (handle ev w)
  end.

(** The stop request of the session of [path] has sent SIGABRT: the
    proposition behind [stop_request_sigabrt_sent]. *)
Definition Sent (path : string) (w : World) : Prop :=
  exists cs env e,
    componentStates w !! path = Some cs /\
    devProcessStopRequest cs = Some env /\
    stopRequests w !! env = Some e /\
    sigAbortSent e = true.

(** [keeps path w w']: the state object of [path] still names the same stop
    request, and a closure that has sent SIGABRT still says so. *)
Definition keeps (path : string) (w w' : World) : Prop :=
  (forall cs, componentStates w !! path = Some cs ->
     exists cs', componentStates w' !! path = Some cs' /\
                 devProcessStopRequest cs' = devProcessStopRequest cs) /\
  (forall env e, stopRequests w !! env = Some e ->
     exists e', stopRequests w' !! env = Some e' /\
                (sigAbortSent e = true -> sigAbortSent e' = true)).

(** ** What a stop request does

    [stop_requested path pid w w']: from [w] to [w'] the session of [path]
    went to [DEV_STOPPING], SIGINT was sent to [pid], and one closure with
    one armed timer was added and became the stop request of the session;
    the delay of the timer is the configured one as [setTimeout] takes it.
    [stop_ignored path w w']: neither the state, the stop request, the
    processes, the timers nor the closures changed. *)

Definition stop_requested (path : string) (pid : nat) (w w' : World) : Prop :=
  devStatus_of w' path = Some DEV_STOPPING /\
  processes w' = alter (deliver SIGINT) pid (processes w) /\
  timers w' = timers w ++ [mkTimeout Armed (timeout_delay (stopDevModeTimeout w))
                             (length (stopRequests w))] /\
  stopRequests w' = stopRequests w ++ [mkStopEnv false (Some (length (timers w))) pid] /\
  devProcessStopRequest_of w' path = Some (length (stopRequests w)).

Definition stop_ignored (path : string) (w w' : World) : Prop :=
  devStatus_of w' path = devStatus_of w path /\
  devProcessStopRequest_of w' path = devProcessStopRequest_of w path /\
  processes w' = processes w /\
  timers w' = timers w /\
  stopRequests w' = stopRequests w.
(** ** Reachable worlds

    [enabled] says when an event can happen.  The dev command can run
    [devRunOn] at any time: the menus of the editor offer it only while the
    state of the component is none of starting, running and stopping, but
    the commands await before they call [devRunOn] ([devOnPodman] awaits
    [isPodmanPresent]), and [devRunOn] itself does not check the state, so
    commands issued one after the other on an idle component all get there.
    A terminal is opened once, and closed once; a process emits 'spawn' or
    'error' at most once and before any other event, 'exit' once, and output
    unless it has failed, also after 'exit'; a timer fires while it is armed;
    a warning is answered while it is on screen.

    [calm] is the proviso under which some of the properties below hold:
    the event does not run [devRunOn] on a session that is starting, running
    or stopping.  [unraced] worlds are those reached by calm events only. *)

Definition idle (status : option ComponentContextState) : bool :=
  match status with
  | Some DEV_STARTING | Some DEV_RUNNING | Some DEV_STOPPING => false
  | _ => true
  end.

Definition enabled (ev : Event) (w : World) : bool :=
  match ev with
  | Dev _ _ => true
  | Resume k => bool_decide (is_Some (suspended w !! k))
  | TerminalOpen t =>
      match terminals w !! t with
      | Some T => negb (term_opened T) && negb (term_closed T)
      | None => false
      end
  | TerminalClose t =>
      match terminals w !! t with
      | Some T => negb (term_closed T)
      | None => false
      end
  | TerminalInput t _ =>
      match terminals w !! t with
      | Some T => term_opened T && negb (term_closed T)
      | None => false
      end
  | ProcessSpawn pid | ProcessError pid _ =>
      match processes w !! pid with
      | Some p => bool_decide (phase p = Pending)
      | None => false
      end
  | ProcessStdout pid _ | ProcessStderr pid _ =>
      match processes w !! pid with
      | Some p => negb (bool_decide (phase p = Failed))
      | None => false
      end
  | ProcessExit pid _ _ =>
      match processes w !! pid with
      | Some p => running p
      | None => false
      end
  | ForceExit _ => true
  | TimerExpires t =>
      match timers w !! t with
      | Some T => bool_decide (timer_state T = Armed)
      | None => false
      end
  | WarningAnswer env _ => bool_decide (env ∈ prompts w)
  end.

Definition calm (ev : Event) (w : World) : bool :=
  match ev with
  | Dev component _ => idle (devStatus_of w (contextPath component))
  | _ => true
  end.

Inductive reachable : World -> Prop :=
| reachable_initial (timeout : Z) : reachable (initial timeout)
| reachable_step (w : World) (ev : Event) :
    reachable w -> enabled ev w = true -> reachable (handle ev w).

Inductive unraced : World -> Prop :=
| unraced_initial (timeout : Z) : unraced (initial timeout)
| unraced_step (w : World) (ev : Event) :
    unraced w -> enabled ev w = true -> calm ev w = true -> unraced (handle ev w).

(** ** What is under way for a workspace *)

Fixpoint count {A} (f : A -> bool) (l : list A) : nat :=
  match l with
  | [] => 0
  | x :: l' => (if f x then 1 else 0) + count f l'
  end.

Definition suspended_for (path : string)
    (k : ComponentWorkspaceFolder * option RunTarget) : bool :=
  bool_decide (contextPath k.1 = path).

Definition openable_for (path : string) (T : Terminal) : bool :=
  bool_decide (contextPath (term_component T) = path)
  && negb (term_opened T) && negb (term_closed T).

Definition in_phase (ph : Phase) (path : string) (p : ChildProcess) : bool :=
  bool_decide (cwd p = path) && bool_decide (phase p = ph).

(** Starts of the dev loop of [path] that have not come to a spawned process
    yet: calls of [devRunOn] at their await, terminals yet to open, processes
    yet to signal. *)
Definition starts (w : World) (path : string) : nat :=
  count (suspended_for path) (suspended w)
  + count (openable_for path) (terminals w)
  + count (in_phase Pending path) (processes w).

Definition spawned (w : World) (path : string) : nat :=
  count (in_phase Spawned path) (processes w).

(** At most one start is under way or spawned; none when the session is
    idle; a session holds a process only while running or stopping, and then
    a spawned one exists; a stopping session holds a process. *)
Definition session_ok (w : World) (path : string) : Prop :=
  let st := devStatus_of w path in
  let pr := devProcess_of w path in
  starts w path + spawned w path <= 1 /\
  (idle st = true -> starts w path + spawned w path = 0) /\
  (pr <> None -> (st = Some DEV_RUNNING \/ st = Some DEV_STOPPING) /\ spawned w path = 1) /\
  (st = Some DEV_STOPPING -> pr <> None).

(** Every event of the list can happen when its turn comes. *)
Fixpoint all_enabled (evs : list Event) (w : World) : bool :=
  match evs with
  | [] => true
  | ev :: evs' => enabled ev w && all_enabled evs' (handle ev w)
  end.

(** Every event of the list can happen and is calm when its turn comes. *)
Fixpoint all_calm (evs : list Event) (w : World) : bool :=
  match evs with
  | [] => true
  | ev :: evs' => enabled ev w && calm ev w && all_calm evs' (handle ev w)
  end.

(** ** What holds of a session without proviso

    A session that is stopping holds a stop request, and a session that
    holds a stop request holds a process. *)
Definition request_held (w : World) (path : string) : Prop :=
  (devStatus_of w path = Some DEV_STOPPING -> devProcessStopRequest_of w path <> None) /\
  (devProcessStopRequest_of w path <> None -> devProcess_of w path <> None).

(** What an event can make of the state, the stop request and the process
    of a session: nothing; a start; a sign of life, with or without the
    process; a failed start; an exit; a stop request. *)
Inductive Move := Stay | Start | Alive | Spawn | Fail | Leave | Stop.

Definition moved (m : Move) (w w' : World) (path : string) : Prop :=
  let st := devStatus_of w path in
  let rq := devProcessStopRequest_of w path in
  let pr := devProcess_of w path in
  let st' := devStatus_of w' path in
  let rq' := devProcessStopRequest_of w' path in
  let pr' := devProcess_of w' path in
  match m with
  | Stay => st' = st /\ rq' = rq /\ pr' = pr
  | Start => st' = Some DEV_STARTING /\ rq' = rq /\ pr' = pr
  | Alive => st = Some DEV_STARTING /\ st' = Some DEV_RUNNING /\ rq' = rq /\ pr' = pr
  | Spawn => st' = Some DEV_RUNNING /\ rq' = rq /\ pr' <> None
  | Fail => st' = Some DEV /\ rq' = rq /\ pr' = pr
  | Leave => st' = Some DEV /\ rq' = None /\ pr' = None
  | Stop => st' = Some DEV_STOPPING /\ rq = None /\ rq' <> None /\ pr' = pr /\ pr <> None
  end.

(** * The rest of the class

    ** Whose event it is *)

(** The workspace whose session an event is about; timers and warnings are
    about none. *)
Definition workspace_of (ev : Event) (w : World) : option string :=
  match ev with
  | Dev component _ | ForceExit component => Some (contextPath component)
  | Resume k => (fun c => contextPath c.1) <$> suspended w !! k
  | TerminalOpen t | TerminalClose t | TerminalInput t _ =>
      (fun T => contextPath (term_component T)) <$> terminals w !! t
  | ProcessSpawn pid | ProcessError pid _ | ProcessStdout pid _
  | ProcessStderr pid _ | ProcessExit pid _ _ => cwd <$> processes w !! pid
  | TimerExpires _ | WarningAnswer _ _ => None
  end.

Definition runOn_of (w : World) (path : string) : option RunTarget :=
  cs ← componentStates w !! path; runOn cs.

(** [w'] shows the state and the run target that [w] shows, for every
    workspace. *)
Definition same_status (w w' : World) : Prop :=
  forall path,
    devStatus_of w' path = devStatus_of w path /\ runOn_of w' path = runOn_of w path.

(** ** Stop requests and their timers over reachable worlds *)

(** A session has a stop request exactly while it is stopping. *)
Definition request_ok (w : World) (path : string) : Prop :=
  devProcessStopRequest_of w path <> None <-> devStatus_of w path = Some DEV_STOPPING.

(** What a world shows of the closure [env]: its timer handle; and of the
    timer [t]: whether it is cancelled, and the closure its callback uses. *)
Definition handle_of (w : World) (env : nat) : option (option nat) :=
  devCleaningTimeout <$> stopRequests w !! env.

Definition timer_of (w : World) (t : nat) : option (bool * nat) :=
  (fun T => (bool_decide (timer_state T = Cancelled), timer_env T)) <$> timers w !! t.

(** Closures and timers are created in pairs with equal indices; a closure
    holds the handle of its own timer or none; its timer is cancelled exactly
    when it holds none; it holds one exactly while it is the stop request of
    a session; and no two sessions share a stop request. *)
Definition timers_ok (w : World) : Prop :=
  length (timers w) = length (stopRequests w) /\
  (forall t c env, timer_of w t = Some (c, env) -> env = t) /\
  (forall env h, handle_of w env = Some h -> h = None \/ h = Some env) /\
  (forall t c env, timer_of w t = Some (c, env) ->
     (c = true <-> handle_of w t = Some None)) /\
  (forall env, handle_of w env = Some (Some env) ->
     exists path, devProcessStopRequest_of w path = Some env) /\
  (forall path env, devProcessStopRequest_of w path = Some env ->
     handle_of w env = Some (Some env)) /\
  (forall path path' env,
     devProcessStopRequest_of w path = Some env ->
     devProcessStopRequest_of w path' = Some env -> path = path').

(** [w'] shows the same closures, timers and stop requests as [w]. *)
Definition same_timers (w w' : World) : Prop :=
  (forall t, timer_of w' t = timer_of w t) /\
  (forall env, handle_of w' env = handle_of w env) /\
  (forall path, devProcessStopRequest_of w' path = devProcessStopRequest_of w path) /\
  length (timers w') = length (timers w) /\
  length (stopRequests w') = length (stopRequests w).

(** ** Context values and labels *)

(** The string value of a member of [ComponentContextState]. *)
Definition value (st : ComponentContextState) : string :=
  match st with
  | DEV => "dev-nrn"
  | DEV_STARTING => "dev-str"
  | DEV_RUNNING => "dev-run"
  | DEV_STOPPING => "dev-stp"
  | DEB => "deb-nrn"
  | DEB_RUNNING => "deb-run"
  | DEP => "dep-nrn"
  | DEP_RUNNING => "dep-run"
  end.

(** [contextSuffix.concat('.').concat(status)] when [status] is set. *)
Definition with_status (status : option ComponentContextState) (contextSuffix : string) : string :=
  match status with
  | Some st => contextSuffix +:+ "." +:+ value st
  | None => contextSuffix
  end.

(** [Component.generateContextValue]: it reads the state with
    [componentStates.get], so it throws for a folder without state. *)
Definition generateContextValue (folder : ComponentWorkspaceFolder) (w : World) : option string :=
  state ← componentStates w !! contextPath folder;
  let contextSuffix := "" in
  let contextSuffix := with_status (devStatus state) contextSuffix in
  let contextSuffix := with_status (debugStatus state) contextSuffix in
  let contextSuffix := with_status (deployStatus state) contextSuffix in
  Some ("openshift.component" +:+ contextSuffix).

Definition target_name (target : RunTarget) : string :=
  match target with podman => "podman" end.

(** [Component.renderStateLabel]: it reads the state with
    [getComponentDevState], which creates it when it is missing. *)
Definition renderStateLabel (folder : ComponentWorkspaceFolder) (w : World) : string * World :=
  let w := getComponentDevState folder w in
  let label :=
    match componentStates w !! contextPath folder with
    | Some state =>
        let runningOnSuffix :=
          match runOn state with
          | Some target => " on " +:+ target_name target
          | None => ""
          end in
        match devStatus state with
        | Some DEV_STARTING => " (dev starting" +:+ runningOnSuffix +:+ ")"
        | Some DEV_RUNNING => " (dev running" +:+ runningOnSuffix +:+ ")"
        | Some DEV_STOPPING => " (dev stopping" +:+ runningOnSuffix +:+ ")"
        | _ => ""
        end
    | None => ""
    end in
  (label, w).

(** [Component.renderLabel]. *)
Definition renderLabel (folder : ComponentWorkspaceFolder) (w : World) : string * World :=
  let '(label, w) := renderStateLabel folder w in
  (metadata_name folder +:+ label, w).

(** [Component.getDevPlatform] and [Component.createExperimentalEnv]; the
    environment is the list of its entries. *)
Definition getDevPlatform (componentFolder : ComponentWorkspaceFolder) (w : World)
  : option RunTarget * World :=
  let w := getComponentDevState componentFolder w in
  (runOn_of w (contextPath componentFolder), w).

Definition createExperimentalEnv (componentFolder : ComponentWorkspaceFolder) (w : World)
  : list (string * string) * World :=
  let w := getComponentDevState componentFolder w in
  (match runOn_of w (contextPath componentFolder) with
   | Some _ => [("ODO_EXPERIMENTAL_MODE", "true")]
   | None => []
   end, w).

(** The regular expressions of [ComponentStateRegex] use literal characters
    and [.*] only. *)
Inductive RegexItem :=
| Lit (c : ascii)
| AnyStar.                       (* [.*]: any run of characters but line ends *)

Fixpoint lit (s : string) : list RegexItem :=
  match s with
  | EmptyString => []
  | String c s' => Lit c :: lit s'
  end.

Definition line_terminator (c : ascii) : bool :=
  bool_decide (c = LF) || bool_decide (c = CR).

(** Whether the expression matches a prefix of the string. *)
Fixpoint matches_prefix (r : list RegexItem) : string -> bool :=
  match r with
  | [] => fun _ => true
  | Lit c :: r' =>
      fun s =>
        match s with
        | String c' s' => bool_decide (c = c') && matches_prefix r' s'
        | EmptyString => false
        end
  | AnyStar :: r' =>
      fix star (s : string) : bool :=
        matches_prefix r' s
        || match s with
           | String c s' => negb (line_terminator c) && star s'
           | EmptyString => false
           end
  end.

(** [regex.test(s)]: the expression matches somewhere in the string. *)
Fixpoint test (r : list RegexItem) (s : string) : bool :=
  matches_prefix r s
  || match s with
     | String _ s' => test r s'
     | EmptyString => false
     end.

Definition COMPONENT_DEV_STARTING := lit "openshift.component.dev-str" ++ [AnyStar].
Definition COMPONENT_DEV_RUNNING := lit "openshift.component.dev-run" ++ [AnyStar].
Definition COMPONENT_DEV_STOPPING := lit "openshift.component.dev-stp" ++ [AnyStar].
Definition COMPONENT_DEB_STARTING :=
  lit "openshift.component" ++ [AnyStar] ++ lit ".deb-str" ++ [AnyStar].
Definition COMPONENT_DEB_RUNNING :=
  lit "openshift.component" ++ [AnyStar] ++ lit ".deb-run" ++ [AnyStar].
Definition COMPONENT_DEB_STOPPING :=
  lit "openshift.component" ++ [AnyStar] ++ lit ".deb-stp" ++ [AnyStar].
Definition COMPONENT_DEP_STARTING :=
  lit "openshift.component" ++ [AnyStar] ++ lit ".dep-str" ++ [AnyStar].
Definition COMPONENT_DEP_RUNNING :=
  lit "openshift.component" ++ [AnyStar] ++ lit ".dep-run" ++ [AnyStar].
Definition COMPONENT_DEP_STOPPING :=
  lit "openshift.component" ++ [AnyStar] ++ lit ".dep-stp" ++ [AnyStar].

(** The values the code ever gives to the three status fields. *)
Definition dev_valued (status : option ComponentContextState) : bool :=
  match status with
  | None | Some DEV | Some DEV_STARTING | Some DEV_RUNNING | Some DEV_STOPPING => true
  | _ => false
  end.

Definition typed_state (cs : ComponentDevState) : Prop :=
  dev_valued (devStatus cs) = true /\
  (debugStatus cs = None \/ debugStatus cs = Some DEB) /\
  (deployStatus cs = None \/ deployStatus cs = Some DEP).

Definition typed (w : World) : Prop :=
  forall path cs, componentStates w !! path = Some cs -> typed_state cs.

(** [related R w w']: every session of [w] is still there in [w'], in a
    state that [R] relates to the one it had. *)
Definition related (R : ComponentDevState -> ComponentDevState -> Prop) (w w' : World) : Prop :=
  forall path cs,
    componentStates w !! path = Some cs ->
    exists cs', componentStates w' !! path = Some cs' /\ R cs cs'.

(** The fields of a session that are not about the dev loop. *)
Definition same_axes (cs cs' : ComponentDevState) : Prop :=
  debugStatus cs' = debugStatus cs /\
  deployStatus cs' = deployStatus cs /\
  contextValue cs' = contextValue cs.

Definition same_runOn (cs cs' : ComponentDevState) : Prop := runOn cs' = runOn cs.

(** ** Commands on the terminal of a session *)

(** [Component.showDevTerminal]: the [?.] guards the state object only, so a
    session without terminal throws. *)
Definition showDevTerminal (context : ComponentWorkspaceFolder) (w : World) : option World :=
  match componentStates w !! contextPath context with
  | Some cs =>
      t ← devTerminal cs;
      Some (with_terminals (alter shown t) w)
  | None => Some w
  end.

(** The command [workbench.action.terminal.sendSequence]: the text goes to
    the active terminal, if there is one and it takes input. *)
Definition sendSequence (active : option nat) (text : string) (w : World) : World :=
  match active with
  | Some t =>
      if enabled (TerminalInput t text) w then handle (TerminalInput t text) w else w
  | None => w
  end.

(** [Component.exitDevMode]; [active] is the terminal that is active when the
    command is run.  [Terminal.show] makes the terminal of the session the
    active one. *)
Definition exitDevMode (component : ComponentWorkspaceFolder) (active : option nat)
    (w : World) : option World :=
  match componentStates w !! contextPath component with
  | Some componentState =>
      t ← devTerminal componentState;
      Some (sendSequence (Some t) (String ETX "") (with_terminals (alter shown t) w))
  | None => Some (sendSequence active (String ETX "") w)
  end.

(** The terminal a session holds is a terminal of its workspace that has not
    been closed; a session that holds a process holds an open terminal or
    none. *)
Definition terminal_ok (w : World) (path : string) : Prop :=
  forall t, devTerminal_of w path = Some t ->
    exists T, terminals w !! t = Some T /\
      contextPath (term_component T) = path /\
      term_closed T = false /\
      (term_opened T = false -> devProcess_of w path = None).

(** The part of [terminal_ok] that does not depend on the process. *)
Definition terminal_held (w : World) (path : string) : Prop :=
  forall t, devTerminal_of w path = Some t ->
    exists T, terminals w !! t = Some T /\
      contextPath (term_component T) = path /\
      term_closed T = false.

(** [ev] makes [devRunOn] create a terminal for the workspace [path]. *)
Definition creates_terminal (path : string) (w : World) (ev : Event) : bool :=
  match ev with
  | Dev component (Some _) => bool_decide (contextPath component = path)
  | Resume k =>
      match suspended w !! k with
      | Some (component, _) => bool_decide (contextPath component = path)
      | None => false
      end
  | _ => false
  end.

(** None of the events of the list creates a terminal for [path]. *)
Fixpoint before_terminal (path : string) (evs : list Event) (w : World) : Prop :=
  match evs with
  | [] => True
  | ev :: evs' => creates_terminal path w ev = false /\ before_terminal path evs' (handle ev w)
  end.

(** What [terminal_ok] sees of a terminal stays, but that it may open. *)
Definition terminal_le (T T' : Terminal) : Prop :=
  contextPath (term_component T') = contextPath (term_component T) /\
  term_closed T' = term_closed T /\
  (term_opened T' = false -> term_opened T = false).

Definition terminals_le (w w' : World) : Prop :=
  forall t T, terminals w !! t = Some T ->
    exists T', terminals w' !! t = Some T' /\ terminal_le T T'.

(** The state in which the decoder is left by the bytes of a chunk: it is
    [utf8_start] when the chunk does not end inside a character. *)
Fixpoint utf8_final (st : Utf8State) (bytes : string) : Utf8State :=
  match bytes with
  | EmptyString => st
  | String b rest => utf8_final (utf8_step st b).2 rest
  end.

(** The text written to the terminal [t] so far, the banner apart. *)
Definition text_for (t : nat) (o : nat * Output) : string :=
  match o with
  | (t', Text s) => if decide (t' = t) then s else ""
  | (_, Starting _) => ""
  end.

Definition terminal_text (t : nat) (w : World) : string :=
  foldr (fun o rest => text_for t o +:+ rest) "" (written w).

(** ** Debugging

    [Component.init], [Component.debug], [Component.startDebugger] and
    [Component.startOdoAndConnectDebugger].  What [odo describe] answers,
    what the user answers and whether [debug.startDebugging] succeeds are
    arguments; the extensions that are installed are part of the state. *)

From stdpp Require Import pretty.

(** The part of a component description the code reads. *)
Record ForwardedPort := mkForwardedPort {
  containerName : string;
  containerPort : Z;
  localAddress : string;
  localPort : Z;
}.

Record Endpoint := mkEndpoint {
  endpoint_name : string;
  targetPort : Z;
}.

Record Container := mkContainer {
  endpoints : option (list Endpoint);
}.

Record DevfileComponent := mkDevfileComponent {
  component_name : string;
  container : option Container;
}.

Record ComponentDescription := mkDescription {
  devForwardedPorts : option (list ForwardedPort);
  devfile_components : list DevfileComponent;   (* devfileData.devfile.components *)
}.

(** The part of a [DebugConfiguration] the class reads or writes once it has
    built it; the entries it only passes on ([hostName], [address],
    [projectName], [localRoot], [remoteRoot], [pathMappings]) are left out. *)
Record DebugConfiguration := mkDebugConfiguration {
  cfg_name : string;
  cfg_type : string;
  cfg_request : string;
  cfg_contextPath : option string;
  cfg_port : option Z;
  cfg_connect : option (string * option Z);   (* connect: {host, port} *)
}.

Definition set_cfg_contextPath (v : option string) (c : DebugConfiguration) :=
  mkDebugConfiguration (cfg_name c) (cfg_type c) (cfg_request c) v (cfg_port c)
    (cfg_connect c).
Definition set_cfg_port (v : option Z) (c : DebugConfiguration) :=
  mkDebugConfiguration (cfg_name c) (cfg_type c) (cfg_request c) (cfg_contextPath c) v
    (cfg_connect c).
Definition set_cfg_connect (v : option (string * option Z)) (c : DebugConfiguration) :=
  mkDebugConfiguration (cfg_name c) (cfg_type c) (cfg_request c) (cfg_contextPath c)
    (cfg_port c) v.

(** The editor around the dev sessions. *)
Record Editor := mkEditor {
  world : World;
  debugSessions : gmap string DebugConfiguration;   (* a session, by its configuration *)
  installed : list string;                          (* extensions.getExtension(id) *)
  commands : list (string * option string);         (* commands.executeCommand *)
  progress : list string;                           (* progress notifications *)
  debugging : list DebugConfiguration;              (* debug.startDebugging *)
  workspaceFolders : option (list string);          (* workspaceFolders[i].uri.fsPath *)
  removed : list string;                            (* fs.rm, recursive and forced *)
  telemetry : list string;                          (* sendTelemetry *)
  views : list (string * list string);              (* AddServiceBindingViewLoader.loadView *)
  bindings : list (string * string * string * string);   (* odo.addBinding *)
}.

Definition with_world (f : World -> World) (e : Editor) :=
  mkEditor (f (world e)) (debugSessions e) (installed e) (commands e) (progress e)
    (debugging e) (workspaceFolders e) (removed e)
    (telemetry e) (views e) (bindings e).
Definition with_debugSessions
    (f : gmap string DebugConfiguration -> gmap string DebugConfiguration) (e : Editor) :=
  mkEditor (world e) (f (debugSessions e)) (installed e) (commands e) (progress e)
    (debugging e) (workspaceFolders e) (removed e)
    (telemetry e) (views e) (bindings e).
Definition executeCommand (name : string) (arg : option string) (e : Editor) :=
  mkEditor (world e) (debugSessions e) (installed e) (commands e ++ [(name, arg)])
    (progress e) (debugging e) (workspaceFolders e) (removed e)
    (telemetry e) (views e) (bindings e).
Definition report (message : string) (e : Editor) :=
  mkEditor (world e) (debugSessions e) (installed e) (commands e)
    (progress e ++ [message]) (debugging e) (workspaceFolders e) (removed e)
    (telemetry e) (views e) (bindings e).
Definition startDebugging (config : DebugConfiguration) (e : Editor) :=
  mkEditor (world e) (debugSessions e) (installed e) (commands e) (progress e)
    (debugging e ++ [config]) (workspaceFolders e) (removed e)
    (telemetry e) (views e) (bindings e).
Definition with_workspaceFolders (f : option (list string) -> option (list string))
    (e : Editor) :=
  mkEditor (world e) (debugSessions e) (installed e) (commands e) (progress e)
    (debugging e) (f (workspaceFolders e)) (removed e)
    (telemetry e) (views e) (bindings e).
Definition rm (path : string) (e : Editor) :=
  mkEditor (world e) (debugSessions e) (installed e) (commands e) (progress e)
    (debugging e) (workspaceFolders e) (removed e ++ [path])
    (telemetry e) (views e) (bindings e).

Definition sendTelemetry (event : string) (e : Editor) :=
  mkEditor (world e) (debugSessions e) (installed e) (commands e) (progress e)
    (debugging e) (workspaceFolders e) (removed e)
    (telemetry e ++ [event]) (views e) (bindings e).
Definition loadView (path : string) (items : list string) (e : Editor) :=
  mkEditor (world e) (debugSessions e) (installed e) (commands e) (progress e)
    (debugging e) (workspaceFolders e) (removed e)
    (telemetry e) (views e ++ [(path, items)]) (bindings e).
Definition odo_addBinding (path namespace name bindingName : string) (e : Editor) :=
  mkEditor (world e) (debugSessions e) (installed e) (commands e) (progress e)
    (debugging e) (workspaceFolders e) (removed e)
    (telemetry e) (views e) (bindings e ++ [(path, namespace, name, bindingName)]).

Definition getExtension (id : string) (e : Editor) : bool := bool_decide (id ∈ installed e).

(** How a call ends: with a value, with a rejected [VsCommandError], or with
    a [TypeError]. *)
Inductive Completion (A : Type) :=
| Returned (a : A)
| Rejected (message : string) (language : string)
| Thrown.
Arguments Returned {A} a.
Arguments Rejected {A} message language.
Arguments Thrown {A}.

(** [createStartDebuggerResult(language, message)]. *)
Record StartDebuggerResult := mkStartDebuggerResult {
  result_language : string;
  result_message : string;
}.

(** *** [Component.init] *)

(** A string is truthy when it is not empty. *)
Definition truthy (s : option string) : option string :=
  match s with
  | Some "" | None => None
  | Some p => Some p
  end.

Definition onDidStartDebugSession (session : DebugConfiguration) (e : Editor) : Editor :=
  match truthy (cfg_contextPath session) with
  | Some p => with_debugSessions (insert p session) e
  | None => e
  end.

Definition onDidTerminateDebugSession (session : DebugConfiguration) (e : Editor) : Editor :=
  match truthy (cfg_contextPath session) with
  | Some p => with_debugSessions (delete p) e
  | None => e
  end.

(** What the editor announces about debug sessions. *)
Inductive SessionNotice :=
| SessionStarted (session : DebugConfiguration)
| SessionTerminated (session : DebugConfiguration).

Definition announce (n : SessionNotice) (e : Editor) : Editor :=
  match n with
  | SessionStarted session => onDidStartDebugSession session e
  | SessionTerminated session => onDidTerminateDebugSession session e
  end.

Definition announce_all (ns : list SessionNotice) (e : Editor) : Editor :=
  foldl (fun e n => announce n e) e ns.

(** [n] is the end of a session of the context path [path]. *)
Definition ends_session (path : string) (n : SessionNotice) : bool :=
  match n with
  | SessionTerminated session => bool_decide (truthy (cfg_contextPath session) = Some path)
  | SessionStarted _ => false
  end.

(** *** [Component.startOdoAndConnectDebugger] *)

(** One turn of the [forEach]: the port to push, if any; [None] when the
    turn throws. *)
Definition debugPortCandidate (description : ComponentDescription) (pf : ForwardedPort)
  : option (option Z) :=
  match find (fun item => bool_decide (component_name item = containerName pf))
          (devfile_components description) with
  | Some devComponent =>
      match container devComponent with
      | Some c =>
          eps ← endpoints c;
          candidatePort ← find (fun endpoint =>
                                  bool_decide (targetPort endpoint = containerPort pf)) eps;
          Some (if String.prefix "debug" (endpoint_name candidatePort)
                then Some (targetPort candidatePort) else None)
      | None => Some None
      end
  | None => Some None
  end.

Fixpoint debugPortsCandidates (description : ComponentDescription)
    (ports : list ForwardedPort) : option (list Z) :=
  match ports with
  | [] => Some []
  | pf :: rest =>
      candidate ← debugPortCandidate description pf;
      candidates ← debugPortsCandidates description rest;
      Some (match candidate with Some p => p :: candidates | None => candidates end)
  end.

Definition filteredForwardedPorts (candidates : list Z) (ports : list ForwardedPort)
  : list ForwardedPort :=
  match candidates with
  | [] => ports
  | _ => filter (fun fp => containerPort fp ∈ candidates) ports
  end.

(** An item of the quick pick. *)
Record PortItem := mkPortItem {
  label : string;
  description : string;
  fp : ForwardedPort;
}.

Definition port_item (fp : ForwardedPort) : PortItem :=
  mkPortItem (localAddress fp +:+ ":" +:+ pretty (localPort fp))
    ("Forwards to " +:+ containerName fp +:+ ":" +:+ pretty (containerPort fp)) fp.

(** The item the debugger is pointed at: the only one, or the one the user
    picks; [pick] is the index of the chosen item, if one is chosen. *)
Definition choose (ports : list PortItem) (pick : option nat) : option PortItem :=
  match ports with
  | [port] => Some port
  | _ => i ← pick; ports !! i
  end.

Definition startOdoAndConnectDebugger
    (describe : string -> bool -> ComponentDescription)
    (pick : option nat) (started : bool)
    (component : ComponentWorkspaceFolder) (config : DebugConfiguration) (e : Editor)
  : Completion (option StartDebuggerResult) * Editor :=
  let e := with_world (getComponentDevState component) e in
  let componentDescription :=
    describe (contextPath component)
      (bool_decide (is_Some (runOn_of (world e) (contextPath component)))) in
  match devForwardedPorts componentDescription with
  | Some (pf :: rest) =>
      match debugPortsCandidates componentDescription (pf :: rest) with
      | None => (Thrown, e)
      | Some candidates =>
          let ports := port_item <$> filteredForwardedPorts candidates (pf :: rest) in
          match choose ports pick with
          | None => (Returned None, e)
          | Some port =>
              let config := set_cfg_contextPath (Some (contextPath component)) config in
              let configured :=
                if decide (cfg_type config = "python") then
                  match cfg_connect config with
                  | Some (host, _) =>
                      Some (set_cfg_connect (Some (host, Some (localPort (fp port)))) config)
                  | None => None
                  end
                else Some (set_cfg_port (Some (localPort (fp port))) config) in
              match configured with
              | None => (Thrown, e)
              | Some config =>
                  let e := startDebugging config e in
                  if started
                  then (Returned (Some (mkStartDebuggerResult (cfg_type config)
                                          "Debugger session has successfully started.")), e)
                  else (Rejected "Debugger session failed to start." (cfg_type config), e)
              end
          end
      end
  | _ =>
      (Returned (Some (mkStartDebuggerResult (cfg_type config)
                         "Component has no ports forwarded.")), e)
  end.

(** *** [Component.startDebugger] and [Component.debug] *)

Definition JAVA_EXT : string := "redhat.java".
Definition JAVA_DEBUG_EXT : string := "vscjava.vscode-java-debug".
Definition PYTHON_EXT : string := "ms-python.python".

Definition attach (name type : string) (connect : option (string * option Z))
  : DebugConfiguration :=
  mkDebugConfiguration ("Attach to '" +:+ name +:+ "' component.") type "attach"
    None None connect.

Definition warn (text : string) (items : list string) : Editor -> Editor :=
  with_world (show (WarningMessage text items)).

Definition install (ids : list string) (e : Editor) : Editor :=
  foldl (fun e id => executeCommand "workbench.extensions.installExtension" (Some id) e)
    e ids.

(** The warning about missing extensions and what follows from its answer.
    The message that asks to reload has the item 'Reload'; its answer is not
    read. *)
Definition offer_install (warningMsg progressMsg reloadMsg : string)
    (missing : list string) (response : option string) (e : Editor) : Editor :=
  let e := warn warningMsg ["Install"] e in
  if decide (response = Some "Install") then
    let e := report progressMsg e in
    let e := install missing e in
    let e := with_world (show (InformationMessage reloadMsg)) e in
    executeCommand "workbench.action.reloadWindow" None e
  else e.

(** [tags] are [component.component.devfileData.devfile.metadata.tags];
    [answer] is the answer to the one warning with items the call shows. *)
Definition startDebugger
    (describe : string -> bool -> ComponentDescription)
    (answer : option string) (pick : option nat) (started : bool)
    (tags : list string) (component : ComponentWorkspaceFolder) (e : Editor)
  : Completion (option StartDebuggerResult) * Editor :=
  match debugSessions e !! contextPath component with
  | Some _ =>
      let e := warn ("Debugger session is already running for "
                     +:+ metadata_name component +:+ ".")
                 ["Show 'Run and Debug' view"] e in
      (Returned None,
       match answer with
       | Some _ => executeCommand "workbench.view.debug" None e
       | None => e
       end)
  | None =>
      let isJava := bool_decide ("Java" ∈ tags) in
      let isNode := bool_decide ("Node.js" ∈ tags) in
      let isPython := bool_decide ("Python" ∈ tags) in
      if isJava || isNode || isPython then
        if isJava then
          let jlsIsActive := getExtension JAVA_EXT e in
          let jdIsActive := getExtension JAVA_DEBUG_EXT e in
          let e :=
            if negb jlsIsActive || negb jdIsActive then
              let warningMsg :=
                if jlsIsActive && negb jdIsActive then
                  "Debugger for Java (Publisher: Microsoft) extension is required to debug component"
                else if negb jlsIsActive && jdIsActive then
                  "Language support for Java ™ (Publisher: Red Hat) extension is required to support debugging."
                else
                  "Language support for Java ™ and Debugger for Java extensions are required to debug component" in
              offer_install warningMsg
                "Installing extensions required to debug Java Component ..."
                "Please reload the window to activate installed extensions."
                ((if jlsIsActive then [] else [JAVA_EXT])
                 ++ (if jdIsActive then [] else [JAVA_DEBUG_EXT]))
                answer e
            else e in
          if jlsIsActive && jdIsActive then
            startOdoAndConnectDebugger describe pick started component
              (attach (metadata_name component) "java" None) e
          else (Returned None, e)
        else if isPython then
          let pythonExtIsInstalled := getExtension PYTHON_EXT e in
          let e :=
            if negb pythonExtIsInstalled then
              offer_install
                "Python extension (Publisher: Microsoft) is required to support debugging."
                "Installing extensions required to debug Python Component ..."
                "Please reload the window to activate installed extension."
                [PYTHON_EXT] answer e
            else e in
          if pythonExtIsInstalled then
            startOdoAndConnectDebugger describe pick started component
              (attach (metadata_name component) "python" (Some ("localhost", None))) e
          else (Returned None, e)
        else
          startOdoAndConnectDebugger describe pick started component
            (attach (metadata_name component) "pwa-node" None) e
      else
        (Returned None,
         warn "Debug command currently supports local components with Java, Node.Js and Python component types."
           [] e)
  end.

(** [Component.debug]. *)
Definition debug
    (describe : string -> bool -> ComponentDescription)
    (answer : option string) (pick : option nat) (started : bool)
    (tags : list string) (component : option ComponentWorkspaceFolder) (e : Editor)
  : Completion (option StartDebuggerResult) * Editor :=
  match component with
  | None => (Returned None, e)
  | Some component =>
      match debugSessions e !! contextPath component with
      | Some _ => startDebugger describe answer pick started tags component e
      | None =>
          startDebugger describe answer pick started tags component
            (report ("Starting debugger session for the component '"
                     +:+ metadata_name component +:+ "'.") e)
      end
  end.

(** ** [Component.deleteSourceFolder] *)

(** The loop over [workspace.workspaceFolders]: the first index, from [i] on,
    whose folder is [path]; [None] is the [-1] of the source. *)
Fixpoint workspaceFolderToRmIndex (path : string) (folders : list string) (i : nat)
  : option nat :=
  match folders with
  | [] => None
  | folder :: rest =>
      if decide (folder = path) then Some i
      else workspaceFolderToRmIndex path rest (S i)
  end.

Definition DELETE_SOURCE_FOLDER : string := "Delete Source Folder".
Definition CANCEL : string := "Cancel".

(** [workspace.workspaceFolders] is [undefined] while no folder is open, and
    the loop then throws, after the folder has been removed from disk. *)
Definition deleteSourceFolder (context : ComponentWorkspaceFolder)
    (response : option string) (e : Editor) : Completion () * Editor :=
  let e := warn ("Are you sure you want to delete the folder containing the source code for "
                 +:+ contextPath context +:+ "?") [DELETE_SOURCE_FOLDER; CANCEL] e in
  if decide (response = Some DELETE_SOURCE_FOLDER) then
    let e := rm (contextPath context) e in
    match workspaceFolders e with
    | Some folders =>
        match workspaceFolderToRmIndex (contextPath context) folders 0 with
        | Some i => (Returned (), with_workspaceFolders (fmap (delete i)) e)
        | None => (Returned (), e)
        end
    | None => (Thrown, e)
    end
  else (Returned (), e).

(** ** [Component.openInBrowser] *)

Inductive OpenInBrowserResult :=
| open_undefined
| open_null
| open_message (text : string).

Definition openInBrowser
    (describe : string -> bool -> ComponentDescription) (pick : option nat)
    (component : ComponentWorkspaceFolder) (e : Editor)
  : OpenInBrowserResult * Editor :=
  let e := with_world (getComponentDevState component) e in
  let componentDescription :=
    describe (contextPath component)
      (bool_decide (is_Some (runOn_of (world e) (contextPath component)))) in
  match devForwardedPorts componentDescription with
  | Some [fp] =>
      (open_undefined,
       executeCommand "vscode.open"
         (Some ("http://" +:+ localAddress fp +:+ ":" +:+ pretty (localPort fp))) e)
  | Some (fp1 :: fp2 :: rest) =>
      let ports := port_item <$> fp1 :: fp2 :: rest in
      match i ← pick; ports !! i with
      | Some port =>
          (open_undefined, executeCommand "vscode.open" (Some ("http://" +:+ label port)) e)
      | None => (open_null, e)
      end
  | _ =>
      (open_message "No forwarded ports available for component yet. Pleas wait and try again.",
       e)
  end.

(** ** [Component.dev] and [Component.devOnPodman] *)

Definition dev (component : ComponentWorkspaceFolder) : Editor -> Editor :=
  with_world (handle (Dev component None)).

(** [isPodmanPresent] is what [odo] answers; [result] is the answer to the
    error message, whose one item is 'Install podman'. *)
Definition devOnPodman (isPodmanPresent : bool) (result : option string)
    (component : ComponentWorkspaceFolder) (e : Editor) : Editor :=
  if isPodmanPresent then with_world (handle (Dev component (Some podman))) e
  else
    let e := with_world
               (show (ErrorMessage "Podman is not present in the system, please install podman on your machine and try again.")) e in
    if decide (result = Some "Install podman")
    then executeCommand "vscode.open" (Some "https://podman.io/") e
    else e.
(** [p] is the target of a debug endpoint that one of the ports forwards
    to. *)
Definition debug_port (d : ComponentDescription) (ports : list ForwardedPort) (p : Z) : Prop :=
  exists pf, pf ∈ ports /\ debugPortCandidate d pf = Some (Some p).

(** The port forwards to a container of the devfile that declares no
    endpoint for it. *)
Definition undeclared (d : ComponentDescription) (pf : ForwardedPort) : Prop :=
  exists devComponent c,
    find (fun item => bool_decide (component_name item = containerName pf))
      (devfile_components d) = Some devComponent /\
    container devComponent = Some c /\
    match endpoints c with
    | Some eps => forall ep, ep ∈ eps -> targetPort ep <> containerPort pf
    | None => True
    end.

(** The extensions a component with these tags needs for debugging. *)
Definition required (tags : list string) : list string :=
  if bool_decide ("Java" ∈ tags) then [JAVA_EXT; JAVA_DEBUG_EXT]
  else if bool_decide ("Python" ∈ tags) then [PYTHON_EXT]
  else [].

Definition missing (tags : list string) (e : Editor) : list string :=
  filter (fun id => id ∉ installed e) (required tags).

(** ** [Component.addBinding] *)

Record BindableService := mkBindableService {
  service_namespace : string;      (* metadata.namespace *)
  service_name : string;           (* metadata.name *)
}.

(** [`${service.metadata.namespace}/${service.metadata.name}`]. *)
Definition service_label (service : BindableService) : string :=
  service_namespace service +:+ "/" +:+ service_name service.

(** How the promise around the wizard is settled: the page sends
    'addServiceBinding' with its parameters, or the promise is rejected
    because the panel was closed first or the view existed already. *)
Inductive WizardEnd :=
| wizard_submit (selectedService bindingName : string)
| wizard_reject.

(** [services] is what [odo] answers, [result] the answer to the error
    message, whose one item opens the service catalog; [odo.addBinding] is
    taken to succeed. *)
Definition addBinding (services : option (list BindableService)) (result : option string)
    (wizard : WizardEnd) (component : ComponentWorkspaceFolder) (e : Editor)
  : Completion () * Editor :=
  let e := report "Looking for bindable services" e in
  match services with
  | None | Some [] =>
      let e := with_world (show (ErrorMessage "No bindable services are available")) e in
      (Returned (),
       if decide (result = Some "Open Service Catalog in OpenShift Console")
       then executeCommand "openshift.open.operatorBackedServiceCatalog" None e
       else e)
  | Some services =>
      let e := sendTelemetry "startAddBindingWizard" e in
      let e := loadView (contextPath component) (service_label <$> services) e in
      match wizard with
      | wizard_reject => (Returned (), e)
      | wizard_submit selectedService bindingName =>
          let selectedServiceObject :=
            head (filter (fun service => service_label service = selectedService) services) in
          let e := sendTelemetry "finishAddBindingWizard" e in
          match selectedServiceObject with
          | Some service =>
              (Returned (),
               odo_addBinding (contextPath component) (service_namespace service)
                 (service_name service) bindingName e)
          | None => (Thrown, e)
          end
      end
  end.

(** ** Signals

    The signals a process has received are in order when there are none, or
    one SIGINT followed by SIGABRTs only. *)
Definition in_order (l : list Signal) : Prop :=
  l = [] \/ exists n, l = SIGINT :: replicate n SIGABRT.

(** The process a closure of [exitDevelopmentMode] was created for. *)
Definition process_of (w : World) (env : nat) : option nat :=
  env_devProcess <$> stopRequests w !! env.

(** A process has received its signals in order, and none before it has
    signalled 'spawn'; the process a session holds is a spawned process of
    its workspace that has received no signal before the session has a stop
    request; the process of a closure has left [Pending] and, unless it is
    gone, has received a signal. *)
Definition signals_ok (w : World) : Prop :=
  (forall pid p, processes w !! pid = Some p ->
     in_order (received p) /\ (phase p = Pending -> received p = [])) /\
  (forall path pid, devProcess_of w path = Some pid ->
     exists p, processes w !! pid = Some p /\ phase p = Spawned /\ cwd p = path /\
       (devProcessStopRequest_of w path = None -> received p = [])) /\
  (forall env pid, process_of w env = Some pid ->
     exists p, processes w !! pid = Some p /\ phase p <> Pending /\
       (running p = true -> received p <> [])).

(** The stop request of a session is for the process the session holds. *)
Definition request_process_ok (w : World) : Prop :=
  forall path env, devProcessStopRequest_of w path = Some env ->
    exists pid, process_of w env = Some pid /\ devProcess_of w path = Some pid.

(** [w'] shows the processes of the closures, and the processes and stop
    requests of the sessions that [w] shows. *)
Definition same_requests (w w' : World) : Prop :=
  (forall env, process_of w' env = process_of w env) /\
  (forall path, devProcess_of w' path = devProcess_of w path) /\
  (forall path, devProcessStopRequest_of w' path = devProcessStopRequest_of w path).

(** [w'] shows the processes too. *)
Definition same_signals (w w' : World) : Prop :=
  processes w' = processes w /\ same_requests w w'.

(** ** Two workspaces, and an editor around them *)

Module Examples.

Definition api : ComponentWorkspaceFolder :=
  mkFolder "/home/user/api" "api" true false true.

(** The session of [Scenario.app] runs on the cluster, that of [api] on
    podman. *)
Definition both : World :=
  Eval vm_compute in
    run [Dev api (Some podman); TerminalOpen 1; ProcessSpawn 1] Scenario.up.

(** One container with an application port and a debug port, both
    forwarded. *)
Definition ports : list ForwardedPort :=
  [mkForwardedPort "runtime" 8080 "127.0.0.1" 20001;
   mkForwardedPort "runtime" 5858 "127.0.0.1" 20002].

Definition description : ComponentDescription :=
  mkDescription (Some ports)
    [mkDevfileComponent "runtime"
       (Some (mkContainer (Some [mkEndpoint "http-node" 8080; mkEndpoint "debug" 5858])))].

Definition describe (path : string) (onPodman : bool) : ComponentDescription := description.

(** An editor with the Java extensions, and one without the debugger for
    Java. *)
Definition editor : Editor :=
  mkEditor Scenario.up ∅ [JAVA_EXT; JAVA_DEBUG_EXT] [] [] [] (Some ["/home/user/app"]) []
    [] [] [].

Definition bare : Editor :=
  mkEditor Scenario.up ∅ [JAVA_EXT] [] [] [] (Some ["/home/user/app"]) []
    [] [] [].

Definition java : DebugConfiguration := attach "app" "java" None.

(** The configuration the debugger is asked to attach with. *)
Definition attached : DebugConfiguration :=
  mkDebugConfiguration "Attach to 'app' component." "java" "attach"
    (Some "/home/user/app") (Some 20002%Z) None.

End Examples.

(** * Properties *)

Lemma lookup_assign (path path' : string) f w :
  componentStates (assign path f w) !! path' =
  if decide (path = path') then f <$> componentStates w !! path
  else componentStates w !! path'.
Proof. unfold assign; simpl. apply lookup_alter. Qed.

Lemma handle_exit (w : World) pid p code signal :
  processes w !! pid = Some p ->
  handle (ProcessExit pid code signal) w =
  on_exit (cwd p) (sink p) (with_processes (alter (exited code signal) pid) w).
Proof. intros Hp. simpl. by rewrite Hp. Qed.

(** C2. When the process of a session that is stopping exits, with whatever
    exit code or signal, while the escalation timer is still armed, the
    session is back at [DEV] without process and without stop request, the
    timer is cancelled (and will not fire later) and the closure of the stop
    request has lost its timer handle. *)
Theorem exit_while_stopping (w : World) (pid : nat) (p : ChildProcess)
    (code : option Z) (signal : option Signal) (cs : ComponentDevState)
    (env : nat) (e : StopRequestEnv) (t : nat) (T : Timeout) :
  processes w !! pid = Some p ->
  componentStates w !! cwd p = Some cs ->
  devStatus cs = Some DEV_STOPPING ->
  devProcessStopRequest cs = Some env ->
  stopRequests w !! env = Some e ->
  devCleaningTimeout e = Some t ->
  timers w !! t = Some T ->
  timer_state T = Armed ->
  let w' := handle (ProcessExit pid code signal) w in
  devStatus_of w' (cwd p) = Some DEV /\
  devProcess_of w' (cwd p) = None /\
  devProcessStopRequest_of w' (cwd p) = None /\
  timer_state <$> timers w' !! t = Some Cancelled /\
  devCleaningTimeout <$> stopRequests w' !! env = Some None /\
  handle (TimerExpires t) w' = w'.
Proof.
  intros Hp Hcs Hst Hreq He Ht HT Harmed w'.
  subst w'. rewrite (handle_exit _ _ _ _ _ Hp).
  unfold on_exit, devProcessStopRequest_of, devStatus_of, devProcess_of, dispose.
  simpl. rewrite Hcs. simpl. rewrite Hreq, He, Ht. simpl.
  rewrite !lookup_alter_eq, Hcs, !list_lookup_alter_eq, HT, He. simpl.
  repeat split; reflexivity.
Qed.

Lemma exit_while_stopping_witness :
  let w' := handle (ProcessExit 0 (Some 0%Z) None) Scenario.stopping in
  devStatus_of w' "/home/user/app" = Some DEV /\
  devProcess_of w' "/home/user/app" = None /\
  devProcessStopRequest_of w' "/home/user/app" = None /\
  timer_state <$> timers w' !! 0 = Some Cancelled /\
  devCleaningTimeout <$> stopRequests w' !! 0 = Some None /\
  handle (TimerExpires 0) w' = w'.
Proof.
  exact (exit_while_stopping Scenario.stopping 0 _ (Some 0%Z) None _ 0 _ 0 _
           eq_refl eq_refl eq_refl eq_refl eq_refl eq_refl eq_refl eq_refl).
Defined.

(** C8. When the process of a start attempt reports an error, the session
    goes to [DEV], the message of the error is shown as an error message, and
    nothing starts the dev loop again: no process, no terminal, no suspended
    call of [devRunOn] and no executed command is added. *)
Theorem spawn_failure (w : World) (pid : nat) (p : ChildProcess)
    (message : string) (cs : ComponentDevState) :
  processes w !! pid = Some p ->
  componentStates w !! cwd p = Some cs ->
  let w' := handle (ProcessError pid message) w in
  devStatus_of w' (cwd p) = Some DEV /\
  messages w' = messages w ++ [ErrorMessage message] /\
  length (processes w') = length (processes w) /\
  terminals w' = terminals w /\
  suspended w' = suspended w /\
  executed w' = executed w.
Proof.
  intros Hp Hcs w'. subst w'. simpl. rewrite Hp.
  unfold on_error, devStatus_of. simpl.
  rewrite lookup_alter_eq, Hcs, length_alter. simpl.
  repeat split; reflexivity.
Qed.

Lemma spawn_failure_witness :
  let w' := handle (ProcessError 0 "spawn odo ENOENT") Scenario.starting in
  devStatus_of w' "/home/user/app" = Some DEV /\
  messages w' = messages Scenario.starting ++ [ErrorMessage "spawn odo ENOENT"] /\
  length (processes w') = length (processes Scenario.starting) /\
  terminals w' = terminals Scenario.starting /\
  suspended w' = suspended Scenario.starting /\
  executed w' = executed Scenario.starting.
Proof.
  exact (spawn_failure Scenario.starting 0 _ "spawn odo ENOENT" _ eq_refl eq_refl).
Defined.

(** C10. When the warning is answered after the stop request was disposed
    of (its timer handle is [undefined]), whatever the answer, no timer, no
    process, no closure and no session changes: the only effect is the
    information message that the warning has expired. *)
Theorem answer_after_dispose (w : World) (env : nat) (e : StopRequestEnv)
    (action : option string) :
  env ∈ prompts w ->
  stopRequests w !! env = Some e ->
  devCleaningTimeout e = None ->
  let w' := handle (WarningAnswer env action) w in
  timers w' = timers w /\
  processes w' = processes w /\
  stopRequests w' = stopRequests w /\
  componentStates w' = componentStates w /\
  messages w' = messages w ++ [InformationMessage expired_text].
Proof.
  intros Hin He Hnone w'. subst w'. simpl.
  destruct (decide (env ∈ prompts w)) as [_|Hn]; [|done].
  unfold warning_answered. simpl. rewrite He, Hnone. simpl.
  repeat split; reflexivity.
Qed.

Lemma answer_after_dispose_witness :
  let w' := handle (WarningAnswer 0 (Some "Force exit")) Scenario.gone in
  timers w' = timers Scenario.gone /\
  processes w' = processes Scenario.gone /\
  stopRequests w' = stopRequests Scenario.gone /\
  componentStates w' = componentStates Scenario.gone /\
  messages w' = messages Scenario.gone ++ [InformationMessage expired_text].
Proof.
  refine (answer_after_dispose Scenario.gone 0 _ (Some "Force exit") _ eq_refl eq_refl).
  vm_compute. apply list_elem_of_here.
Defined.

(** C3 (as the code behaves).  When the armed timer of a stop request runs
    out, the warning is shown.  If the answer is "Keep waiting" while the
    request still holds its timer handle, the timer is armed again with the
    delay it was created with, and no signal is sent.  If the answer is
    "Force exit", SIGABRT is delivered to the process exactly once and the
    closure records it; the timer is left as it was after running out (it is
    not cleared and the request keeps its handle). *)
Theorem escalation_choice (w : World) (t : nat) (T : Timeout) (env : nat)
    (e : StopRequestEnv) (p : ChildProcess) :
  timers w !! t = Some T ->
  timer_state T = Armed ->
  timer_env T = env ->
  stopRequests w !! env = Some e ->
  devCleaningTimeout e = Some t ->
  processes w !! env_devProcess e = Some p ->
  running p = true ->
  let asked := handle (TimerExpires t) w in
  let kept := handle (WarningAnswer env (Some "Keep waiting")) asked in
  let forced := handle (WarningAnswer env (Some "Force exit")) asked in
  timers asked !! t = Some (mkTimeout Expired (timer_delay T) env) /\
  env ∈ prompts asked /\
  timers kept !! t = Some (mkTimeout Armed (timer_delay T) env) /\
  processes kept = processes w /\
  stopRequests kept = stopRequests w /\
  received <$> processes forced !! env_devProcess e = Some (received p ++ [SIGABRT]) /\
  sigAbortSent <$> stopRequests forced !! env = Some true /\
  devCleaningTimeout <$> stopRequests forced !! env = Some (Some t) /\
  timers forced !! t = Some (mkTimeout Expired (timer_delay T) env).
Proof.
  intros HT Harmed Henv He Ht Hp Hrun asked kept forced.
  assert (Hasked : asked =
            timeout_callback env (with_timers (alter (set_timer_state Expired) t) w)).
  { subst asked. simpl. rewrite HT. rewrite decide_True by done. by rewrite Henv. }
  assert (Hin : env ∈ prompts asked).
  { rewrite Hasked. simpl. apply elem_of_app. right. apply list_elem_of_here. }
  subst kept forced. simpl.
  rewrite !(decide_True (P := env ∈ prompts asked)) by done.
  unfold warning_answered. rewrite Hasked in *. simpl.
  rewrite He, Ht. simpl.
  rewrite !list_lookup_alter_eq, HT, He, Hp. simpl.
  unfold deliver. rewrite Hrun. simpl.
  unfold refresh_timer, set_timer_state. simpl. rewrite Henv.
  repeat split; try reflexivity.
  - exact Hin.
  - by rewrite Ht.
Qed.

Lemma escalation_choice_witness :
  let asked := handle (TimerExpires 0) Scenario.stopping in
  let kept := handle (WarningAnswer 0 (Some "Keep waiting")) asked in
  let forced := handle (WarningAnswer 0 (Some "Force exit")) asked in
  timers asked !! 0 = Some (mkTimeout Expired 20000 0) /\
  0 ∈ prompts asked /\
  timers kept !! 0 = Some (mkTimeout Armed 20000 0) /\
  processes kept = processes Scenario.stopping /\
  stopRequests kept = stopRequests Scenario.stopping /\
  received <$> processes forced !! 0 = Some ([SIGINT] ++ [SIGABRT]) /\
  sigAbortSent <$> stopRequests forced !! 0 = Some true /\
  devCleaningTimeout <$> stopRequests forced !! 0 = Some (Some 0) /\
  timers forced !! 0 = Some (mkTimeout Expired 20000 0).
Proof.
  exact (escalation_choice Scenario.stopping 0 _ 0 _ _
           eq_refl eq_refl eq_refl eq_refl eq_refl eq_refl eq_refl).
Defined.

(** C3, as the specification words it, does not hold: after "Force exit" the timer is not in
    the cancelled state; it stays as it was after running out, and the stop
    request still holds its handle. *)
Lemma force_exit_leaves_timer_expired :
  let forced := handle (WarningAnswer 0 (Some "Force exit")) Scenario.asked in
  timer_state <$> timers Scenario.stopping !! 0 = Some Armed /\
  timer_state <$> timers forced !! 0 = Some Expired /\
  devCleaningTimeout <$> stopRequests forced !! 0 = Some (Some 0) /\
  received <$> processes forced !! 0 = Some [SIGINT; SIGABRT].
Proof. vm_compute. repeat split; reflexivity. Qed.

(** ** Stop requests that have sent SIGABRT *)

Lemma sent_iff path w : stop_request_sigabrt_sent path w = true <-> Sent path w.
Proof.
  unfold stop_request_sigabrt_sent, devProcessStopRequest_of, isSigabrtSent, Sent.
  split.
  - destruct (componentStates w !! path) as [cs|] eqn:Hcs; simpl; [|done].
    destruct (devProcessStopRequest cs) as [env|] eqn:Henv; [|done].
    destruct (stopRequests w !! env) as [e|] eqn:He; [|done].
    intros Hs. by exists cs, env, e.
  - intros (cs & env & e & -> & Henv & He & Hs). simpl. by rewrite Henv, He.
Qed.

Lemma keeps_sent path w w' : keeps path w w' -> Sent path w -> Sent path w'.
Proof.
  intros [Hc Hs] (cs & env & e & Hcs & Henv & He & Hsent).
  destruct (Hc _ Hcs) as (cs' & Hcs' & Heq).
  destruct (Hs _ _ He) as (e' & He' & Himp).
  exists cs', env, e'. repeat split; auto. congruence.
Qed.

Lemma keeps_refl path w : keeps path w w.
Proof. split; eauto. Qed.

Lemma keeps_trans path w1 w2 w3 : keeps path w1 w2 -> keeps path w2 w3 -> keeps path w1 w3.
Proof.
  intros [Hc1 Hs1] [Hc2 Hs2]. split.
  - intros cs Hcs. destruct (Hc1 _ Hcs) as (cs' & Hcs' & Heq).
    destruct (Hc2 _ Hcs') as (cs'' & Hcs'' & Heq'). exists cs''. split; congruence.
  - intros env e He. destruct (Hs1 _ _ He) as (e' & He' & Hi).
    destruct (Hs2 _ _ He') as (e'' & He'' & Hi'). exists e''. split; auto.
Qed.

Lemma keeps_same path w w' :
  componentStates w' = componentStates w -> stopRequests w' = stopRequests w ->
  keeps path w w'.
Proof. intros Hc Hs. unfold keeps. rewrite Hc, Hs. split; eauto. Qed.

Lemma keeps_assign path path' f w :
  (forall cs, devProcessStopRequest (f cs) = devProcessStopRequest cs) ->
  keeps path w (assign path' f w).
Proof.
  intros Hf. split; [|simpl; eauto].
  intros cs Hcs. rewrite lookup_assign. case_decide; subst; rewrite Hcs; simpl; eauto.
Qed.

Lemma keeps_assign_ne path path' f w : path' <> path -> keeps path w (assign path' f w).
Proof.
  intros Hne. split; [|simpl; eauto].
  intros cs Hcs. rewrite lookup_assign. rewrite decide_False by done. eauto.
Qed.

Lemma keeps_alter_env path f env w :
  (forall e, sigAbortSent e = true -> sigAbortSent (f e) = true) ->
  keeps path w (with_stopRequests (alter f env) w).
Proof.
  intros Hf. split; [simpl; eauto|].
  intros env' e He. simpl. rewrite list_lookup_alter.
  case_decide; subst; rewrite ?He; simpl; eauto.
Qed.

Lemma keeps_snoc_env path x w : keeps path w (with_stopRequests (fun l => l ++ [x]) w).
Proof.
  split; [simpl; eauto|].
  intros env e He. simpl. exists e. split; [|done].
  rewrite lookup_app_l; [done|]. by eapply lookup_lt_Some.
Qed.

Lemma keeps_getComponentDevState path folder w : keeps path w (getComponentDevState folder w).
Proof.
  unfold getComponentDevState.
  destruct (componentStates w !! contextPath folder) eqn:Hl; [apply keeps_refl|].
  split; [|simpl; eauto].
  intros cs Hcs. simpl. exists cs. split; [|done].
  rewrite lookup_insert_ne; [done|]. congruence.
Qed.

Lemma keeps_stateChanged path f w : keeps path w (with_stateChanged f w).
Proof. by apply keeps_same. Qed.
Lemma keeps_written path f w : keeps path w (with_written f w).
Proof. by apply keeps_same. Qed.
Lemma keeps_messages path f w : keeps path w (with_messages f w).
Proof. by apply keeps_same. Qed.
Lemma keeps_processes path f w : keeps path w (with_processes f w).
Proof. by apply keeps_same. Qed.
Lemma keeps_timers path f w : keeps path w (with_timers f w).
Proof. by apply keeps_same. Qed.
Lemma keeps_terminals path f w : keeps path w (with_terminals f w).
Proof. by apply keeps_same. Qed.
Lemma keeps_prompts path f w : keeps path w (with_prompts f w).
Proof. by apply keeps_same. Qed.
Lemma keeps_executed path f w : keeps path w (with_executed f w).
Proof. by apply keeps_same. Qed.
Lemma keeps_suspended path f w : keeps path w (with_suspended f w).
Proof. by apply keeps_same. Qed.
Lemma keeps_clearTimeout path h w : keeps path w (clearTimeout h w).
Proof. destruct h; [by apply keeps_same|apply keeps_refl]. Qed.

Create HintDb keeps.
#[local] Hint Resolve keeps_stateChanged keeps_written keeps_messages keeps_processes
  keeps_timers keeps_terminals keeps_prompts keeps_executed keeps_suspended
  keeps_clearTimeout keeps_snoc_env keeps_getComponentDevState : keeps.

Lemma keeps_set_devStatus path path' v w : keeps path w (assign path' (set_devStatus v) w).
Proof. by apply keeps_assign. Qed.
Lemma keeps_set_devProcess path path' v w : keeps path w (assign path' (set_devProcess v) w).
Proof. by apply keeps_assign. Qed.
Lemma keeps_set_devTerminal path path' v w : keeps path w (assign path' (set_devTerminal v) w).
Proof. by apply keeps_assign. Qed.
Lemma keeps_set_runOn path path' v w : keeps path w (assign path' (set_runOn v) w).
Proof. by apply keeps_assign. Qed.
Lemma keeps_set_sigAbortSent path env w :
  keeps path w (with_stopRequests (alter (set_sigAbortSent true) env) w).
Proof. by apply keeps_alter_env. Qed.
Lemma keeps_set_devCleaningTimeout path env h w :
  keeps path w (with_stopRequests (alter (set_devCleaningTimeout h) env) w).
Proof. by apply keeps_alter_env. Qed.

#[local] Hint Resolve keeps_set_devStatus keeps_set_devProcess keeps_set_devTerminal
  keeps_set_runOn keeps_set_sigAbortSent keeps_set_devCleaningTimeout : keeps.

Ltac keeps_peel :=
  cbv zeta;
  repeat (eapply keeps_trans;
          [| solve [unfold fire_stateChanged, fire_output, show, kill, refresh;
                    eauto 2 with keeps] ]).
Ltac keeps_chain := keeps_peel; try apply keeps_refl.

Lemma keeps_devRunOn_enter path c target w : keeps path w (devRunOn_enter c target w).
Proof. unfold devRunOn_enter. destruct target; keeps_chain. Qed.

Lemma keeps_devRunOn_createTerminal path c target w :
  keeps path w (devRunOn_createTerminal c target w).
Proof. unfold devRunOn_createTerminal. keeps_chain. Qed.

Lemma keeps_pty_open path c target t w : keeps path w (pty_open c target t w).
Proof. unfold pty_open. keeps_chain. Qed.

Lemma keeps_on_spawn path path' pid w w' : on_spawn path' pid w = Some w' -> keeps path w w'.
Proof.
  unfold on_spawn. destruct (devTerminal_of w path'); simpl; [|done].
  intros [= <-]. keeps_chain.
Qed.

Lemma keeps_on_error path path' m w : keeps path w (on_error path' m w).
Proof. unfold on_error. keeps_chain. Qed.

Lemma keeps_on_stdout_data path path' t chunk w : keeps path w (on_stdout_data path' t chunk w).
Proof. unfold on_stdout_data. case_decide; keeps_chain. Qed.

Lemma keeps_on_stderr_data path path' t chunk w : keeps path w (on_stderr_data path' t chunk w).
Proof. unfold on_stderr_data. destruct (stop_request_sigabrt_sent path' w); keeps_chain. Qed.

Lemma keeps_dispose path env w : keeps path w (dispose env w).
Proof. unfold dispose. destruct (stopRequests w !! env); keeps_chain. Qed.

Lemma keeps_on_exit path path' t w : path' <> path -> keeps path w (on_exit path' t w).
Proof.
  intros Hne. unfold on_exit. keeps_peel.
  destruct (devProcessStopRequest_of w path'); [|apply keeps_refl].
  eapply keeps_trans; [apply keeps_dispose|by apply keeps_assign_ne].
Qed.

Lemma keeps_exitDevelopmentMode path pid w : keeps path w (exitDevelopmentMode pid w).2.
Proof. unfold exitDevelopmentMode. simpl. keeps_chain. Qed.

Lemma keeps_interrupt path path' pid w : path' <> path -> keeps path w (interrupt path' pid w).
Proof.
  intros Hne. unfold interrupt, exitDevelopmentMode. cbv zeta.
  eapply keeps_trans; [|by apply keeps_assign_ne]. keeps_chain.
Qed.

Lemma sent_has_request path w : Sent path w -> devProcessStopRequest_of w path <> None.
Proof.
  intros (cs & env & e & Hcs & Henv & _). unfold devProcessStopRequest_of.
  rewrite Hcs. simpl. congruence.
Qed.

Lemma keeps_pty_close path path' w : Sent path w -> keeps path w (pty_close path' w).
Proof.
  intros Hs. unfold pty_close. keeps_peel.
  destruct (devProcess_of w path') as [pid|]; [|apply keeps_refl].
  destruct (exitCode_is_null pid w); simpl; [|apply keeps_refl].
  case_bool_decide as Hreq; [|apply keeps_refl].
  apply keeps_interrupt. intros ->. by apply sent_has_request in Hs.
Qed.

Lemma keeps_pty_handleInput path path' t data w w' :
  Sent path w -> pty_handleInput path' t data w = Some w' -> keeps path w w'.
Proof.
  intros Hs. unfold pty_handleInput.
  case_decide; [intros [= <-]; apply keeps_refl|].
  destruct (devProcess_of w path') as [pid|] eqn:Hp.
  - case_bool_decide as Hreq; simpl.
    + destruct (charCodeAt0_is_3 data); intros [= <-]; [|apply keeps_refl].
      eapply keeps_trans; [|apply keeps_interrupt].
      * keeps_chain.
      * intros ->. by apply sent_has_request in Hs.
    + intros [= <-]. apply keeps_refl.
  - destruct (devTerminal_of w path'); simpl; [|done].
    intros [= <-]. keeps_chain.
Qed.

Lemma keeps_sendSigabrt path env w : keeps path w (sendSigabrt env w).
Proof. unfold sendSigabrt. destruct (stopRequests w !! env); keeps_chain. Qed.

Lemma keeps_forceExitDevMode path c w w' : forceExitDevMode c w = Some w' -> keeps path w w'.
Proof.
  unfold forceExitDevMode.
  destruct (componentStates w !! contextPath c) as [cs|]; simpl; [|done].
  destruct (devProcess cs) as [pid|]; [|intros [= <-]; apply keeps_refl].
  destruct (exitCode_is_null pid w); [|intros [= <-]; apply keeps_refl].
  destruct (devProcessStopRequest cs); simpl; [|done].
  intros [= <-]. apply keeps_sendSigabrt.
Qed.

Lemma keeps_warning_answered path env action w : keeps path w (warning_answered env action w).
Proof.
  unfold warning_answered.
  destruct (stopRequests w !! env) as [e|]; [|apply keeps_refl].
  destruct (devCleaningTimeout e); [|keeps_chain].
  repeat case_decide; keeps_chain.
Qed.

Lemma keeps_unless_thrown path w r :
  (forall w', r = Some w' -> keeps path w w') -> keeps path w (unless_thrown w r).
Proof. destruct r; simpl; eauto using keeps_refl. Qed.

Lemma keeps_handle path ev w :
  Sent path w -> exits path w ev = false -> keeps path w (handle ev w).
Proof.
  intros Hs Hex. destruct ev; simpl.
  - destruct target.
    + eapply keeps_trans; [apply keeps_devRunOn_enter|apply keeps_devRunOn_createTerminal].
    + keeps_chain.
  - destruct (suspended w !! k) as [[c target]|]; [|apply keeps_refl].
    eapply keeps_trans; [|apply keeps_devRunOn_createTerminal]. keeps_chain.
  - destruct (terminals w !! t); [|apply keeps_refl].
    eapply keeps_trans; [|apply keeps_pty_open]. keeps_chain.
  - destruct (terminals w !! t); [|apply keeps_refl].
    eapply keeps_trans; [|apply keeps_pty_close].
    + keeps_chain.
    + eapply keeps_sent; [|exact Hs]. keeps_chain.
  - destruct (terminals w !! t); [|apply keeps_refl].
    apply keeps_unless_thrown. intros w'. by apply keeps_pty_handleInput.
  - destruct (processes w !! pid); [|apply keeps_refl].
    eapply keeps_trans; [|apply keeps_unless_thrown; intros w'; apply keeps_on_spawn].
    keeps_chain.
  - destruct (processes w !! pid); [|apply keeps_refl].
    eapply keeps_trans; [|apply keeps_on_error]. keeps_chain.
  - destruct (processes w !! pid); [|apply keeps_refl]. apply keeps_on_stdout_data.
  - destruct (processes w !! pid); [|apply keeps_refl]. apply keeps_on_stderr_data.
  - simpl in Hex. destruct (processes w !! pid) as [p|]; [|apply keeps_refl].
    simpl in Hex. apply bool_decide_eq_false in Hex.
    eapply keeps_trans; [|apply keeps_on_exit; congruence]. keeps_chain.
  - apply keeps_unless_thrown. intros w'. apply keeps_forceExitDevMode.
  - destruct (timers w !! t) as [T|]; [|apply keeps_refl].
    case_decide; [|apply keeps_refl]. unfold timeout_callback. keeps_chain.
  - case_decide; [|apply keeps_refl].
    eapply keeps_trans; [|apply keeps_warning_answered]. keeps_chain.
Qed.

Lemma sent_run path evs w :
  Sent path w -> before_exit path evs w -> Sent path (run evs w).
Proof.
  revert w. induction evs as [|ev evs IH]; intros w Hs Hb; [done|].
  destruct Hb as [Hex Hb]. simpl. apply IH; [|done].
  eapply keeps_sent; [by apply keeps_handle|done].
Qed.

(** C9 (as the code behaves).  Once the stop request of a session has sent
    SIGABRT, this stays so through every event until a process of the
    session exits, and in every world on the way a chunk on stderr of a
    process of the session changes nothing (it is not written to the
    terminal), while a chunk on stdout is still written to the terminal of
    the process, decoded and with its line ends converted. *)
Theorem stderr_discarded_after_sigabrt (w : World) (path : string) (evs : list Event) :
  stop_request_sigabrt_sent path w = true ->
  before_exit path evs w ->
  let w' := run evs w in
  stop_request_sigabrt_sent path w' = true /\
  (forall pid p chunk,
     processes w' !! pid = Some p -> cwd p = path ->
     handle (ProcessStderr pid chunk) w' = w') /\
  (forall pid p chunk,
     processes w' !! pid = Some p -> cwd p = path ->
     written (handle (ProcessStdout pid chunk) w') =
     written w' ++ [(sink p, Text (replaceAll_LF_CRLF (toString chunk)))]).
Proof.
  intros Hs Hb w'.
  assert (Hs' : stop_request_sigabrt_sent path w' = true).
  { apply sent_iff. apply sent_run; [by apply sent_iff|done]. }
  split; [done|]. split.
  - intros pid p chunk Hp <-. simpl. rewrite Hp.
    unfold on_stderr_data. by rewrite Hs'.
  - intros pid p chunk Hp <-. simpl. rewrite Hp.
    unfold on_stdout_data. by case_decide.
Qed.

Lemma stderr_discarded_after_sigabrt_witness :
  let w' := run [ProcessStdout 0 "building"; ForceExit Scenario.app; TimerExpires 0]
              Scenario.forced in
  handle (ProcessStderr 0 "panic: interrupted") w' = w' /\
  written (handle (ProcessStdout 0 "done") w') = written w' ++ [(0, Text "done")].
Proof.
  pose proof (stderr_discarded_after_sigabrt Scenario.forced "/home/user/app"
                [ProcessStdout 0 "building"; ForceExit Scenario.app; TimerExpires 0]) as H.
  destruct H as (_ & Herr & Hout).
  - vm_compute. reflexivity.
  - vm_compute. repeat split; reflexivity.
  - pose (p := mkProcess (Command_dev true None) "/home/user/app" 0 Spawned None None
                [SIGINT; SIGABRT; SIGABRT]).
    split.
    + apply (Herr 0 p); vm_compute; reflexivity.
    + apply (Hout 0 p "done"); vm_compute; reflexivity.
Defined.

(** ** Stop requests *)

Lemma interrupt_stop_requested path pid cs w0 w :
  componentStates w !! path = Some cs ->
  processes w = processes w0 -> timers w = timers w0 ->
  stopRequests w = stopRequests w0 -> stopDevModeTimeout w = stopDevModeTimeout w0 ->
  stop_requested path pid w0 (interrupt path pid w).
Proof.
  intros Hcs Hp Ht Hs Hd.
  unfold stop_requested, interrupt, exitDevelopmentMode, devStatus_of,
    devProcessStopRequest_of, devModeExitTimeout.
  simpl. rewrite !lookup_alter_eq, Hcs, Hp, Ht, Hs, Hd. simpl.
  repeat split; reflexivity.
Qed.

Lemma stop_ignored_refl path w : stop_ignored path w w.
Proof. by repeat split. Qed.

(** C5 (as the code behaves).  Ctrl-C typed into the terminal is accepted as
    a stop request exactly when the session is not [DEV_STARTING], holds a
    process and has no stop request yet; closing the terminal is accepted
    exactly when the session holds a process whose exit code is [null] and
    has no stop request yet.  An accepted request sends SIGINT to the
    process, puts the session in [DEV_STOPPING] and arms exactly one timer,
    whose delay is the configured one when that lies between 1 and
    [TIMEOUT_MAX] milliseconds and 1 millisecond otherwise, as [setTimeout]
    takes it; a request that is not accepted sends nothing, arms nothing and
    leaves the state of the session as it is. *)
Theorem stop_request_acceptance (w : World) (path : string) (emitter : nat)
    (data : string) (cs : ComponentDevState) :
  componentStates w !! path = Some cs ->
  charCodeAt0_is_3 data = true ->
  let typed := unless_thrown w (pty_handleInput path emitter data w) in
  let shut := pty_close path w in
  (forall pid,
     devStatus cs <> Some DEV_STARTING -> devProcess cs = Some pid ->
     devProcessStopRequest cs = None ->
     stop_requested path pid w typed) /\
  (devStatus cs = Some DEV_STARTING \/ devProcess cs = None \/
   devProcessStopRequest cs <> None ->
     stop_ignored path w typed) /\
  (forall pid,
     devProcess cs = Some pid -> exitCode_is_null pid w = true ->
     devProcessStopRequest cs = None ->
     stop_requested path pid w shut) /\
  (devProcess cs = None \/
   (exists pid, devProcess cs = Some pid /\ exitCode_is_null pid w = false) \/
   devProcessStopRequest cs <> None ->
     stop_ignored path w shut).
Proof.
  intros Hcs Hdata typed shut. subst typed shut.
  unfold pty_handleInput, pty_close, devStatus_of, devProcess_of,
    devProcessStopRequest_of, devTerminal_of.
  rewrite Hcs, Hdata. simpl. split; [|split; [|split]].
  - intros pid Hst Hp Hreq. rewrite Hp, Hreq.
    rewrite decide_False by done. simpl.
    by eapply interrupt_stop_requested.
  - intros Hno. case_decide; [apply stop_ignored_refl|].
    destruct (devProcess cs) as [pid|] eqn:Hp.
    + case_bool_decide; simpl; [|apply stop_ignored_refl].
      destruct Hno as [?|[?|?]]; done.
    + destruct (devTerminal cs); simpl; [|apply stop_ignored_refl].
      by repeat split.
  - intros pid Hp Hnull Hreq. rewrite Hp, Hnull, Hreq. simpl.
    assert (Hi := interrupt_stop_requested path pid cs w w Hcs eq_refl eq_refl eq_refl eq_refl).
    destruct Hi as (H1 & H2 & H3 & H4 & H5).
    unfold stop_requested, devStatus_of, devProcessStopRequest_of in *.
    rewrite lookup_assign, decide_True by done.
    destruct (componentStates (interrupt path pid w) !! path); simpl in *; done.
  - intros Hno.
    assert (Hsame : stop_ignored path w (assign path (set_devTerminal None) w)).
    { unfold stop_ignored, devStatus_of, devProcessStopRequest_of.
      rewrite lookup_assign, decide_True, Hcs by done. by repeat split. }
    destruct (devProcess cs) as [pid|] eqn:Hp; [|done].
    destruct (exitCode_is_null pid w) eqn:Hnull; simpl; [|done].
    case_bool_decide; [|done].
    destruct Hno as [?|[(pid' & [= <-] & Hf)|?]]; congruence.
Qed.

Lemma stop_request_acceptance_witness :
  stop_requested "/home/user/app" 0 Scenario.up
    (unless_thrown Scenario.up
       (pty_handleInput "/home/user/app" 0 Scenario.ctrl_c Scenario.up)) /\
  stop_requested "/home/user/app" 0 Scenario.up (pty_close "/home/user/app" Scenario.up).
Proof.
  pose proof (stop_request_acceptance Scenario.up "/home/user/app" 0 Scenario.ctrl_c
                _ eq_refl eq_refl) as (Htyped & _ & Hshut & _).
  split.
  - by apply Htyped.
  - by apply Hshut.
Defined.

(** The delay of the timer is the configured one only within the range of
    [setTimeout]. *)
Lemma timeout_delay_range (after : Z) :
  ((1 <= after <= TIMEOUT_MAX)%Z -> timeout_delay after = after) /\
  (~ (1 <= after <= TIMEOUT_MAX)%Z -> timeout_delay after = 1%Z).
Proof. unfold timeout_delay. split; intros H; by case_decide. Qed.

(** C5, as the specification words it, does not hold: a session that is starting ignores
    Ctrl-C, and closing its terminal stops nothing either, since the session
    does not hold its process yet. *)
Lemma ctrl_c_while_starting_is_ignored :
  devStatus_of Scenario.starting "/home/user/app" = Some DEV_STARTING /\
  devProcessStopRequest_of Scenario.starting "/home/user/app" = None /\
  phase <$> processes Scenario.starting !! 0 = Some Pending /\
  pty_handleInput "/home/user/app" 0 Scenario.ctrl_c Scenario.starting
    = Some Scenario.starting /\
  devStatus_of (pty_close "/home/user/app" Scenario.starting) "/home/user/app"
    = Some DEV_STARTING /\
  processes (pty_close "/home/user/app" Scenario.starting) = processes Scenario.starting /\
  timers (pty_close "/home/user/app" Scenario.starting) = [].
Proof. vm_compute. repeat split; reflexivity. Qed.

(** ** Forced exit *)




(** ** Starting *)

(** C1 (as the code behaves).  [devRunOn] has no guard.  Called for a session
    that is already starting or running, it puts the session in
    [DEV_STARTING], overwrites its run target, fires a change notification
    and creates one more terminal, which becomes the terminal of the session
    and whose [open] spawns one more process.  It leaves the process and the
    stop request of the session, and the processes themselves, untouched. *)
Theorem devRunOn_while_active (w : World) (component : ComponentWorkspaceFolder)
    (target : option RunTarget) (cs : ComponentDevState) :
  componentStates w !! contextPath component = Some cs ->
  devStatus cs = Some DEV_STARTING \/ devStatus cs = Some DEV_RUNNING ->
  let path := contextPath component in
  let w' := devRunOn component target w in
  let t := length (terminals w) in
  devStatus_of w' path = Some DEV_STARTING /\
  runOn <$> componentStates w' !! path = Some target /\
  devProcess_of w' path = devProcess cs /\
  devProcessStopRequest_of w' path = devProcessStopRequest cs /\
  devTerminal_of w' path = Some t /\
  terminals w' = terminals w ++ [mkTerminal component target false false 0 false] /\
  stateChanged w' = stateChanged w ++ [path] /\
  processes w' = processes w /\
  processes (handle (TerminalOpen t) w') =
    processes w ++ [mkProcess (Command_dev (supports_debug component) target)
                      path t Pending None None []].
Proof.
  intros Hcs _ path w' t. subst path w' t.
  unfold devRunOn, devRunOn_createTerminal, devRunOn_enter, getComponentDevState,
    devStatus_of, devProcess_of, devProcessStopRequest_of, devTerminal_of.
  rewrite Hcs. destruct target as [target|]; simpl.
  - rewrite !lookup_alter_eq, Hcs. simpl.
    rewrite lookup_app_r, Nat.sub_diag by done. simpl.
    repeat split; reflexivity.
  - rewrite !lookup_alter_eq, Hcs. simpl.
    rewrite lookup_app_r, Nat.sub_diag by done. simpl.
    repeat split; reflexivity.
Qed.

Lemma devRunOn_while_active_witness :
  let w' := devRunOn Scenario.app (Some podman) Scenario.up in
  devStatus_of w' "/home/user/app" = Some DEV_STARTING /\
  runOn <$> componentStates w' !! "/home/user/app" = Some (Some podman) /\
  devProcess_of w' "/home/user/app" = Some 0 /\
  devProcessStopRequest_of w' "/home/user/app" = None /\
  devTerminal_of w' "/home/user/app" = Some 1 /\
  terminals w' = terminals Scenario.up ++
                 [mkTerminal Scenario.app (Some podman) false false 0 false] /\
  stateChanged w' = stateChanged Scenario.up ++ ["/home/user/app"] /\
  processes w' = processes Scenario.up /\
  processes (handle (TerminalOpen 1) w') =
    processes Scenario.up ++ [mkProcess (Command_dev true (Some podman))
                                "/home/user/app" 1 Pending None None []].
Proof.
  exact (devRunOn_while_active Scenario.up Scenario.app (Some podman) _
           eq_refl (or_intror eq_refl)).
Defined.

(** C1, as the specification words it, does not hold: starting the dev loop of a session that
    is running is not a no-op.  The session goes back to [DEV_STARTING], and
    once the new terminal opens there are two processes for the workspace,
    both with their handles. *)
Lemma second_start_spawns_second_process :
  let again := handle (TerminalOpen 1) (run [Dev Scenario.app None; Resume 0] Scenario.up) in
  devStatus_of Scenario.up "/home/user/app" = Some DEV_RUNNING /\
  length (processes Scenario.up) = 1 /\
  devStatus_of (devRunOn Scenario.app None Scenario.up) "/home/user/app"
    = Some DEV_STARTING /\
  devStatus_of again "/home/user/app" = Some DEV_STARTING /\
  (fun p => (cwd p, running p)) <$> processes again
    = [("/home/user/app", true); ("/home/user/app", true)].
Proof. vm_compute. repeat split; reflexivity. Qed.

(** From [DEV_STARTING], while the session has its terminal, either sign of
    life takes the session to [DEV_RUNNING], and the one that comes second
    leaves it there; a chunk on stdout that comes second fires no change
    notification. *)
Lemma sign_of_life (w : World) (path : string) (emitter pid t : nat)
    (chunk : string) (cs : ComponentDevState) :
  componentStates w !! path = Some cs ->
  devStatus cs = Some DEV_STARTING ->
  devTerminal cs = Some t ->
  exists spawned,
    on_spawn path pid w = Some spawned /\
    devStatus_of spawned path = Some DEV_RUNNING /\
    devProcess_of spawned path = Some pid /\
    devStatus_of (on_stdout_data path emitter chunk w) path = Some DEV_RUNNING /\
    devStatus_of (on_stdout_data path emitter chunk spawned) path = Some DEV_RUNNING /\
    stateChanged (on_stdout_data path emitter chunk spawned) = stateChanged spawned /\
    (fun late => devStatus_of late path)
      <$> on_spawn path pid (on_stdout_data path emitter chunk w)
      = Some (Some DEV_RUNNING).
Proof.
  intros Hcs Hst Ht. eexists. split.
  - unfold on_spawn, devTerminal_of. rewrite Hcs. simpl. rewrite Ht. simpl. reflexivity.
  - unfold on_spawn, on_stdout_data, devStatus_of, devProcess_of, devTerminal_of. simpl.
    rewrite !lookup_alter_eq, Hcs. simpl. rewrite Hst. simpl.
    rewrite !lookup_alter_eq, Hcs. simpl. rewrite Ht. simpl.
    rewrite !lookup_alter_eq, Hcs. simpl.
    repeat split; reflexivity.
Qed.

(** C4 at the input where the code departs from it: the terminal of a
    starting session was closed before the process signalled 'spawn'.  The
    listener throws on [cs.devTerminal.show()], so the session stays in
    [DEV_STARTING] without process; only the next chunk on stdout takes it
    to [DEV_RUNNING], still without process. *)
Lemma spawn_after_terminal_closed :
  let spawned := handle (ProcessSpawn 0) Scenario.unattended in
  devStatus_of Scenario.unattended "/home/user/app" = Some DEV_STARTING /\
  devTerminal_of Scenario.unattended "/home/user/app" = None /\
  on_spawn "/home/user/app" 0 Scenario.unattended = None /\
  devStatus_of spawned "/home/user/app" = Some DEV_STARTING /\
  devProcess_of spawned "/home/user/app" = None /\
  devStatus_of (handle (ProcessStdout 0 "ready") spawned) "/home/user/app"
    = Some DEV_RUNNING /\
  devProcess_of (handle (ProcessStdout 0 "ready") spawned) "/home/user/app" = None.
Proof. vm_compute. repeat split; reflexivity. Qed.

(** ** The process field and the state, over reachable worlds *)

Lemma count_app {A} (f : A -> bool) l1 l2 : count f (l1 ++ l2) = count f l1 + count f l2.
Proof. induction l1 as [|x l1 IH]; simpl; [done|]. rewrite IH. lia. Qed.

Lemma count_alter {A} (f : A -> bool) (g : A -> A) l i x :
  l !! i = Some x ->
  count f (alter g i l) + (if f x then 1 else 0) = count f l + (if f (g x) then 1 else 0).
Proof.
  revert i. induction l as [|y l IH]; intros [|i] Hl; simplify_eq/=; [lia|].
  specialize (IH _ Hl). lia.
Qed.

Lemma count_alter_same {A} (f : A -> bool) (g : A -> A) l i :
  (forall x, f (g x) = f x) -> count f (alter g i l) = count f l.
Proof.
  intros Hg. revert i. induction l as [|y l IH]; intros [|i]; simpl;
    rewrite ?Hg; auto.
  f_equal. apply IH.
Qed.

Lemma count_delete {A} (f : A -> bool) l i x :
  l !! i = Some x ->
  count f (delete i l) + (if f x then 1 else 0) = count f l.
Proof.
  revert i. induction l as [|y l IH]; intros [|i] Hl; simplify_eq/=; [lia|].
  specialize (IH _ Hl). lia.
Qed.

Lemma in_phase_set_phase ph ph' path p :
  in_phase ph path (set_phase ph' p) = bool_decide (cwd p = path) && bool_decide (ph' = ph).
Proof. done. Qed.

Lemma in_phase_exited ph path code signal p :
  in_phase ph path (exited code signal p) = bool_decide (cwd p = path) && bool_decide (Exited = ph).
Proof. done. Qed.

Lemma in_phase_deliver ph path sig p : in_phase ph path (deliver sig p) = in_phase ph path p.
Proof. unfold deliver. by destruct (running p). Qed.

Lemma in_phase_is ph path p : phase p = ph -> in_phase ph path p = bool_decide (cwd p = path).
Proof.
  intros <-. unfold in_phase. rewrite (bool_decide_eq_true_2 (phase p = phase p)) by done.
  by destruct (bool_decide (cwd p = path)).
Qed.

Lemma in_phase_is_not ph path p : phase p <> ph -> in_phase ph path p = false.
Proof.
  intros Hne. unfold in_phase. rewrite (bool_decide_eq_false_2 (phase p = ph)) by done.
  by destruct (bool_decide (cwd p = path)).
Qed.

Ltac session_unfold :=
  unfold session_ok, devStatus_of, devProcess_of, devProcessStopRequest_of, devTerminal_of,
    starts, spawned in *;
  simpl in *.

Ltac session_solve :=
  repeat match goal with
         | H : _ /\ _ |- _ => destruct H
         end;
  repeat split; intros;
  repeat match goal with
         | H : ?P -> _ |- _ =>
             let HP := fresh in
             assert (HP : P) by first [done | congruence | lia]; specialize (H HP)
         | H : _ /\ _ |- _ => destruct H
         | H : _ \/ _ |- _ => destruct H
         end;
  first [done | congruence | lia | (left; done) | (right; done)].

Ltac session_split :=
  session_unfold; rewrite ?lookup_alter; repeat case_decide; simplify_eq/=.

Ltac session_lookup :=
  match goal with
  | |- context [componentStates ?w !! ?p] =>
      let cs := fresh "cs" in
      let E := fresh "Ecs" in
      destruct (componentStates w !! p) as [cs|] eqn:E; simpl in *
  end.

Lemma step_spawn w pid path :
  enabled (ProcessSpawn pid) w = true ->
  session_ok w path -> session_ok (handle (ProcessSpawn pid) w) path.
Proof.
  intros Hen Hok. simpl in *.
  destruct (processes w !! pid) as [p|] eqn:Hp; [|done].
  apply bool_decide_eq_true in Hen.
  pose proof (count_alter (in_phase Pending path) (set_phase Spawned) _ _ _ Hp) as Hc1.
  pose proof (count_alter (in_phase Spawned path) (set_phase Spawned) _ _ _ Hp) as Hc2.
  rewrite !in_phase_set_phase in Hc1, Hc2.
  rewrite (in_phase_is Pending) in Hc1 by done.
  rewrite (in_phase_is_not Spawned) in Hc2 by congruence.
  unfold on_spawn, unless_thrown.
  destruct (devTerminal_of _ (cwd p)) as [t|] eqn:Ht; simpl.
  - pose proof (count_alter_same (openable_for path) shown
                  (terminals w) t (fun _ => eq_refl)) as Hc3.
    session_split.
    + session_lookup; [|done].
      repeat case_bool_decide; simplify_eq/=. session_solve.
    + session_lookup; repeat case_bool_decide; simplify_eq/=; session_solve.
  - session_split. repeat case_bool_decide; simplify_eq/=.
    + session_lookup; session_solve.
    + session_lookup; session_solve.
Qed.

Lemma session_ok_le w w' path :
  devStatus_of w' path = devStatus_of w path ->
  devProcess_of w' path = devProcess_of w path ->
  starts w' path <= starts w path ->
  spawned w' path = spawned w path ->
  session_ok w path -> session_ok w' path.
Proof.
  unfold session_ok. intros -> -> Hle ->. cbv zeta. session_solve.
Qed.

Lemma count_kill ph path sig pid l :
  count (in_phase ph path) (alter (deliver sig) pid l) = count (in_phase ph path) l.
Proof. apply count_alter_same. intros p. apply in_phase_deliver. Qed.

Lemma step_interrupt w path0 pid path :
  devProcess_of w path0 = Some pid ->
  session_ok w path -> session_ok (interrupt path0 pid w) path.
Proof.
  intros Hpr Hok. unfold interrupt, exitDevelopmentMode. cbv zeta.
  session_split; rewrite ?count_kill.
  - session_lookup; [|done]. session_solve.
  - session_lookup; session_solve.
Qed.

Lemma step_error w pid message path :
  enabled (ProcessError pid message) w = true ->
  session_ok w path -> session_ok (handle (ProcessError pid message) w) path.
Proof.
  intros Hen Hok. simpl in *.
  destruct (processes w !! pid) as [p|] eqn:Hp; [|done].
  apply bool_decide_eq_true in Hen.
  pose proof (count_alter (in_phase Pending path) (set_phase Failed) _ _ _ Hp) as Hc1.
  pose proof (count_alter (in_phase Spawned path) (set_phase Failed) _ _ _ Hp) as Hc2.
  rewrite !in_phase_set_phase in Hc1, Hc2.
  rewrite (in_phase_is Pending) in Hc1 by done.
  rewrite (in_phase_is_not Spawned) in Hc2 by congruence.
  unfold on_error. session_split; repeat case_bool_decide; simplify_eq/=.
  - session_lookup; session_solve.
  - session_lookup; session_solve.
Qed.

Lemma step_stdout w pid chunk path :
  session_ok w path -> session_ok (handle (ProcessStdout pid chunk) w) path.
Proof.
  intros Hok. simpl in *.
  destruct (processes w !! pid) as [p|] eqn:Hp; [|done].
  unfold on_stdout_data. case_decide as Hst; [|done].
  session_split.
  - session_lookup; [|done]. session_solve.
  - session_lookup; session_solve.
Qed.

Lemma step_stderr w pid chunk path :
  session_ok w path -> session_ok (handle (ProcessStderr pid chunk) w) path.
Proof.
  intros Hok. simpl in *.
  destruct (processes w !! pid) as [p|] eqn:Hp; [|done].
  unfold on_stderr_data. by destruct (stop_request_sigabrt_sent _ _).
Qed.

Lemma dispose_frame env w :
  componentStates (dispose env w) = componentStates w /\
  processes (dispose env w) = processes w /\
  suspended (dispose env w) = suspended w /\
  terminals (dispose env w) = terminals w.
Proof.
  unfold dispose. destruct (stopRequests w !! env) as [e|]; [|done].
  by destruct (devCleaningTimeout e).
Qed.

Lemma step_exit w pid code signal path :
  enabled (ProcessExit pid code signal) w = true ->
  session_ok w path -> session_ok (handle (ProcessExit pid code signal) w) path.
Proof.
  intros Hen Hok. simpl in *.
  destruct (processes w !! pid) as [p|] eqn:Hp; [|done].
  pose proof (count_alter (in_phase Pending path) (exited code signal) _ _ _ Hp) as Hc1.
  pose proof (count_alter (in_phase Spawned path) (exited code signal) _ _ _ Hp) as Hc2.
  rewrite !in_phase_exited in Hc1, Hc2.
  assert (Hph : phase p = Pending \/ phase p = Spawned).
  { unfold running in Hen. destruct (phase p); auto; done. }
  unfold on_exit. cbv zeta.
  set (w1 := match devProcessStopRequest_of _ (cwd p) with Some _ => _ | None => _ end).
  assert (Hw1 : componentStates w1 !! path =
                (if decide (cwd p = path)
                 then (fun cs => match devProcessStopRequest cs with
                                 | Some _ => set_devProcessStopRequest None cs
                                 | None => cs end) <$> componentStates w !! path
                 else componentStates w !! path)
                /\ processes w1 = alter (exited code signal) pid (processes w)
                /\ suspended w1 = suspended w /\ terminals w1 = terminals w).
  { subst w1. unfold devProcessStopRequest_of. simpl.
    destruct (componentStates w !! cwd p) as [cs|] eqn:Hcs; simpl.
    - destruct (devProcessStopRequest cs) as [env|] eqn:Henv.
      + destruct (dispose_frame env (with_processes (alter (exited code signal) pid) w))
          as (Hd1 & Hd2 & Hd3 & Hd4).
        simpl in *. rewrite ?lookup_alter, ?Hd1, ?Hd2, ?Hd3, ?Hd4. simpl.
        case_decide; subst; rewrite ?Hcs; simpl; rewrite ?Henv; done.
      + case_decide; subst; rewrite ?Hcs; simpl; rewrite ?Henv; done.
    - case_decide; subst; rewrite ?Hcs; done. }
  destruct Hw1 as (Hl & Hpr & Hsu & Hte).
  clearbody w1. session_unfold. rewrite !lookup_alter, Hl, Hpr, Hsu, Hte.
  clear Hl Hpr Hsu Hte.
  destruct Hph as [Hph|Hph].
  - rewrite (in_phase_is Pending) in Hc1 by done.
    rewrite (in_phase_is_not Spawned) in Hc2 by congruence.
    repeat case_decide; repeat case_bool_decide; simplify_eq/=.
    + session_lookup; session_solve.
    + session_lookup; session_solve.
  - rewrite (in_phase_is Spawned) in Hc2 by done.
    rewrite (in_phase_is_not Pending) in Hc1 by congruence.
    repeat case_decide; repeat case_bool_decide; simplify_eq/=.
    + session_lookup; session_solve.
    + session_lookup; session_solve.
Qed.

Lemma suspended_for_pair path c target :
  suspended_for path (c, target) = bool_decide (contextPath c = path).
Proof. done. Qed.

Lemma openable_for_new path c target n :
  openable_for path (mkTerminal c target false false n false)
  = bool_decide (contextPath c = path).
Proof. unfold openable_for. simpl. by destruct (bool_decide _). Qed.

Lemma step_dev w c target path :
  calm (Dev c target) w = true ->
  session_ok w path -> session_ok (handle (Dev c target) w) path.
Proof.
  intros Hen Hok. simpl in *.
  assert (Hnew : idle (devStatus (new_state c)) = true /\ devProcess (new_state c) = None).
  { unfold new_state. simpl. by destruct (supports_dev c). }
  destruct Hnew as [Hn1 Hn2].
  destruct target as [target|];
    unfold devRunOn, devRunOn_createTerminal, devRunOn_enter, getComponentDevState;
    cbv zeta;
    destruct (componentStates w !! contextPath c) as [cs0|] eqn:Hcs0;
    session_unfold; rewrite ?count_app; simpl;
    rewrite ?lookup_alter, ?lookup_insert, ?suspended_for_pair, ?openable_for_new;
    repeat case_decide; repeat case_bool_decide; simplify_eq/=;
    rewrite ?Hcs0 in *; simpl in *;
    try (session_lookup); session_solve.
Qed.

Lemma step_resume w k path :
  session_ok w path -> session_ok (handle (Resume k) w) path.
Proof.
  intros Hok. simpl.
  destruct (suspended w !! k) as [[c target]|] eqn:Hk; [|done].
  pose proof (count_delete (suspended_for path) _ _ _ Hk) as Hc.
  eapply session_ok_le; [| | | |exact Hok].
  - unfold devRunOn_createTerminal, devStatus_of. simpl. rewrite lookup_alter.
    case_decide; subst; [|done]. by destruct (componentStates w !! _).
  - unfold devRunOn_createTerminal, devProcess_of. simpl. rewrite lookup_alter.
    case_decide; subst; [|done]. by destruct (componentStates w !! _).
  - unfold starts. simpl. rewrite count_app. simpl.
    unfold suspended_for, openable_for in *. simpl in *. case_bool_decide; simpl in *; lia.
  - done.
Qed.

Lemma step_open w t path :
  enabled (TerminalOpen t) w = true ->
  session_ok w path -> session_ok (handle (TerminalOpen t) w) path.
Proof.
  intros Hen Hok. simpl in *.
  destruct (terminals w !! t) as [T|] eqn:Ht; [|done].
  apply andb_true_iff in Hen as [Ho Hc].
  pose proof (count_alter (openable_for path) opened _ _ _ Ht) as Hc1.
  eapply session_ok_le; [| | | |exact Hok]; try done.
  - unfold starts, pty_open. simpl. rewrite count_app. simpl.
    unfold openable_for, in_phase in *. simpl in *.
    destruct (term_opened T), (term_closed T); try done. simpl in *.
    case_bool_decide; simpl in *; lia.
  - unfold spawned, pty_open. simpl. rewrite count_app. simpl.
    unfold in_phase. simpl. case_bool_decide; simpl; lia.
Qed.

Lemma step_close w t path :
  session_ok w path -> session_ok (handle (TerminalClose t) w) path.
Proof.
  intros Hok. simpl.
  destruct (terminals w !! t) as [T|] eqn:Ht; [|done].
  pose proof (count_alter (openable_for path) closed _ _ _ Ht) as Hc1.
  assert (Hcl : openable_for path (closed T) = false).
  { unfold openable_for. simpl. by rewrite andb_false_r. }
  rewrite Hcl in Hc1.
  set (w1 := with_terminals (alter closed t) w).
  assert (Hok1 : session_ok w1 path).
  { eapply session_ok_le; [| | | |exact Hok]; try done.
    unfold starts. simpl. lia. }
  clearbody w1. clear Hok Hc1.
  unfold pty_close. cbv zeta.
  set (w2 := match devProcess_of w1 _ with Some _ => _ | None => _ end).
  assert (Hok2 : session_ok w2 path).
  { subst w2. destruct (devProcess_of w1 _) as [pid|] eqn:Hpid; [|done].
    destruct (_ && _); [|done]. by apply step_interrupt. }
  clearbody w2.
  eapply session_ok_le; [| | | |exact Hok2]; try done.
  - unfold devStatus_of. rewrite lookup_assign. case_decide; subst; [|done].
    by destruct (componentStates w2 !! _).
  - unfold devProcess_of. rewrite lookup_assign. case_decide; subst; [|done].
    by destruct (componentStates w2 !! _).
Qed.

Lemma step_input w t data path :
  session_ok w path -> session_ok (handle (TerminalInput t data) w) path.
Proof.
  intros Hok. simpl.
  destruct (terminals w !! t) as [T|] eqn:Ht; [|done].
  unfold pty_handleInput. case_decide; [done|].
  destruct (devProcess_of w _) as [pid|] eqn:Hpid.
  - destruct (_ && _); [|done]. simpl. apply step_interrupt; [done|].
    eapply session_ok_le; [| | | |exact Hok]; done.
  - destruct (devTerminal_of w _) as [t'|]; [|done]. simpl.
    eapply session_ok_le; [| | | |exact Hok]; try done.
    unfold starts. simpl.
    rewrite (count_alter_same (openable_for path) disposed) by done. lia.
Qed.

Lemma step_force w c path :
  session_ok w path -> session_ok (handle (ForceExit c) w) path.
Proof.
  intros Hok. simpl. unfold forceExitDevMode.
  destruct (componentStates w !! contextPath c) as [cs|]; [|done]. simpl.
  destruct (devProcess cs) as [pid|]; [|done].
  destruct (exitCode_is_null pid w); [|done].
  destruct (devProcessStopRequest cs) as [env|]; [|done]. simpl.
  unfold sendSigabrt. destruct (stopRequests w !! env) as [e|]; [|done].
  eapply session_ok_le; [| | | |exact Hok]; try done.
  - unfold starts. simpl. by rewrite count_kill.
  - unfold spawned. simpl. by rewrite count_kill.
Qed.

Lemma step_timer w t path :
  session_ok w path -> session_ok (handle (TimerExpires t) w) path.
Proof.
  intros Hok. simpl. destruct (timers w !! t) as [T|]; [|done].
  by case_decide.
Qed.

Lemma step_answer w env action path :
  session_ok w path -> session_ok (handle (WarningAnswer env action) w) path.
Proof.
  intros Hok. simpl. case_decide; [|done].
  unfold warning_answered. simpl.
  destruct (stopRequests w !! env) as [e|]; [|done].
  destruct (devCleaningTimeout e) as [t|]; [|done].
  repeat case_decide; try done.
  eapply session_ok_le; [| | | |exact Hok]; try done.
  - unfold starts. simpl. by rewrite count_kill.
  - unfold spawned. simpl. by rewrite count_kill.
Qed.

Lemma session_ok_initial timeout path : session_ok (initial timeout) path.
Proof.
  unfold session_ok, devStatus_of, devProcess_of, starts, spawned. simpl.
  rewrite lookup_empty. simpl. repeat split; intros; first [lia | done].
Qed.

Lemma unraced_session_ok w path : unraced w -> session_ok w path.
Proof.
  induction 1 as [timeout|w ev Hr IH Hen Hcalm]; [apply session_ok_initial|].
  destruct ev.
  - by apply step_dev.
  - by apply step_resume.
  - by apply step_open.
  - by apply step_close.
  - by apply step_input.
  - by apply step_spawn.
  - by apply step_error.
  - by apply step_stdout.
  - by apply step_stderr.
  - by apply step_exit.
  - by apply step_force.
  - by apply step_timer.
  - by apply step_answer.
Qed.

Lemma unraced_reachable w : unraced w -> reachable w.
Proof. induction 1; [apply reachable_initial|by apply reachable_step]. Qed.

Lemma reachable_run w evs :
  reachable w -> all_enabled evs w = true -> reachable (run evs w).
Proof.
  revert w. induction evs as [|ev evs IH]; intros w Hr Hen; [done|].
  simpl in Hen. apply andb_true_iff in Hen as [Hev Hrest].
  simpl. apply IH; [|done]. by apply reachable_step.
Qed.

Lemma unraced_run w evs :
  unraced w -> all_calm evs w = true -> unraced (run evs w).
Proof.
  revert w. induction evs as [|ev evs IH]; intros w Hr Hen; [done|].
  simpl in Hen. apply andb_true_iff in Hen as [Hev Hrest].
  apply andb_true_iff in Hev as [Hev Hcalm].
  simpl. apply IH; [|done]. by apply unraced_step.
Qed.


(** * The rest of the class: properties *)

(** ** One workspace does not disturb another *)

Lemma dispose_componentStates env w : componentStates (dispose env w) = componentStates w.
Proof. by destruct (dispose_frame env w). Qed.

Lemma sendSigabrt_componentStates env w :
  componentStates (sendSigabrt env w) = componentStates w.
Proof. unfold sendSigabrt. by destruct (stopRequests w !! env). Qed.

Lemma warning_answered_componentStates env action w :
  componentStates (warning_answered env action w) = componentStates w.
Proof.
  unfold warning_answered. destruct (stopRequests w !! env) as [e|]; [|done].
  destruct (devCleaningTimeout e); [|done]. by repeat case_decide.
Qed.

Lemma interrupt_lookup_ne path0 pid w path :
  path0 <> path ->
  componentStates (interrupt path0 pid w) !! path = componentStates w !! path.
Proof.
  intros Hne. unfold interrupt, exitDevelopmentMode. simpl.
  by rewrite !lookup_alter_ne.
Qed.

Lemma pty_close_lookup_ne path0 w path :
  path0 <> path ->
  componentStates (pty_close path0 w) !! path = componentStates w !! path.
Proof.
  intros Hne. unfold pty_close. cbv zeta. rewrite lookup_assign, decide_False by done.
  destruct (devProcess_of w path0) as [pid|]; [|done].
  destruct (_ && _); [|done]. by apply interrupt_lookup_ne.
Qed.

Lemma pty_handleInput_lookup_ne path0 t data w w' path :
  path0 <> path -> pty_handleInput path0 t data w = Some w' ->
  componentStates w' !! path = componentStates w !! path.
Proof.
  intros Hne. unfold pty_handleInput. case_decide; [by intros [= <-]|].
  destruct (devProcess_of w path0) as [pid|].
  - destruct (_ && _); intros [= <-]; [|done]. by rewrite interrupt_lookup_ne.
  - destruct (devTerminal_of w path0); simpl; [|done]. by intros [= <-].
Qed.

Lemma on_exit_lookup_ne path0 t w path :
  path0 <> path ->
  componentStates (on_exit path0 t w) !! path = componentStates w !! path.
Proof.
  intros Hne. unfold on_exit. cbv zeta. simpl. rewrite !lookup_alter_ne by done.
  destruct (devProcessStopRequest_of w path0) as [env|]; [|done].
  rewrite lookup_assign, decide_False by done. by rewrite dispose_componentStates.
Qed.

Lemma devRunOn_enter_lookup_ne c target w path :
  contextPath c <> path ->
  componentStates (devRunOn_enter c target w) !! path = componentStates w !! path.
Proof.
  intros Hne. unfold devRunOn_enter, getComponentDevState. cbv zeta.
  destruct target; simpl; rewrite !lookup_alter_ne by done;
    destruct (componentStates w !! contextPath c); simpl; try done;
    by rewrite lookup_insert_ne.
Qed.

Lemma handle_lookup_ne (ev : Event) (w : World) (path : string) :
  workspace_of ev w <> Some path ->
  componentStates (handle ev w) !! path = componentStates w !! path.
Proof.
  intros Hne. destruct ev; simpl in Hne; unfold handle; fold handle.
  - assert (contextPath component <> path) by congruence.
    destruct target; unfold devRunOn, devRunOn_createTerminal;
      cbn [componentStates with_suspended with_terminals assign with_componentStates];
      rewrite ?lookup_alter_ne by done; by apply devRunOn_enter_lookup_ne.
  - destruct (suspended w !! k) as [[c target]|]; [|done]. simpl in Hne.
    unfold devRunOn_createTerminal. simpl. rewrite lookup_alter_ne; [done|congruence].
  - by destruct (terminals w !! t).
  - destruct (terminals w !! t) as [T|]; [|done]. simpl in Hne.
    rewrite pty_close_lookup_ne; [done|congruence].
  - destruct (terminals w !! t) as [T|]; [|done]. simpl in Hne.
    destruct (pty_handleInput _ _ _ _) as [w'|] eqn:Hin; [|done]. simpl.
    eapply pty_handleInput_lookup_ne; [|done]. congruence.
  - destruct (processes w !! pid) as [p|]; [|done]. simpl in Hne.
    unfold on_spawn. destruct (devTerminal_of _ _); simpl; [|done].
    rewrite !lookup_alter_ne; [done|congruence..].
  - destruct (processes w !! pid) as [p|]; [|done]. simpl in Hne.
    unfold on_error. simpl. rewrite lookup_alter_ne; [done|congruence].
  - destruct (processes w !! pid) as [p|]; [|done]. simpl in Hne.
    unfold on_stdout_data. case_decide; [|done]. simpl.
    rewrite lookup_alter_ne; [done|congruence].
  - destruct (processes w !! pid) as [p|]; [|done].
    unfold on_stderr_data. by destruct (stop_request_sigabrt_sent _ _).
  - destruct (processes w !! pid) as [p|]; [|done]. simpl in Hne.
    rewrite on_exit_lookup_ne; [done|congruence].
  - unfold forceExitDevMode.
    destruct (componentStates w !! contextPath component) as [cs|]; [|done]. simpl.
    destruct (devProcess cs); [|done]. destruct (exitCode_is_null _ _); [|done].
    destruct (devProcessStopRequest cs); [|done]. simpl.
    by rewrite sendSigabrt_componentStates.
  - destruct (timers w !! t); [|done]. by case_decide.
  - case_decide; [|done]. by rewrite warning_answered_componentStates.
Qed.

(** X1. An event leaves the session of every workspace other than its own
    exactly as it was, present or absent. *)
Theorem other_workspaces_untouched (ev : Event) (w : World) (path : string) :
  workspace_of ev w <> Some path ->
  componentStates (handle ev w) !! path = componentStates w !! path.
Proof. apply handle_lookup_ne. Qed.

(** ** Changes of state are announced *)

Lemma same_status_refl w : same_status w w.
Proof. by intros path. Qed.

Lemma same_status_trans w1 w2 w3 :
  same_status w1 w2 -> same_status w2 w3 -> same_status w1 w3.
Proof.
  intros H1 H2 path. destruct (H1 path) as [<- <-]. apply H2.
Qed.

Lemma same_status_states w w' :
  componentStates w' = componentStates w -> same_status w w'.
Proof. intros H path. unfold devStatus_of, runOn_of. by rewrite H. Qed.

Lemma same_status_assign p f w :
  (forall cs, devStatus (f cs) = devStatus cs /\ runOn (f cs) = runOn cs) ->
  same_status w (assign p f w).
Proof.
  intros Hf path. unfold devStatus_of, runOn_of. rewrite lookup_assign.
  case_decide; [subst|done].
  destruct (componentStates w !! path) as [cs|]; [|done]. simpl.
  by destruct (Hf cs) as [-> ->].
Qed.

Lemma interrupt_fires path pid w :
  stateChanged (interrupt path pid w) = stateChanged w ++ [path].
Proof. done. Qed.

Lemma pty_close_fires_or_same path w :
  stateChanged (pty_close path w) = stateChanged w ++ [path] \/
  (stateChanged (pty_close path w) = stateChanged w /\ same_status w (pty_close path w)).
Proof.
  unfold pty_close. cbv zeta.
  destruct (devProcess_of w path) as [pid|]; [destruct (_ && _)|];
    [left; apply interrupt_fires| |]; right; (split; [done|]);
    by apply same_status_assign.
Qed.

Lemma pty_handleInput_fires_or_same path t data w w' :
  pty_handleInput path t data w = Some w' ->
  stateChanged w' = stateChanged w ++ [path] \/
  (stateChanged w' = stateChanged w /\ same_status w w').
Proof.
  unfold pty_handleInput. case_decide.
  { intros [= <-]. right. split; [done|apply same_status_refl]. }
  destruct (devProcess_of w path) as [pid|].
  - destruct (_ && _); intros [= <-]; [by left|].
    right. split; [done|apply same_status_refl].
  - destruct (devTerminal_of w path); simpl; [|done]. intros [= <-].
    right. split; [done|]. by apply same_status_states.
Qed.

Lemma on_exit_fires path t w :
  stateChanged (on_exit path t w) = stateChanged w ++ [path].
Proof.
  unfold on_exit. cbv zeta. simpl.
  destruct (devProcessStopRequest_of w path) as [env|]; [|done].
  simpl. unfold dispose. destruct (stopRequests w !! env) as [e|]; [|done].
  by destruct (devCleaningTimeout e).
Qed.

(** Every event either announces a change for its own workspace, or leaves
    the state and the run target of every session as they were. *)
Lemma fires_or_same (ev : Event) (w : World) :
  (exists path, workspace_of ev w = Some path /\
                stateChanged (handle ev w) = stateChanged w ++ [path]) \/
  (stateChanged (handle ev w) = stateChanged w /\ same_status w (handle ev w)).
Proof.
  destruct ev; unfold handle; fold handle; simpl workspace_of.
  - left. exists (contextPath component). split; [done|].
    destruct target; unfold devRunOn, devRunOn_createTerminal, devRunOn_enter,
      getComponentDevState; by destruct (componentStates w !! contextPath component).
  - right. destruct (suspended w !! k) as [[c target]|];
      [|split; [done|apply same_status_refl]].
    split; [done|]. unfold devRunOn_createTerminal.
    eapply same_status_trans; [|by apply same_status_assign].
    by apply same_status_states.
  - right. destruct (terminals w !! t); split; try done;
      first [apply same_status_refl | by apply same_status_states].
  - destruct (terminals w !! t) as [T|]; [|right; split; [done|apply same_status_refl]].
    destruct (pty_close_fires_or_same (contextPath (term_component T))
                (with_terminals (alter closed t) w)) as [Hf|[Hs Hsame]].
    + left. eexists. split; [done|]. by rewrite Hf.
    + right. split; [by rewrite Hs|].
      eapply same_status_trans; [|exact Hsame]. by apply same_status_states.
  - destruct (terminals w !! t) as [T|]; [|right; split; [done|apply same_status_refl]].
    destruct (pty_handleInput _ _ _ _) as [w'|] eqn:Hin;
      [|right; split; [done|apply same_status_refl]].
    simpl. destruct (pty_handleInput_fires_or_same _ _ _ _ _ Hin) as [Hf|[Hs Hsame]].
    + left. eexists. by split.
    + by right.
  - destruct (processes w !! pid) as [p|]; [|right; split; [done|apply same_status_refl]].
    unfold on_spawn. destruct (devTerminal_of _ _); simpl.
    + left. by eexists.
    + right. split; [done|]. by apply same_status_states.
  - destruct (processes w !! pid) as [p|]; [|right; split; [done|apply same_status_refl]].
    left. by eexists.
  - destruct (processes w !! pid) as [p|]; [|right; split; [done|apply same_status_refl]].
    unfold on_stdout_data. case_decide.
    + left. by eexists.
    + right. split; [done|]. by apply same_status_states.
  - right. destruct (processes w !! pid) as [p|]; [|split; [done|apply same_status_refl]].
    unfold on_stderr_data. destruct (stop_request_sigabrt_sent _ _);
      split; try done; first [apply same_status_refl | by apply same_status_states].
  - destruct (processes w !! pid) as [p|]; [|right; split; [done|apply same_status_refl]].
    left. eexists. split; [done|]. by rewrite on_exit_fires.
  - right. unfold forceExitDevMode.
    destruct (componentStates w !! contextPath component) as [cs|];
      [|split; [done|apply same_status_refl]]. simpl.
    destruct (devProcess cs); [|split; [done|apply same_status_refl]].
    destruct (exitCode_is_null _ _); [|split; [done|apply same_status_refl]].
    destruct (devProcessStopRequest cs) as [env|]; [|split; [done|apply same_status_refl]].
    simpl. unfold sendSigabrt. destruct (stopRequests w !! env);
      split; try done; first [apply same_status_refl | by apply same_status_states].
  - right. destruct (timers w !! t); [case_decide|]; split; try done;
      first [apply same_status_refl | by apply same_status_states].
  - right. case_decide; [|split; [done|apply same_status_refl]].
    split.
    + unfold warning_answered. simpl. destruct (stopRequests w !! env) as [e|]; [|done].
      destruct (devCleaningTimeout e); [|done]. by repeat case_decide.
    + apply same_status_states. by rewrite warning_answered_componentStates.
Qed.

(** X2. Whenever an event changes the state or the run target that a
    session shows, it fires the change notification of that workspace, and
    of no other. *)
Theorem status_change_is_notified (ev : Event) (w : World) (path : string) :
  devStatus_of (handle ev w) path <> devStatus_of w path \/
  runOn_of (handle ev w) path <> runOn_of w path ->
  workspace_of ev w = Some path /\
  stateChanged (handle ev w) = stateChanged w ++ [path].
Proof.
  intros Hch.
  destruct (fires_or_same ev w) as [(p & Hp & Hf)|[_ Hsame]].
  - destruct (decide (p = path)) as [->|Hne]; [done|].
    assert (Hl : componentStates (handle ev w) !! path = componentStates w !! path).
    { apply handle_lookup_ne. congruence. }
    unfold devStatus_of, runOn_of in Hch. rewrite Hl in Hch. by destruct Hch.
  - destruct (Hsame path) as [H1 H2]. by destruct Hch.
Qed.

(** ** What an event makes of a session *)

Lemma moved_states w w' path :
  componentStates w' !! path = componentStates w !! path -> moved Stay w w' path.
Proof.
  intros H. unfold moved, devStatus_of, devProcessStopRequest_of, devProcess_of.
  by rewrite H.
Qed.

Ltac moved_unfold :=
  unfold moved, devStatus_of, devProcessStopRequest_of, devProcess_of in *.

Lemma moved_interrupt path pid w :
  devProcess_of w path = Some pid -> devProcessStopRequest_of w path = None ->
  moved Stop w (interrupt path pid w) path.
Proof.
  unfold interrupt, exitDevelopmentMode. moved_unfold. simpl.
  rewrite !lookup_alter_eq. destruct (componentStates w !! path) as [cs|]; [|done].
  simpl. intros Hp Hr. rewrite Hp, Hr. by repeat split.
Qed.

Lemma moved_more m w w' w'' path :
  componentStates w'' !! path = componentStates w' !! path ->
  moved m w w' path -> moved m w w'' path.
Proof. moved_unfold. by intros ->. Qed.

Lemma moved_less m w w' w'' path :
  componentStates w' !! path = componentStates w !! path ->
  moved m w' w'' path -> moved m w w'' path.
Proof. moved_unfold. by intros ->. Qed.

Lemma moved_pty_close path w :
  exists m, moved m w (pty_close path w) path.
Proof.
  unfold pty_close. cbv zeta.
  destruct (devProcess_of w path) as [pid|] eqn:Hp.
  - destruct (exitCode_is_null pid w); simpl.
    + case_bool_decide as Hr.
      * exists Stop. pose proof (moved_interrupt path pid w Hp Hr) as Hm.
        revert Hm. generalize (interrupt path pid w). intros w1.
        moved_unfold. simpl. rewrite lookup_alter_eq.
        destruct (componentStates w1 !! path); simpl; [done|].
        by intros (? & ? & ? & ? & ?).
      * exists Stay. moved_unfold. simpl. rewrite lookup_alter_eq.
        by destruct (componentStates w !! path).
    + exists Stay. moved_unfold. simpl. rewrite lookup_alter_eq.
      by destruct (componentStates w !! path).
  - exists Stay. moved_unfold. simpl. rewrite lookup_alter_eq.
    by destruct (componentStates w !! path).
Qed.

Lemma moved_pty_handleInput path t data w w' :
  pty_handleInput path t data w = Some w' -> exists m, moved m w w' path.
Proof.
  unfold pty_handleInput. case_decide; [intros [= <-]; by exists Stay|].
  destruct (devProcess_of w path) as [pid|] eqn:Hp.
  - case_bool_decide as Hr; simpl; [|intros [= <-]; by exists Stay].
    destruct (charCodeAt0_is_3 data); intros [= <-]; [|by exists Stay].
    exists Stop. eapply moved_less; [|by apply moved_interrupt]. done.
  - destruct (devTerminal_of w path); simpl; [|done]. intros [= <-]. by exists Stay.
Qed.

Lemma moved_on_exit path t w : exists m, moved m w (on_exit path t w) path.
Proof.
  destruct (componentStates w !! path) as [cs|] eqn:Hcs.
  - exists Leave. unfold on_exit. cbv zeta.
    assert (exists cs1,
      componentStates
        match devProcessStopRequest_of w path with
        | Some env => assign path (set_devProcessStopRequest None) (dispose env w)
        | None => w
        end !! path = Some cs1 /\ devProcessStopRequest cs1 = None) as (cs1 & H1 & H2).
    { unfold devProcessStopRequest_of. rewrite Hcs. simpl.
      destruct (devProcessStopRequest cs) as [env|] eqn:Hr.
      - eexists. unfold assign. simpl.
        rewrite lookup_alter_eq, dispose_componentStates, Hcs. by split.
      - by exists cs. }
    revert H1. generalize (match devProcessStopRequest_of w path with
        | Some env => assign path (set_devProcessStopRequest None) (dispose env w)
        | None => w
        end). intros w1 H1.
    moved_unfold. simpl. rewrite !lookup_alter_eq, H1. by simpl.
  - exists Stay. apply moved_states. unfold on_exit. cbv zeta. simpl.
    rewrite !lookup_alter_eq. unfold devProcessStopRequest_of. rewrite Hcs. simpl.
    by rewrite Hcs.
Qed.

(** Whatever the event and the world, the session of a workspace stays as it
    is or makes one of the six moves. *)
Lemma handle_moves (ev : Event) (w : World) (path : string) :
  exists m, moved m w (handle ev w) path.
Proof.
  destruct (decide (workspace_of ev w = Some path)) as [Hws|Hws];
    [|exists Stay; by apply moved_states, handle_lookup_ne].
  destruct ev; simpl in Hws; unfold handle; fold handle.
  - injection Hws as <-. exists Start.
    destruct target; unfold devRunOn, devRunOn_createTerminal, devRunOn_enter,
      getComponentDevState; moved_unfold;
      destruct (componentStates w !! contextPath component) as [cs|] eqn:Hcs; simpl;
      rewrite !lookup_alter_eq, ?lookup_insert_eq, ?Hcs; done.
  - destruct (suspended w !! k) as [[c target]|]; [|done]. injection Hws as <-.
    exists Stay. unfold devRunOn_createTerminal. moved_unfold. simpl.
    rewrite lookup_alter_eq. by destruct (componentStates w !! _).
  - exists Stay. destruct (terminals w !! t); by apply moved_states.
  - destruct (terminals w !! t) as [T|]; [|done]. injection Hws as <-.
    destruct (moved_pty_close (contextPath (term_component T))
                (with_terminals (alter closed t) w)) as [m Hm].
    exists m. by eapply moved_less; [|exact Hm].
  - destruct (terminals w !! t) as [T|]; [|done]. injection Hws as <-.
    destruct (pty_handleInput _ _ _ _) as [w'|] eqn:Hin; [|by exists Stay].
    by eapply moved_pty_handleInput.
  - destruct (processes w !! pid) as [p|]; [|done]. injection Hws as <-.
    unfold on_spawn.
    destruct (devTerminal_of _ (cwd p)) as [t|] eqn:Ht; simpl;
      [|exists Stay; by apply moved_states].
    exists Spawn. unfold devTerminal_of in Ht. moved_unfold. simpl in *.
    rewrite !lookup_alter_eq. by destruct (componentStates w !! cwd p).
  - destruct (processes w !! pid) as [p|]; [|done]. injection Hws as <-.
    destruct (componentStates w !! cwd p) as [cs|] eqn:Hcs.
    + exists Fail. unfold on_error. moved_unfold. simpl.
      by rewrite lookup_alter_eq, Hcs.
    + exists Stay. apply moved_states. unfold on_error. simpl.
      by rewrite lookup_alter_eq, Hcs.
  - destruct (processes w !! pid) as [p|]; [|done]. injection Hws as <-.
    unfold on_stdout_data. case_decide as Hst; [|by exists Stay].
    exists Alive. moved_unfold. simpl. rewrite lookup_alter_eq.
    by destruct (componentStates w !! cwd p).
  - exists Stay. destruct (processes w !! pid) as [p|]; [|done].
    unfold on_stderr_data. by destruct (stop_request_sigabrt_sent _ _).
  - destruct (processes w !! pid) as [p|]; [|done]. injection Hws as <-.
    destruct (moved_on_exit (cwd p) (sink p)
                (with_processes (alter (exited code signal) pid) w)) as [m Hm].
    exists m. by eapply moved_less; [|exact Hm].
  - exists Stay. apply moved_states. unfold forceExitDevMode.
    destruct (componentStates w !! contextPath component) as [cs|]; [|done]. simpl.
    destruct (devProcess cs); [|done]. destruct (exitCode_is_null _ _); [|done].
    destruct (devProcessStopRequest cs); [|done]. simpl.
    by rewrite sendSigabrt_componentStates.
  - done.
  - done.
Qed.

Lemma step_request_held (ev : Event) (w : World) (path : string) :
  request_held w path -> request_held (handle ev w) path.
Proof.
  intros [H1 H2]. destruct (handle_moves ev w path) as [m Hm].
  unfold request_held. destruct m; simpl in Hm.
  - destruct Hm as (-> & -> & ->). by split.
  - destruct Hm as (-> & -> & ->). by split.
  - destruct Hm as (_ & -> & -> & ->). by split.
  - destruct Hm as (-> & -> & Hp). by split.
  - destruct Hm as (-> & -> & ->). by split.
  - destruct Hm as (-> & -> & ->). by split.
  - destruct Hm as (-> & _ & Hr & -> & Hp). by split.
Qed.

Lemma reachable_request_held w path : reachable w -> request_held w path.
Proof.
  induction 1 as [timeout|w ev Hr IH Hen]; [|by apply step_request_held].
  unfold request_held, devStatus_of, devProcessStopRequest_of, devProcess_of. simpl.
  by rewrite lookup_empty.
Qed.

(** C7 (as the code behaves).  In every reachable world, a session that is
    stopping holds a process.  In the worlds reached without [devRunOn]
    running on a session that is starting, running or stopping, the session
    moreover holds a process only while it is running or stopping; a session
    that is starting holds none yet (the 'spawn' listener stores it), and a
    session back at [DEV] holds none. *)
Theorem process_field_and_state (w : World) (path : string) (cs : ComponentDevState) :
  reachable w ->
  componentStates w !! path = Some cs ->
  (devStatus cs = Some DEV_STOPPING -> devProcess cs <> None) /\
  (unraced w ->
     (devProcess cs <> None ->
        devStatus cs = Some DEV_RUNNING \/ devStatus cs = Some DEV_STOPPING) /\
     (devStatus cs = Some DEV_STARTING -> devProcess cs = None) /\
     (devStatus cs = Some DEV -> devProcess cs = None)).
Proof.
  intros Hr Hcs. split.
  - destruct (reachable_request_held w path Hr) as [H1 H2].
    unfold devStatus_of, devProcessStopRequest_of, devProcess_of in H1, H2.
    rewrite Hcs in H1, H2. simpl in H1, H2. auto.
  - intros Hu. pose proof (unraced_session_ok w path Hu) as Hok.
    unfold session_ok, devStatus_of, devProcess_of in Hok. rewrite Hcs in Hok.
    simpl in Hok. destruct Hok as (_ & _ & Hp & Hs).
    split; [|split].
    + intros Hne. by destruct (Hp Hne).
    + intros Hst. destruct (devProcess cs) eqn:Hd; [|done].
      destruct Hp as [[?|?] _]; congruence.
    + intros Hst. destruct (devProcess cs) eqn:Hd; [|done].
      destruct Hp as [[?|?] _]; congruence.
Qed.

Lemma process_field_and_state_witness :
  let cs := mkDevState (Some 0) (Some 0) (Some DEV_STOPPING) None (Some 0)
              (Some DEB) None None in
  componentStates Scenario.stopping !! "/home/user/app" = Some cs /\
  (devStatus cs = Some DEV_STOPPING -> devProcess cs <> None) /\
  (devProcess cs <> None ->
     devStatus cs = Some DEV_RUNNING \/ devStatus cs = Some DEV_STOPPING) /\
  (devStatus cs = Some DEV_STARTING -> devProcess cs = None) /\
  (devStatus cs = Some DEV -> devProcess cs = None).
Proof.
  assert (Hu : unraced Scenario.stopping).
  { assert (H : unraced
                  (run [Dev Scenario.app None; Resume 0; TerminalOpen 0; ProcessSpawn 0;
                        TerminalInput 0 Scenario.ctrl_c] (initial 20000))).
    { apply unraced_run; [apply unraced_initial|]. vm_compute. reflexivity. }
    vm_compute in H. vm_compute. exact H. }
  split; [vm_compute; reflexivity|].
  destruct (process_field_and_state Scenario.stopping "/home/user/app" _
              (unraced_reachable _ Hu) eq_refl) as [H1 H2].
  split; [exact H1|exact (H2 Hu)].
Defined.

(** C7, as the specification words it, does not hold: a session that is
    starting, with its process already requested, does not hold the process;
    and when the dev command is issued twice before either start comes to
    its process, the session can be back at [DEV] while it holds the process
    of the first start, which is still running. *)
Lemma process_field_not_tied_to_state :
  (unraced Scenario.starting /\
   devStatus_of Scenario.starting "/home/user/app" = Some DEV_STARTING /\
   devProcess_of Scenario.starting "/home/user/app" = None /\
   running <$> processes Scenario.starting !! 0 = Some true) /\
  (reachable Scenario.overtaken /\
   devStatus_of Scenario.overtaken "/home/user/app" = Some DEV /\
   devProcess_of Scenario.overtaken "/home/user/app" = Some 0 /\
   running <$> processes Scenario.overtaken !! 0 = Some true).
Proof.
  split; split.
  - assert (H : unraced
                  (run [Dev Scenario.app None; Resume 0; TerminalOpen 0] (initial 20000))).
    { apply unraced_run; [apply unraced_initial|]. vm_compute. reflexivity. }
    vm_compute in H. vm_compute. exact H.
  - vm_compute. repeat split; reflexivity.
  - assert (H : reachable
                  (run [Dev Scenario.app (Some podman); Dev Scenario.app (Some podman);
                        TerminalOpen 0; ProcessSpawn 0; TerminalOpen 1;
                        ProcessError 1 "spawn odo ENOENT"] (initial 20000))).
    { apply reachable_run; [apply reachable_initial|]. vm_compute. reflexivity. }
    vm_compute in H. vm_compute. exact H.
  - vm_compute. repeat split; reflexivity.
Qed.
(** ** A stop request exactly while stopping, races apart *)

Lemma count_pos {A} (f : A -> bool) l i x :
  l !! i = Some x -> f x = true -> 1 <= count f l.
Proof.
  revert i. induction l as [|y l IH]; intros [|i] Hl Hf; simplify_eq/=.
  - rewrite Hf. lia.
  - specialize (IH _ Hl Hf). lia.
Qed.

Lemma pending_not_stopping w pid p :
  processes w !! pid = Some p -> phase p = Pending ->
  session_ok w (cwd p) ->
  devStatus_of w (cwd p) <> Some DEV_STOPPING.
Proof.
  intros Hp Hph (Hone & _ & Hpr & Hst) Hs.
  destruct (Hpr (Hst Hs)) as [_ Hsp].
  assert (1 <= count (in_phase Pending (cwd p)) (processes w)).
  { eapply count_pos; [done|]. by rewrite in_phase_is, bool_decide_eq_true_2. }
  unfold starts in Hone. lia.
Qed.

Ltac request_unfold :=
  unfold request_ok, devProcessStopRequest_of, devStatus_of in *; simpl in *.

Lemma request_ok_interrupt w path pid :
  devProcess_of w path = Some pid -> request_ok (interrupt path pid w) path.
Proof.
  intros Hpr. unfold interrupt, exitDevelopmentMode. cbv zeta.
  unfold devProcess_of in Hpr. request_unfold. rewrite !lookup_alter_eq.
  destruct (componentStates w !! path); [|done]. simpl. split; [done|]. done.
Qed.

Lemma request_ok_same w w' path :
  devStatus_of w' path = devStatus_of w path ->
  devProcessStopRequest_of w' path = devProcessStopRequest_of w path ->
  request_ok w path -> request_ok w' path.
Proof. unfold request_ok. by intros -> ->. Qed.

Lemma step_request_ok (ev : Event) (w : World) (path : string) :
  session_ok w path -> enabled ev w = true -> calm ev w = true ->
  request_ok w path -> request_ok (handle ev w) path.
Proof.
  intros Hok Hen Hcalm Hreq.
  destruct (decide (workspace_of ev w = Some path)) as [Hws|Hws].
  2:{ pose proof (handle_lookup_ne ev w path Hws) as Hl.
      apply (request_ok_same w); [| |done].
      - unfold devStatus_of. by rewrite Hl.
      - unfold devProcessStopRequest_of. by rewrite Hl. }
  destruct ev; simpl in Hws, Hen, Hcalm; unfold handle; fold handle.
  - (* Dev *)
    injection Hws as <-.
    assert (Hnone : devProcessStopRequest_of w (contextPath component) = None).
    { destruct (devProcessStopRequest_of w _) eqn:E; [|done].
      assert (Hs : devStatus_of w (contextPath component) = Some DEV_STOPPING).
      { apply Hreq. congruence. }
      rewrite Hs in Hcalm. done. }
    clear Hreq Hok Hen Hcalm.
    destruct target; unfold devRunOn, devRunOn_createTerminal, devRunOn_enter,
      getComponentDevState; cbv zeta;
      destruct (componentStates w !! contextPath component) as [cs|] eqn:Hcs;
      request_unfold; rewrite ?lookup_alter_eq, ?lookup_insert_eq, ?Hcs in *; simpl in *;
      rewrite ?Hnone; split; done.
  - (* Resume *)
    destruct (suspended w !! k) as [[c target]|]; [|done].
    unfold devRunOn_createTerminal. request_unfold. rewrite lookup_alter.
    case_decide; [|done]. subst. by destruct (componentStates w !! contextPath c).
  - by destruct (terminals w !! t).
  - (* TerminalClose *)
    destruct (terminals w !! t) as [T|]; [|done]. simpl in Hws. injection Hws as <-.
    set (path := contextPath (term_component T)) in *.
    set (w1 := with_terminals (alter closed t) w).
    assert (Hreq1 : request_ok w1 path) by done.
    clearbody w1. unfold pty_close. cbv zeta.
    set (w2 := match devProcess_of w1 path with Some _ => _ | None => _ end).
    assert (Hreq2 : request_ok w2 path).
    { subst w2. destruct (devProcess_of w1 path) eqn:Hpr; [|done].
      destruct (_ && _); [|done]. by apply request_ok_interrupt. }
    clearbody w2. request_unfold. rewrite lookup_alter_eq.
    by destruct (componentStates w2 !! path).
  - (* TerminalInput *)
    destruct (terminals w !! t) as [T|]; [|done]. simpl in Hws. injection Hws as <-.
    unfold pty_handleInput. case_decide; [done|].
    destruct (devProcess_of w _) eqn:Hpr.
    + destruct (bool_decide _ && charCodeAt0_is_3 data); [|done]. simpl.
      apply request_ok_interrupt. unfold devProcess_of in *. done.
    + by destruct (devTerminal_of w _).
  - (* ProcessSpawn *)
    destruct (processes w !! pid) as [p|] eqn:Hp; [|done]. simpl in Hws.
    injection Hws as <-. apply bool_decide_eq_true in Hen.
    pose proof (pending_not_stopping w pid p Hp Hen Hok) as Hns.
    unfold on_spawn. destruct (devTerminal_of _ _) as [t|] eqn:Ht; [|done]. simpl.
    unfold devTerminal_of in Ht. request_unfold. rewrite !lookup_alter_eq.
    destruct (componentStates w !! cwd p) as [cs|]; [|done]. simpl in *.
    split; [|done]. intros Hne. apply Hreq in Hne. done.
  - (* ProcessError *)
    destruct (processes w !! pid) as [p|] eqn:Hp; [|done]. simpl in Hws.
    injection Hws as <-. apply bool_decide_eq_true in Hen.
    pose proof (pending_not_stopping w pid p Hp Hen Hok) as Hns.
    unfold on_error. request_unfold. rewrite !lookup_alter_eq.
    destruct (componentStates w !! cwd p) as [cs|]; [|done]. simpl in *.
    split; [|done]. intros Hne. apply Hreq in Hne. done.
  - (* ProcessStdout *)
    destruct (processes w !! pid) as [p|] eqn:Hp; [|done]. simpl in Hws.
    injection Hws as <-. clear Hen. unfold on_stdout_data.
    case_decide as Hst; [|exact Hreq].
    request_unfold. rewrite !lookup_alter_eq.
    destruct (componentStates w !! cwd p) as [cs|]; [|done]. simpl in *.
    split; [|done]. intros Hne. apply Hreq in Hne. congruence.
  - destruct (processes w !! pid) as [p|]; [|done].
    unfold on_stderr_data. by destruct (stop_request_sigabrt_sent _ _).
  - (* ProcessExit *)
    destruct (processes w !! pid) as [p|] eqn:Hp; [|done]. simpl in Hws.
    injection Hws as <-. unfold on_exit. cbv zeta.
    request_unfold. rewrite !lookup_alter_eq.
    destruct (componentStates w !! cwd p) as [cs|] eqn:Hcs; simpl.
    + destruct (devProcessStopRequest cs) as [env|] eqn:Hreqcs.
      * rewrite lookup_assign, decide_True, dispose_componentStates by done. simpl.
        rewrite Hcs. simpl. split; done.
      * simpl. rewrite Hcs. simpl. rewrite Hreqcs. split; done.
    + simpl. rewrite Hcs. simpl. split; done.
  - (* ForceExit *)
    apply (request_ok_same w); [| |done].
    + unfold unless_thrown, forceExitDevMode.
      destruct (componentStates w !! contextPath component) as [cs|]; [|done]. simpl.
      destruct (devProcess cs); [|done]. destruct (exitCode_is_null _ _); [|done].
      destruct (devProcessStopRequest cs); [|done]. simpl.
      unfold devStatus_of. by rewrite sendSigabrt_componentStates.
    + unfold unless_thrown, forceExitDevMode.
      destruct (componentStates w !! contextPath component) as [cs|]; [|done]. simpl.
      destruct (devProcess cs); [|done]. destruct (exitCode_is_null _ _); [|done].
      destruct (devProcessStopRequest cs); [|done]. simpl.
      unfold devProcessStopRequest_of. by rewrite sendSigabrt_componentStates.
  - done.
  - done.
Qed.

Lemma unraced_request_ok w path : unraced w -> request_ok w path.
Proof.
  induction 1 as [timeout|w ev Hr IH Hen Hcalm].
  - unfold request_ok, devProcessStopRequest_of, devStatus_of. simpl.
    rewrite lookup_empty. simpl. split; done.
  - apply step_request_ok; [by apply unraced_session_ok|done..].
Qed.

Lemma reachable_request_session (w : World) (path : string) (cs : ComponentDevState) :
  reachable w ->
  componentStates w !! path = Some cs ->
  (devStatus cs = Some DEV_STOPPING -> devProcessStopRequest cs <> None) /\
  (devProcessStopRequest cs <> None -> devProcess cs <> None) /\
  (unraced w ->
     (devProcessStopRequest cs <> None <-> devStatus cs = Some DEV_STOPPING)).
Proof.
  intros Hr Hcs. destruct (reachable_request_held w path Hr) as [H1 H2].
  unfold devStatus_of, devProcessStopRequest_of, devProcess_of in H1, H2.
  rewrite Hcs in H1, H2. simpl in H1, H2. split; [done|split; [done|]].
  intros Hu. pose proof (unraced_request_ok w path Hu) as H.
  unfold request_ok, devProcessStopRequest_of, devStatus_of in H.
  by rewrite Hcs in H.
Qed.

(** X3. In every reachable world a session that is stopping holds a stop
    request, and a session that holds a stop request holds a process.  In
    the worlds reached without [devRunOn] running on a session that is
    starting, running or stopping, a session holds a stop request exactly
    while it is stopping. *)
Theorem stop_request_while_stopping (w : World) (path : string) (cs : ComponentDevState) :
  reachable w ->
  componentStates w !! path = Some cs ->
  (devStatus cs = Some DEV_STOPPING -> devProcessStopRequest cs <> None) /\
  (devProcessStopRequest cs <> None -> devProcess cs <> None) /\
  (unraced w ->
     (devProcessStopRequest cs <> None <-> devStatus cs = Some DEV_STOPPING)).
Proof. apply reachable_request_session. Qed.
(** ** No timer outlives its stop request *)

Lemma same_timers_ok w w' : same_timers w w' -> timers_ok w -> timers_ok w'.
Proof.
  intros (Ht & Hh & Hr & Hlt & Hls) (H1 & H2 & H3 & H4 & H5 & H6 & H7).
  unfold timers_ok. rewrite Hlt, Hls.
  split; [done|]. split; [|split; [|split; [|split; [|split]]]].
  - intros t c env. rewrite Ht. apply H2.
  - intros env h. rewrite Hh. apply H3.
  - intros t c env. rewrite Ht, Hh. apply H4.
  - intros env. rewrite Hh. intros Hs. destruct (H5 _ Hs) as [path Hp].
    exists path. by rewrite Hr.
  - intros path env. rewrite Hr, Hh. apply H6.
  - intros path path' env. rewrite !Hr. apply H7.
Qed.

Lemma same_timers_refl w : same_timers w w.
Proof. by repeat split. Qed.

Lemma same_timers_trans w1 w2 w3 :
  same_timers w1 w2 -> same_timers w2 w3 -> same_timers w1 w3.
Proof.
  intros (A1 & A2 & A3 & A4 & A5) (B1 & B2 & B3 & B4 & B5).
  split; [|split; [|split; [|split]]]; intros; congruence.
Qed.

Lemma same_timers_fields w w' :
  componentStates w' = componentStates w -> stopRequests w' = stopRequests w ->
  timers w' = timers w -> same_timers w w'.
Proof.
  intros Hc Hs Ht.
  unfold same_timers, timer_of, handle_of, devProcessStopRequest_of.
  rewrite Hc, Hs, Ht. by repeat split.
Qed.

Lemma same_timers_assign p f w :
  (forall cs, devProcessStopRequest (f cs) = devProcessStopRequest cs) ->
  same_timers w (assign p f w).
Proof.
  intros Hf. split; [done|]. split; [done|]. split; [|done].
  intros path. unfold devProcessStopRequest_of. rewrite lookup_assign.
  case_decide; [subst|done].
  destruct (componentStates w !! path); [|done]. simpl. by rewrite Hf.
Qed.

Lemma same_timers_alter_env f env w :
  (forall e, devCleaningTimeout (f e) = devCleaningTimeout e) ->
  same_timers w (with_stopRequests (alter f env) w).
Proof.
  intros Hf. split; [done|]. split; [|split; [done|]].
  - intros env'. unfold handle_of. simpl. rewrite list_lookup_alter.
    case_decide; [subst|done]. destruct (stopRequests w !! env'); [|done].
    simpl. by rewrite Hf.
  - simpl. by rewrite length_alter.
Qed.

Lemma same_timers_alter_timer f t w :
  (forall T, timers w !! t = Some T ->
     timer_env (f T) = timer_env T /\
     (timer_state (f T) = Cancelled <-> timer_state T = Cancelled)) ->
  same_timers w (with_timers (alter f t) w).
Proof.
  intros Hf. split; [|split; [done|split; [done|]]].
  - intros t'. unfold timer_of. simpl. rewrite list_lookup_alter.
    case_decide; [subst|done]. destruct (timers w !! t') as [T|] eqn:HT; [|done].
    simpl. destruct (Hf T eq_refl) as [-> Hc]. do 2 f_equal.
    apply bool_decide_ext. done.
  - simpl. by rewrite length_alter.
Qed.

Lemma same_timers_getComponentDevState c w : same_timers w (getComponentDevState c w).
Proof.
  unfold getComponentDevState.
  destruct (componentStates w !! contextPath c) eqn:Hc; [apply same_timers_refl|].
  split; [done|]. split; [done|]. split; [|done].
  intros path. unfold devProcessStopRequest_of. simpl.
  destruct (decide (contextPath c = path)) as [<-|Hne].
  - by rewrite lookup_insert_eq, Hc.
  - by rewrite lookup_insert_ne.
Qed.

Lemma same_timers_stateChanged f w : same_timers w (with_stateChanged f w).
Proof. by apply same_timers_fields. Qed.
Lemma same_timers_written f w : same_timers w (with_written f w).
Proof. by apply same_timers_fields. Qed.
Lemma same_timers_messages f w : same_timers w (with_messages f w).
Proof. by apply same_timers_fields. Qed.
Lemma same_timers_processes f w : same_timers w (with_processes f w).
Proof. by apply same_timers_fields. Qed.
Lemma same_timers_terminals f w : same_timers w (with_terminals f w).
Proof. by apply same_timers_fields. Qed.
Lemma same_timers_prompts f w : same_timers w (with_prompts f w).
Proof. by apply same_timers_fields. Qed.
Lemma same_timers_executed f w : same_timers w (with_executed f w).
Proof. by apply same_timers_fields. Qed.
Lemma same_timers_suspended f w : same_timers w (with_suspended f w).
Proof. by apply same_timers_fields. Qed.
Lemma same_timers_set_devStatus p v w : same_timers w (assign p (set_devStatus v) w).
Proof. by apply same_timers_assign. Qed.
Lemma same_timers_set_devProcess p v w : same_timers w (assign p (set_devProcess v) w).
Proof. by apply same_timers_assign. Qed.
Lemma same_timers_set_devTerminal p v w : same_timers w (assign p (set_devTerminal v) w).
Proof. by apply same_timers_assign. Qed.
Lemma same_timers_set_runOn p v w : same_timers w (assign p (set_runOn v) w).
Proof. by apply same_timers_assign. Qed.
Lemma same_timers_set_sigAbortSent env w :
  same_timers w (with_stopRequests (alter (set_sigAbortSent true) env) w).
Proof. by apply same_timers_alter_env. Qed.
Lemma same_timers_refresh t w : same_timers w (refresh t w).
Proof.
  apply same_timers_alter_timer. intros T _. unfold refresh_timer.
  destruct (timer_state T) eqn:E; simpl; rewrite ?E; by split.
Qed.

Create HintDb same_timers.
#[local] Hint Resolve same_timers_stateChanged same_timers_written same_timers_messages
  same_timers_processes same_timers_terminals same_timers_prompts same_timers_executed
  same_timers_suspended same_timers_set_devStatus same_timers_set_devProcess
  same_timers_set_devTerminal same_timers_set_runOn same_timers_set_sigAbortSent
  same_timers_refresh same_timers_getComponentDevState : same_timers.

Ltac same_timers_chain :=
  cbv zeta;
  repeat (eapply same_timers_trans;
          [| solve [unfold fire_stateChanged, fire_output, show, kill;
                    eauto 2 with same_timers] ]);
  try apply same_timers_refl.

Lemma same_timers_sendSigabrt env w : same_timers w (sendSigabrt env w).
Proof. unfold sendSigabrt. destruct (stopRequests w !! env); same_timers_chain. Qed.

Lemma same_timers_warning_answered env action w :
  same_timers w (warning_answered env action w).
Proof.
  unfold warning_answered. destruct (stopRequests w !! env) as [e|]; [|apply same_timers_refl].
  destruct (devCleaningTimeout e); [|same_timers_chain].
  repeat case_decide; same_timers_chain.
Qed.

(** The two places that pair a closure with a timer and part them again. *)
Lemma timers_ok_interrupt path pid w :
  devProcess_of w path = Some pid ->
  devProcessStopRequest_of w path = None ->
  timers_ok w -> timers_ok (interrupt path pid w).
Proof.
  intros Hpr Hnone (H1 & H2 & H3 & H4 & H5 & H6 & H7).
  unfold interrupt, exitDevelopmentMode. cbv zeta.
  unfold devProcess_of in Hpr.
  destruct (componentStates w !! path) as [cs|] eqn:Hcs; [|done]. simpl in Hpr.
  assert (Hreq : forall p,
            devProcessStopRequest_of
              (assign path (set_devProcessStopRequest (Some (length (stopRequests w))))
                 (with_stopRequests
                    (fun l => l ++ [mkStopEnv false (Some (length (timers w))) pid])
                    (with_timers
                       (fun l => l ++ [mkTimeout Armed (timeout_delay (devModeExitTimeout w))
                                         (length (stopRequests w))])
                       (kill pid SIGINT
                          (fire_stateChanged path
                             (assign path (set_devStatus (Some DEV_STOPPING)) w)))))) p
            = if decide (path = p) then Some (length (stopRequests w))
              else devProcessStopRequest_of w p).
  { intros p. unfold devProcessStopRequest_of. simpl. rewrite !lookup_alter.
    repeat case_decide; simplify_eq; rewrite ?Hcs; done. }
  unfold timers_ok, timer_of, handle_of in *. simpl.
  rewrite !length_app. simpl.
  split; [lia|]. split; [|split; [|split; [|split; [|split]]]].
  - intros t c env Ht. destruct (decide (t < length (timers w))) as [Hlt|Hge].
    + rewrite lookup_app_l in Ht by done. eauto.
    + rewrite lookup_app_r in Ht by lia.
      destruct (t - length (timers w)) as [|n] eqn:E; simpl in Ht; [|done].
      simplify_eq. lia.
  - intros env h Hh. destruct (decide (env < length (stopRequests w))) as [Hlt|Hge].
    + rewrite lookup_app_l in Hh by done. eauto.
    + rewrite lookup_app_r in Hh by lia.
      destruct (env - length (stopRequests w)) as [|n] eqn:E; simpl in Hh; [|done].
      simplify_eq. right. f_equal. lia.
  - intros t c env Ht. destruct (decide (t < length (timers w))) as [Hlt|Hge].
    + rewrite lookup_app_l in Ht by done. rewrite lookup_app_l by lia. eauto.
    + rewrite lookup_app_r in Ht by lia. rewrite lookup_app_r by lia.
      rewrite <- H1.
      destruct (t - length (timers w)) as [|n] eqn:E; simpl in *; [|done].
      simplify_eq. split; done.
  - intros env Hh.
    destruct (decide (env < length (stopRequests w))) as [Hlt|Hge].
    + rewrite lookup_app_l in Hh by lia. destruct (H5 _ Hh) as [p Hp].
      exists p. rewrite Hreq. case_decide; [subst; congruence|done].
    + exists path. rewrite Hreq, decide_True by done.
      rewrite lookup_app_r in Hh by lia.
      destruct (env - length (stopRequests w)) as [|n] eqn:E; simpl in Hh; [|done].
      simplify_eq. f_equal. lia.
  - intros p env. rewrite Hreq. case_decide.
    + intros [= <-]. rewrite lookup_app_r, Nat.sub_diag by lia. simpl.
      by rewrite H1.
    + intros Hp. pose proof (H6 _ _ Hp) as Hh.
      destruct (stopRequests w !! env) eqn:He; [|done].
      rewrite lookup_app_l; [by rewrite He|]. by eapply lookup_lt_Some.
  - assert (Hold : forall p env, devProcessStopRequest_of w p = Some env ->
                                 env <> length (stopRequests w)).
    { intros p env Hp ->. pose proof (H6 _ _ Hp) as Hh.
      rewrite lookup_ge_None_2 in Hh; done. }
    intros p p' env. rewrite !Hreq. repeat case_decide; subst; try done.
    + intros [= <-] Hp. by destruct (Hold _ _ Hp).
    + intros Hp [= <-]. by destruct (Hold _ _ Hp).
    + intros; eapply H7; eauto.
Qed.

Lemma timers_ok_release path env w :
  devProcessStopRequest_of w path = Some env ->
  timers_ok w ->
  timers_ok (assign path (set_devProcessStopRequest None) (dispose env w)).
Proof.
  intros Hp (H1 & H2 & H3 & H4 & H5 & H6 & H7).
  pose proof (H6 _ _ Hp) as Hh. unfold handle_of in Hh.
  destruct (stopRequests w !! env) as [e|] eqn:He; [|done]. simpl in Hh.
  injection Hh as Hh.
  assert (Hreq : forall p,
            devProcessStopRequest_of
              (assign path (set_devProcessStopRequest None) (dispose env w)) p
            = if decide (path = p) then None else devProcessStopRequest_of w p).
  { intros p. unfold devProcessStopRequest_of. rewrite lookup_assign.
    rewrite dispose_componentStates. case_decide; [subst|done].
    by destruct (componentStates w !! p). }
  assert (Hhandle : forall env',
            handle_of (assign path (set_devProcessStopRequest None) (dispose env w)) env'
            = if decide (env = env') then Some None else handle_of w env').
  { intros env'. unfold handle_of, dispose. rewrite He, Hh. simpl.
    rewrite list_lookup_alter. case_decide; [subst|done]. by rewrite He. }
  assert (Htimer : forall t,
            timer_of (assign path (set_devProcessStopRequest None) (dispose env w)) t
            = if decide (env = t)
              then (fun T => (true, timer_env T)) <$> timers w !! t
              else timer_of w t).
  { intros t. unfold timer_of, dispose. rewrite He, Hh. simpl.
    rewrite list_lookup_alter. case_decide; [subst|done].
    by destruct (timers w !! t). }
  unfold timers_ok. split; [|split; [|split; [|split; [|split; [|split]]]]].
  - unfold dispose. rewrite He, Hh. simpl. by rewrite !length_alter.
  - intros t c env'. rewrite Htimer. case_decide; [subst|apply H2].
    unfold timer_of in H2. destruct (timers w !! t) as [T|] eqn:HT; [|done].
    simpl. intros [= <- <-]. eapply (H2 t). by rewrite HT.
  - intros env' h. rewrite Hhandle. case_decide; [|apply H3].
    intros [= <-]. by left.
  - intros t c env'. rewrite Htimer, Hhandle. case_decide; [subst|apply H4].
    destruct (timers w !! t); [|done]. simpl. intros [= <- <-]. done.
  - intros env'. rewrite Hhandle. case_decide; [done|]. intros Hs.
    destruct (H5 _ Hs) as [p Hp']. exists p. rewrite Hreq.
    case_decide; [subst; congruence|done].
  - intros p env'. rewrite Hreq, Hhandle. case_decide; [done|]. intros Hp'.
    case_decide; [subst|by eapply H6]. by destruct (H7 _ _ _ Hp Hp').
  - intros p p' env'. rewrite !Hreq. repeat case_decide; try done.
    intros; eapply H7; eauto.
Qed.


Lemma timers_ok_pty_close path w : timers_ok w -> timers_ok (pty_close path w).
Proof.
  intros Hok. unfold pty_close. cbv zeta.
  eapply same_timers_ok; [apply same_timers_set_devTerminal|].
  destruct (devProcess_of w path) as [pid|] eqn:Hpr; [|done].
  destruct (exitCode_is_null pid w); simpl; [|done].
  case_bool_decide; [|done]. by apply timers_ok_interrupt.
Qed.

Lemma timers_ok_pty_handleInput path t data w w' :
  pty_handleInput path t data w = Some w' -> timers_ok w -> timers_ok w'.
Proof.
  unfold pty_handleInput. case_decide; [by intros [= <-]|].
  destruct (devProcess_of w path) as [pid|] eqn:Hpr.
  - case_bool_decide; simpl; [|by intros [= <-]].
    destruct (charCodeAt0_is_3 data); intros [= <-]; [|done]. intros Hok.
    apply timers_ok_interrupt; [done..|].
    eapply same_timers_ok; [|exact Hok]. same_timers_chain.
  - destruct (devTerminal_of w path); simpl; [|done]. intros [= <-] Hok.
    eapply same_timers_ok; [|exact Hok]. same_timers_chain.
Qed.

Lemma timers_ok_on_exit path t w : timers_ok w -> timers_ok (on_exit path t w).
Proof.
  intros Hok. unfold on_exit. cbv zeta.
  eapply same_timers_ok; [same_timers_chain|].
  destruct (devProcessStopRequest_of w path) as [env|] eqn:Hreq; [|done].
  by apply timers_ok_release.
Qed.

Lemma step_timers_ok (ev : Event) (w : World) : timers_ok w -> timers_ok (handle ev w).
Proof.
  intros Hok. destruct ev; unfold handle; fold handle.
  - eapply same_timers_ok; [|exact Hok].
    destruct target; unfold devRunOn, devRunOn_createTerminal, devRunOn_enter;
      same_timers_chain.
  - destruct (suspended w !! k) as [[c target]|]; [|done].
    eapply same_timers_ok; [|exact Hok]. unfold devRunOn_createTerminal. same_timers_chain.
  - destruct (terminals w !! t); [|done].
    eapply same_timers_ok; [|exact Hok]. unfold pty_open. same_timers_chain.
  - destruct (terminals w !! t); [|done]. apply timers_ok_pty_close.
    eapply same_timers_ok; [|exact Hok]. same_timers_chain.
  - destruct (terminals w !! t); [|done].
    destruct (pty_handleInput _ _ _ _) eqn:Hin; [|done].
    simpl. by eapply timers_ok_pty_handleInput.
  - destruct (processes w !! pid); [|done].
    eapply same_timers_ok; [|exact Hok].
    unfold on_spawn. destruct (devTerminal_of _ _); simpl; same_timers_chain.
  - destruct (processes w !! pid); [|done].
    eapply same_timers_ok; [|exact Hok]. unfold on_error. same_timers_chain.
  - destruct (processes w !! pid); [|done].
    eapply same_timers_ok; [|exact Hok]. unfold on_stdout_data.
    case_decide; same_timers_chain.
  - destruct (processes w !! pid); [|done].
    unfold on_stderr_data. destruct (stop_request_sigabrt_sent _ _); [done|].
    eapply same_timers_ok; [|exact Hok]. same_timers_chain.
  - destruct (processes w !! pid); [|done]. apply timers_ok_on_exit.
    eapply same_timers_ok; [|exact Hok]. same_timers_chain.
  - unfold forceExitDevMode.
    destruct (componentStates w !! contextPath component) as [cs|]; [|done]. simpl.
    destruct (devProcess cs); [|done]. destruct (exitCode_is_null _ _); [|done].
    destruct (devProcessStopRequest cs); [|done]. simpl.
    eapply same_timers_ok; [apply same_timers_sendSigabrt|done].
  - destruct (timers w !! t) as [T|] eqn:HT; [|done]. case_decide as Harmed; [|done].
    eapply same_timers_ok; [|exact Hok]. unfold timeout_callback.
    eapply same_timers_trans; [|same_timers_chain].
    apply same_timers_alter_timer. intros T' HT'. simplify_eq. simpl.
    rewrite Harmed. split; [done|]. split; done.
  - case_decide; [|done].
    eapply same_timers_ok; [|exact Hok].
    eapply same_timers_trans; [|apply same_timers_warning_answered]. same_timers_chain.
Qed.

Lemma reachable_timers_ok w : reachable w -> timers_ok w.
Proof.
  induction 1 as [timeout|w ev Hr IH Hen]; [|by apply step_timers_ok].
  unfold timers_ok, timer_of, handle_of, devProcessStopRequest_of. simpl.
  repeat split; intros; try done; rewrite ?lookup_empty in *; done.
Qed.

Lemma live_timer_session (w : World) (t : nat) (T : Timeout) :
  reachable w ->
  timers w !! t = Some T ->
  timer_state T <> Cancelled ->
  exists path cs e,
    componentStates w !! path = Some cs /\
    devProcessStopRequest cs = Some (timer_env T) /\
    devProcess cs <> None /\
    stopRequests w !! timer_env T = Some e /\
    devCleaningTimeout e = Some t /\
    (unraced w -> devStatus cs = Some DEV_STOPPING).
Proof.
  intros Hr HT Hlive.
  destruct (reachable_timers_ok w Hr) as (H1 & H2 & H3 & H4 & H5 & H6 & H7).
  assert (Ht : timer_of w t = Some (false, timer_env T)).
  { unfold timer_of. rewrite HT. simpl. by rewrite bool_decide_eq_false_2. }
  pose proof (H2 _ _ _ Ht) as Henv.
  assert (Hh : handle_of w t = Some (Some t)).
  { destruct (handle_of w t) as [h|] eqn:Hh.
    - destruct (H3 _ _ Hh) as [->| ->]; [|done].
      by apply (H4 _ _ _ Ht) in Hh.
    - unfold handle_of in Hh. rewrite fmap_None in Hh.
      apply lookup_ge_None_1 in Hh. apply lookup_lt_Some in HT. lia. }
  destruct (H5 _ Hh) as [path Hp].
  unfold devProcessStopRequest_of in Hp.
  destruct (componentStates w !! path) as [cs|] eqn:Hcs; [|done]. simpl in Hp.
  unfold handle_of in Hh. destruct (stopRequests w !! t) as [e|] eqn:He; [|done].
  simpl in Hh. exists path, cs, e. rewrite Henv.
  destruct (reachable_request_session w path cs Hr Hcs) as (_ & Hpr & Hiff).
  split; [done|]. split; [done|]. split; [apply Hpr; congruence|].
  split; [done|]. split; [congruence|].
  intros Hu. apply (Hiff Hu). congruence.
Qed.

(** X4. In every reachable world, a timer that has not been cancelled (it
    is armed, or it has run out and may be armed again) is the timer of the
    stop request that some session holds, together with a process.  In the
    worlds reached without [devRunOn] running on a session that is starting,
    running or stopping, that session is stopping: once a session has left
    [DEV_STOPPING], none of its timers can fire. *)
Theorem live_timer_has_session (w : World) (t : nat) (T : Timeout) :
  reachable w ->
  timers w !! t = Some T ->
  timer_state T <> Cancelled ->
  exists path cs e,
    componentStates w !! path = Some cs /\
    devProcessStopRequest cs = Some (timer_env T) /\
    devProcess cs <> None /\
    stopRequests w !! timer_env T = Some e /\
    devCleaningTimeout e = Some t /\
    (unraced w -> devStatus cs = Some DEV_STOPPING).
Proof. apply live_timer_session. Qed.

(** X5. In every reachable world, the stop request of a stopping session
    holds the handle of its timer, that timer has not been cancelled, and its
    callback belongs to this very request. *)
Theorem stopping_session_has_live_timer (w : World) (path : string)
    (cs : ComponentDevState) :
  reachable w ->
  componentStates w !! path = Some cs ->
  devStatus cs = Some DEV_STOPPING ->
  exists env e T,
    devProcessStopRequest cs = Some env /\
    stopRequests w !! env = Some e /\
    devCleaningTimeout e = Some env /\
    timers w !! env = Some T /\
    timer_env T = env /\
    (timer_state T = Armed \/ timer_state T = Expired).
Proof.
  intros Hr Hcs Hst.
  destruct (reachable_timers_ok w Hr) as (H1 & H2 & H3 & H4 & H5 & H6 & H7).
  apply (proj1 (reachable_request_session w path cs Hr Hcs)) in Hst.
  destruct (devProcessStopRequest cs) as [env|] eqn:Hreq; [|done].
  assert (Hh : handle_of w env = Some (Some env)).
  { apply (H6 path). unfold devProcessStopRequest_of. by rewrite Hcs. }
  unfold handle_of in Hh. destruct (stopRequests w !! env) as [e|] eqn:He; [|done].
  simpl in Hh. injection Hh as Hh.
  destruct (timers w !! env) as [T|] eqn:HT.
  2:{ apply lookup_ge_None_1 in HT. apply lookup_lt_Some in He. lia. }
  assert (Ht : timer_of w env = Some (bool_decide (timer_state T = Cancelled), timer_env T)).
  { unfold timer_of. by rewrite HT. }
  exists env, e, T. repeat split; try done.
  - by apply (H2 _ _ _ Ht).
  - destruct (timer_state T) eqn:Hs; auto.
    assert (Hc : handle_of w env = Some None).
    { apply (H4 _ _ _ Ht). by rewrite bool_decide_eq_true_2. }
    unfold handle_of in Hc. rewrite He in Hc. simpl in Hc. congruence.
Qed.

(** ** What the events leave alone in a session *)

Section Related.

Variable R : ComponentDevState -> ComponentDevState -> Prop.
Hypothesis R_refl : forall cs, R cs cs.
Hypothesis R_trans : forall a b c, R a b -> R b c -> R a c.
Hypothesis R_devStatus : forall v cs, R cs (set_devStatus v cs).
Hypothesis R_devProcess : forall v cs, R cs (set_devProcess v cs).
Hypothesis R_devTerminal : forall v cs, R cs (set_devTerminal v cs).
Hypothesis R_devProcessStopRequest : forall v cs, R cs (set_devProcessStopRequest v cs).

Lemma related_refl w : related R w w.
Proof. intros path cs Hcs. eauto. Qed.

Lemma related_trans w1 w2 w3 : related R w1 w2 -> related R w2 w3 -> related R w1 w3.
Proof.
  intros H1 H2 path cs Hcs. destruct (H1 _ _ Hcs) as (cs' & Hcs' & HR).
  destruct (H2 _ _ Hcs') as (cs'' & Hcs'' & HR'). eauto.
Qed.

Lemma related_states w w' : componentStates w' = componentStates w -> related R w w'.
Proof. intros H path cs Hcs. rewrite H. eauto. Qed.

Lemma related_assign p f w : (forall cs, R cs (f cs)) -> related R w (assign p f w).
Proof.
  intros Hf path cs Hcs. rewrite lookup_assign.
  case_decide; subst; rewrite ?Hcs; simpl; eauto.
Qed.

Lemma related_getComponentDevState c w : related R w (getComponentDevState c w).
Proof.
  unfold getComponentDevState.
  destruct (componentStates w !! contextPath c) eqn:Hc; [apply related_refl|].
  intros path cs Hcs. simpl. rewrite lookup_insert_ne; [eauto|congruence].
Qed.

Lemma related_stateChanged f w : related R w (with_stateChanged f w).
Proof. by apply related_states. Qed.
Lemma related_written f w : related R w (with_written f w).
Proof. by apply related_states. Qed.
Lemma related_messages f w : related R w (with_messages f w).
Proof. by apply related_states. Qed.
Lemma related_processes f w : related R w (with_processes f w).
Proof. by apply related_states. Qed.
Lemma related_timers f w : related R w (with_timers f w).
Proof. by apply related_states. Qed.
Lemma related_stopRequests f w : related R w (with_stopRequests f w).
Proof. by apply related_states. Qed.
Lemma related_terminals f w : related R w (with_terminals f w).
Proof. by apply related_states. Qed.
Lemma related_prompts f w : related R w (with_prompts f w).
Proof. by apply related_states. Qed.
Lemma related_executed f w : related R w (with_executed f w).
Proof. by apply related_states. Qed.
Lemma related_suspended f w : related R w (with_suspended f w).
Proof. by apply related_states. Qed.
Lemma related_set_devStatus p v w : related R w (assign p (set_devStatus v) w).
Proof. by apply related_assign. Qed.
Lemma related_set_devProcess p v w : related R w (assign p (set_devProcess v) w).
Proof. by apply related_assign. Qed.
Lemma related_set_devTerminal p v w : related R w (assign p (set_devTerminal v) w).
Proof. by apply related_assign. Qed.
Lemma related_set_devProcessStopRequest p v w :
  related R w (assign p (set_devProcessStopRequest v) w).
Proof. by apply related_assign. Qed.
Lemma related_dispose env w : related R w (dispose env w).
Proof. apply related_states. apply dispose_componentStates. Qed.
Lemma related_sendSigabrt env w : related R w (sendSigabrt env w).
Proof. apply related_states. apply sendSigabrt_componentStates. Qed.
Lemma related_warning_answered env action w : related R w (warning_answered env action w).
Proof. apply related_states. apply warning_answered_componentStates. Qed.

Create HintDb related.
#[local] Hint Resolve related_stateChanged related_written related_messages
  related_processes related_timers related_stopRequests related_terminals
  related_prompts related_executed related_suspended related_set_devStatus
  related_set_devProcess related_set_devTerminal related_set_devProcessStopRequest
  related_dispose related_sendSigabrt related_warning_answered
  related_getComponentDevState : related.

Ltac related_chain :=
  cbv zeta;
  repeat (eapply related_trans;
          [| solve [unfold fire_stateChanged, fire_output, show, kill;
                    eauto 2 with related] ]);
  try apply related_refl.

Lemma related_interrupt path pid w : related R w (interrupt path pid w).
Proof. unfold interrupt, exitDevelopmentMode. related_chain. Qed.

Lemma related_pty_close path w : related R w (pty_close path w).
Proof.
  unfold pty_close. related_chain.
  destruct (devProcess_of w path); [|apply related_refl].
  destruct (_ && _); [apply related_interrupt|apply related_refl].
Qed.

Lemma related_pty_handleInput path t data w w' :
  pty_handleInput path t data w = Some w' -> related R w w'.
Proof.
  unfold pty_handleInput. case_decide; [intros [= <-]; apply related_refl|].
  destruct (devProcess_of w path).
  - destruct (_ && _); intros [= <-]; [|apply related_refl].
    eapply related_trans; [|apply related_interrupt]. related_chain.
  - destruct (devTerminal_of w path); simpl; [|done]. intros [= <-]. related_chain.
Qed.

Lemma related_on_spawn path pid w w' : on_spawn path pid w = Some w' -> related R w w'.
Proof.
  unfold on_spawn. destruct (devTerminal_of w path); simpl; [|done]. intros [= <-].
  related_chain.
Qed.

Lemma related_on_exit path t w : related R w (on_exit path t w).
Proof.
  unfold on_exit. related_chain.
  destruct (devProcessStopRequest_of w path); related_chain.
Qed.

(** Every event but the dev command. *)
Lemma related_handle (ev : Event) (w : World) :
  (forall c target, ev <> Dev c target) -> related R w (handle ev w).
Proof.
  intros Hdev. destruct ev; unfold handle; fold handle.
  - by destruct (Hdev component target).
  - destruct (suspended w !! k) as [[c target]|]; [|apply related_refl].
    unfold devRunOn_createTerminal. related_chain.
  - destruct (terminals w !! t); [|apply related_refl]. unfold pty_open. related_chain.
  - destruct (terminals w !! t); [|apply related_refl].
    eapply related_trans; [|apply related_pty_close]. related_chain.
  - destruct (terminals w !! t); [|apply related_refl].
    destruct (pty_handleInput _ _ _ _) eqn:Hin; [|apply related_refl].
    simpl. by eapply related_pty_handleInput.
  - destruct (processes w !! pid); [|apply related_refl].
    destruct (on_spawn _ _ _) eqn:Hs; simpl.
    + eapply related_trans; [|by eapply related_on_spawn]. related_chain.
    + related_chain.
  - destruct (processes w !! pid); [|apply related_refl]. unfold on_error. related_chain.
  - destruct (processes w !! pid); [|apply related_refl]. unfold on_stdout_data.
    case_decide; related_chain.
  - destruct (processes w !! pid); [|apply related_refl]. unfold on_stderr_data.
    destruct (stop_request_sigabrt_sent _ _); related_chain.
  - destruct (processes w !! pid); [|apply related_refl].
    eapply related_trans; [|apply related_on_exit]. related_chain.
  - unfold forceExitDevMode.
    destruct (componentStates w !! contextPath component) as [cs|]; [|apply related_refl].
    simpl. destruct (devProcess cs); [|apply related_refl].
    destruct (exitCode_is_null _ _); [|apply related_refl].
    destruct (devProcessStopRequest cs); [|apply related_refl]. simpl.
    apply related_sendSigabrt.
  - destruct (timers w !! t); [|apply related_refl].
    case_decide; [|apply related_refl]. unfold timeout_callback. related_chain.
  - case_decide; [|apply related_refl].
    eapply related_trans; [|apply related_warning_answered]. related_chain.
Qed.

Hypothesis R_runOn : forall v cs, R cs (set_runOn v cs).

Lemma related_set_runOn p v w : related R w (assign p (set_runOn v) w).
Proof. by apply related_assign. Qed.

Lemma related_dev c target w : related R w (handle (Dev c target) w).
Proof.
  pose proof related_set_runOn as Hr.
  destruct target; unfold handle, devRunOn, devRunOn_createTerminal, devRunOn_enter;
    cbv zeta;
    repeat (eapply related_trans;
            [| solve [unfold fire_stateChanged; eauto 2 with related] ]);
    apply related_refl.
Qed.

End Related.

Lemma same_axes_refl cs : same_axes cs cs.
Proof. by repeat split. Qed.

Lemma same_axes_trans a b c : same_axes a b -> same_axes b c -> same_axes a c.
Proof. intros (? & ? & ?) (? & ? & ?). repeat split; congruence. Qed.

Ltac related_side :=
  first [ exact same_axes_refl | exact same_axes_trans
        | intros; by repeat split
        | intros; unfold same_runOn in *; simpl; congruence
        | done ].

(** X6. No event removes a session, and none changes its debug status, its
    deploy status or its stored context value: the dev loop moves the dev
    status alone. *)
Theorem events_keep_other_axes (ev : Event) (w : World) (path : string)
    (cs : ComponentDevState) :
  componentStates w !! path = Some cs ->
  exists cs',
    componentStates (handle ev w) !! path = Some cs' /\
    debugStatus cs' = debugStatus cs /\
    deployStatus cs' = deployStatus cs /\
    contextValue cs' = contextValue cs.
Proof.
  intros Hcs.
  assert (Hrel : related same_axes w (handle ev w)).
  { destruct ev; first [ apply related_dev; related_side
                       | apply related_handle; related_side ]. }
  destruct (Hrel _ _ Hcs) as (cs' & Hcs' & H1 & H2 & H3). eauto.
Qed.

(** X7. The run target of a session is the target of the last dev command
    for its workspace: that command sets it, and no other event changes it,
    not even the exit of the process. *)
Theorem run_target_is_last_dev_target (ev : Event) (w : World) (path : string)
    (cs : ComponentDevState) :
  componentStates w !! path = Some cs ->
  runOn_of (handle ev w) path =
  match ev with
  | Dev c target => if decide (contextPath c = path) then target else runOn cs
  | _ => runOn cs
  end.
Proof.
  intros Hcs.
  assert (Hother : (forall c target, ev <> Dev c target) ->
                   runOn_of (handle ev w) path = runOn cs).
  { intros Hdev.
    assert (Hrel : related same_runOn w (handle ev w)).
    { apply related_handle; try done; related_side. }
    destruct (Hrel _ _ Hcs) as (cs' & Hcs' & HR).
    unfold runOn_of. rewrite Hcs'. done. }
  destruct ev; try (by apply Hother).
  case_decide as Hp.
  - subst path. unfold runOn_of.
    destruct target; unfold handle, devRunOn, devRunOn_createTerminal, devRunOn_enter,
      getComponentDevState; rewrite Hcs; simpl; rewrite !lookup_alter_eq, Hcs; done.
  - unfold runOn_of. rewrite handle_lookup_ne, Hcs; [done|].
    simpl. congruence.
Qed.

(** ** The values of the status fields *)

Lemma typed_states w w' : componentStates w' = componentStates w -> typed w -> typed w'.
Proof. intros H Ht path cs. rewrite H. apply Ht. Qed.

Lemma typed_assign p f w :
  (forall cs, typed_state cs -> typed_state (f cs)) -> typed w -> typed (assign p f w).
Proof.
  intros Hf Ht path cs. rewrite lookup_assign. case_decide; [subst|apply Ht].
  destruct (componentStates w !! path) as [cs0|] eqn:Hcs; [|done].
  simpl. intros [= <-]. apply Hf. by eapply Ht.
Qed.

Lemma typed_getComponentDevState c w : typed w -> typed (getComponentDevState c w).
Proof.
  intros Ht. unfold getComponentDevState.
  destruct (componentStates w !! contextPath c) eqn:Hc; [done|].
  intros path cs. simpl. destruct (decide (contextPath c = path)) as [<-|Hne].
  - rewrite lookup_insert_eq. intros [= <-]. unfold typed_state, new_state. simpl.
    destruct (supports_dev c), (supports_debug c), (supports_deploy c); auto.
  - rewrite lookup_insert_ne by done. apply Ht.
Qed.

Ltac typed_step :=
  first
    [ assumption
    | apply typed_getComponentDevState
    | match goal with
      | |- typed (?f ?x) => apply (typed_states x); [reflexivity|]
      end
    | apply typed_assign; [by intros cs (? & ? & ?); repeat split|] ].

Ltac typed_chain := cbv zeta; repeat typed_step.

Lemma typed_interrupt path pid w : typed w -> typed (interrupt path pid w).
Proof. intros Ht. unfold interrupt, exitDevelopmentMode. typed_chain. Qed.

Lemma typed_dispose env w : typed w -> typed (dispose env w).
Proof. apply typed_states. apply dispose_componentStates. Qed.

Lemma typed_handle (ev : Event) (w : World) : typed w -> typed (handle ev w).
Proof.
  intros Ht. destruct ev; unfold handle; fold handle.
  - destruct target; unfold devRunOn, devRunOn_createTerminal, devRunOn_enter;
      typed_chain.
  - destruct (suspended w !! k) as [[c target]|]; [|done].
    unfold devRunOn_createTerminal. typed_chain.
  - destruct (terminals w !! t); [|done]. unfold pty_open. typed_chain.
  - destruct (terminals w !! t); [|done]. unfold pty_close. typed_chain.
    destruct (devProcess_of _ _); [|typed_chain].
    destruct (_ && _); [apply typed_interrupt|]; typed_chain.
  - destruct (terminals w !! t); [|done]. unfold pty_handleInput.
    case_decide; [done|]. destruct (devProcess_of _ _).
    + destruct (_ && _); simpl; [apply typed_interrupt|]; typed_chain.
    + destruct (devTerminal_of _ _); simpl; typed_chain.
  - destruct (processes w !! pid); [|done]. unfold on_spawn.
    destruct (devTerminal_of _ _); simpl; typed_chain.
  - destruct (processes w !! pid); [|done]. unfold on_error. typed_chain.
  - destruct (processes w !! pid); [|done]. unfold on_stdout_data.
    case_decide; typed_chain.
  - destruct (processes w !! pid); [|done]. unfold on_stderr_data.
    destruct (stop_request_sigabrt_sent _ _); typed_chain.
  - destruct (processes w !! pid); [|done]. unfold on_exit. typed_chain.
    destruct (devProcessStopRequest_of _ _); typed_chain.
    apply typed_dispose. typed_chain.
  - unfold forceExitDevMode.
    destruct (componentStates w !! contextPath component) as [cs|]; [|done]. simpl.
    destruct (devProcess cs); [|done]. destruct (exitCode_is_null _ _); [|done].
    destruct (devProcessStopRequest cs); [|done]. simpl.
    apply (typed_states w); [apply sendSigabrt_componentStates|done].
  - destruct (timers w !! t); [|done]. case_decide; [|done].
    unfold timeout_callback. typed_chain.
  - case_decide; [|done].
    apply (typed_states w); [by rewrite warning_answered_componentStates|done].
Qed.

Lemma reachable_typed w : reachable w -> typed w.
Proof.
  induction 1 as [timeout|w ev Hr IH Hen]; [|by apply typed_handle].
  intros path cs. simpl. by rewrite lookup_empty.
Qed.

(** ** Context values and labels *)

(** X8. In every reachable world the context value of a folder with a
    session exists, each of the three dev expressions matches it exactly when
    the session is in that state, and none of the debug and deploy
    expressions for starting, running and stopping ever matches it. *)
Theorem context_value_tells_dev_state (w : World) (folder : ComponentWorkspaceFolder)
    (cs : ComponentDevState) :
  reachable w ->
  componentStates w !! contextPath folder = Some cs ->
  exists v,
    generateContextValue folder w = Some v /\
    (test COMPONENT_DEV_STARTING v = true <-> devStatus cs = Some DEV_STARTING) /\
    (test COMPONENT_DEV_RUNNING v = true <-> devStatus cs = Some DEV_RUNNING) /\
    (test COMPONENT_DEV_STOPPING v = true <-> devStatus cs = Some DEV_STOPPING) /\
    test COMPONENT_DEB_STARTING v = false /\
    test COMPONENT_DEB_RUNNING v = false /\
    test COMPONENT_DEB_STOPPING v = false /\
    test COMPONENT_DEP_STARTING v = false /\
    test COMPONENT_DEP_RUNNING v = false /\
    test COMPONENT_DEP_STOPPING v = false.
Proof.
  intros Hr Hcs. destruct (reachable_typed w Hr _ _ Hcs) as (Hdev & Hdeb & Hdep).
  unfold generateContextValue. rewrite Hcs. simpl. eexists. split; [reflexivity|].
  destruct cs as [te pr st cv req deb dep ro]. simpl in *.
  destruct Hdeb as [-> | ->], Hdep as [-> | ->];
    destruct st as [[]|]; try discriminate Hdev;
    vm_compute; repeat split; intros; congruence.
Qed.

(** X9. In every reachable world the label and the context value of a
    folder with a session agree: the label reads "dev starting", "dev
    running" or "dev stopping" exactly when the expression for that state
    matches the context value, and it is empty exactly when none of the three
    matches.  Rendering the label does not change the world. *)
Theorem label_agrees_with_context_value (w : World) (folder : ComponentWorkspaceFolder)
    (cs : ComponentDevState) :
  reachable w ->
  componentStates w !! contextPath folder = Some cs ->
  exists v,
    generateContextValue folder w = Some v /\
    (renderStateLabel folder w).2 = w /\
    let label := (renderStateLabel folder w).1 in
    (String.prefix " (dev starting" label = true <-> test COMPONENT_DEV_STARTING v = true) /\
    (String.prefix " (dev running" label = true <-> test COMPONENT_DEV_RUNNING v = true) /\
    (String.prefix " (dev stopping" label = true <-> test COMPONENT_DEV_STOPPING v = true) /\
    (label = "" <->
       test COMPONENT_DEV_STARTING v = false /\
       test COMPONENT_DEV_RUNNING v = false /\
       test COMPONENT_DEV_STOPPING v = false).
Proof.
  intros Hr Hcs. destruct (reachable_typed w Hr _ _ Hcs) as (Hdev & Hdeb & Hdep).
  unfold generateContextValue, renderStateLabel, getComponentDevState.
  rewrite Hcs. simpl. rewrite Hcs. eexists. split; [reflexivity|]. split; [done|].
  destruct cs as [te pr st cv req deb dep ro]. simpl in *.
  destruct Hdeb as [-> | ->], Hdep as [-> | ->];
    destruct st as [[]|]; try discriminate Hdev;
    destruct ro as [[]|];
    vm_compute; repeat split; intros;
    repeat match goal with H : _ /\ _ |- _ => destruct H end; congruence.
Qed.

(** X10. For a folder without session the context value cannot be
    generated.  Rendering its label creates the session: the label is empty,
    and from then on the context value is [openshift.component] followed by
    the not-running value of each feature the component supports. *)
Theorem context_value_needs_state (w : World) (folder : ComponentWorkspaceFolder) :
  componentStates w !! contextPath folder = None ->
  generateContextValue folder w = None /\
  (renderStateLabel folder w).1 = "" /\
  generateContextValue folder (renderStateLabel folder w).2 =
    Some ("openshift.component"
          +:+ (if supports_dev folder then ".dev-nrn" else "")
          +:+ (if supports_debug folder then ".deb-nrn" else "")
          +:+ (if supports_deploy folder then ".dep-nrn" else "")).
Proof.
  intros Hcs. unfold generateContextValue, renderStateLabel, getComponentDevState.
  rewrite Hcs. simpl. rewrite lookup_insert_eq. simpl.
  destruct (supports_dev folder), (supports_debug folder), (supports_deploy folder);
    by repeat split.
Qed.

(** ** The terminal a session holds *)

Lemma terminal_ok_frame w w' path :
  devTerminal_of w' path = devTerminal_of w path ->
  devProcess_of w' path = devProcess_of w path \/ devProcess_of w' path = None ->
  terminals_le w w' ->
  terminal_ok w path -> terminal_ok w' path.
Proof.
  intros Ht Hp Hle Hok t Hdt. rewrite Ht in Hdt.
  destruct (Hok t Hdt) as (T & HT & Hpath & Hcl & Hop).
  destruct (Hle t T HT) as (T' & HT' & Hp' & Hc' & Ho').
  exists T'. split; [done|]. split; [congruence|]. split; [congruence|].
  intros Hno. destruct Hp as [-> | ->]; auto.
Qed.

Lemma terminal_le_refl T : terminal_le T T.
Proof. by repeat split. Qed.

Lemma terminals_le_same w w' : terminals w' = terminals w -> terminals_le w w'.
Proof. intros H t T HT. rewrite H. exists T. split; [done|apply terminal_le_refl]. Qed.

Lemma terminals_le_alter f t w w' :
  (forall T, terminal_le T (f T)) ->
  terminals w' = alter f t (terminals w) -> terminals_le w w'.
Proof.
  intros Hf H t' T HT. rewrite H.
  destruct (decide (t = t')) as [->|Hne].
  - exists (f T). split; [|apply Hf]. by rewrite list_lookup_alter_eq, HT.
  - exists T. split; [|apply terminal_le_refl]. by rewrite list_lookup_alter_ne.
Qed.

Lemma terminals_le_snoc x w w' :
  terminals w' = terminals w ++ [x] -> terminals_le w w'.
Proof.
  intros H t T HT. rewrite H. exists T. split; [|apply terminal_le_refl].
  by apply lookup_app_l_Some.
Qed.

Lemma interrupt_terminals path pid w : terminals (interrupt path pid w) = terminals w.
Proof. done. Qed.

Lemma dispose_terminals env w : terminals (dispose env w) = terminals w.
Proof.
  unfold dispose. destruct (stopRequests w !! env) as [e|]; [|done].
  by destruct (devCleaningTimeout e).
Qed.

Lemma sendSigabrt_terminals env w : terminals (sendSigabrt env w) = terminals w.
Proof. unfold sendSigabrt. by destruct (stopRequests w !! env). Qed.

Lemma warning_answered_terminals env action w :
  terminals (warning_answered env action w) = terminals w.
Proof.
  unfold warning_answered. destruct (stopRequests w !! env) as [e|]; [|done].
  destruct (devCleaningTimeout e); [|done]. by repeat case_decide.
Qed.

Lemma pty_close_terminals path w : terminals (pty_close path w) = terminals w.
Proof.
  unfold pty_close. simpl. destruct (devProcess_of w path); [|done].
  by destruct (_ && _).
Qed.

Lemma on_exit_terminals path t w : terminals (on_exit path t w) = terminals w.
Proof.
  unfold on_exit. simpl. destruct (devProcessStopRequest_of w path); [|done].
  simpl. apply dispose_terminals.
Qed.

Lemma devRunOn_enter_terminals c target w :
  terminals (devRunOn_enter c target w) = terminals w.
Proof.
  unfold devRunOn_enter, getComponentDevState. cbv zeta.
  by destruct target, (componentStates w !! contextPath c).
Qed.

(** Every event but the closing of a terminal. *)
Lemma terminals_le_handle (ev : Event) (w : World) :
  (forall t, ev <> TerminalClose t) -> terminals_le w (handle ev w).
Proof.
  intros Hclose. destruct ev; unfold handle; fold handle.
  - destruct target.
    + eapply terminals_le_snoc. unfold devRunOn, devRunOn_createTerminal, assign.
      cbn [terminals with_terminals with_componentStates].
      by rewrite devRunOn_enter_terminals.
    + apply terminals_le_same. cbn [terminals with_suspended].
      apply devRunOn_enter_terminals.
  - destruct (suspended w !! k) as [[c target]|]; [|by apply terminals_le_same].
    by eapply terminals_le_snoc.
  - destruct (terminals w !! t); [|by apply terminals_le_same].
    eapply (terminals_le_alter opened t); [|done]. intros T. by repeat split.
  - by destruct (Hclose t).
  - destruct (terminals w !! t) as [T|]; [|by apply terminals_le_same].
    unfold pty_handleInput. case_decide; [by apply terminals_le_same|].
    destruct (devProcess_of w _).
    + destruct (_ && _); by apply terminals_le_same.
    + destruct (devTerminal_of w _) as [t'|]; simpl; [|by apply terminals_le_same].
      eapply (terminals_le_alter disposed t'); [|done]. intros T'. by repeat split.
  - destruct (processes w !! pid) as [p|]; [|by apply terminals_le_same].
    unfold on_spawn. simpl.
    destruct (devTerminal_of _ (cwd p)) as [t'|]; simpl; [|by apply terminals_le_same].
    eapply (terminals_le_alter shown t'); [|done]. intros T'. by repeat split.
  - destruct (processes w !! pid) as [p|]; by apply terminals_le_same.
  - destruct (processes w !! pid) as [p|]; [|by apply terminals_le_same].
    apply terminals_le_same. unfold on_stdout_data. by case_decide.
  - destruct (processes w !! pid) as [p|]; [|by apply terminals_le_same].
    apply terminals_le_same. unfold on_stderr_data.
    by destruct (stop_request_sigabrt_sent _ _).
  - destruct (processes w !! pid) as [p|]; [|by apply terminals_le_same].
    apply terminals_le_same. by rewrite on_exit_terminals.
  - apply terminals_le_same. unfold forceExitDevMode.
    destruct (componentStates w !! contextPath component) as [cs|]; [|done]. simpl.
    destruct (devProcess cs); [|done]. destruct (exitCode_is_null _ _); [|done].
    destruct (devProcessStopRequest cs); [|done]. simpl. apply sendSigabrt_terminals.
  - destruct (timers w !! t) as [T|]; [|by apply terminals_le_same].
    case_decide; by apply terminals_le_same.
  - case_decide; [|by apply terminals_le_same].
    apply terminals_le_same. by rewrite warning_answered_terminals.
Qed.

Ltac states_cases :=
  repeat match goal with
         | |- context [componentStates ?w !! ?p] =>
             let E := fresh "Ecs" in
             destruct (componentStates w !! p) eqn:E; simpl in *
         end.

Ltac states_solve :=
  unfold devTerminal_of, devProcess_of; simpl;
  rewrite ?lookup_alter; repeat case_decide; simplify_eq/=;
  states_cases; auto.

Lemma interrupt_devTerminal path0 pid w path :
  devTerminal_of (interrupt path0 pid w) path = devTerminal_of w path.
Proof. unfold interrupt, exitDevelopmentMode. states_solve. Qed.

Lemma interrupt_devProcess path0 pid w path :
  devProcess_of (interrupt path0 pid w) path = devProcess_of w path.
Proof. unfold interrupt, exitDevelopmentMode. states_solve. Qed.

Lemma devRunOn_enter_devTerminal c target w path :
  devTerminal_of (devRunOn_enter c target w) path = devTerminal_of w path.
Proof.
  unfold devRunOn_enter, getComponentDevState, devTerminal_of. cbv zeta.
  destruct (componentStates w !! contextPath c) eqn:Hc, target; simpl;
    rewrite !lookup_alter; case_decide; simplify_eq/=;
    rewrite ?lookup_insert_eq, ?lookup_insert_ne, ?Hc by done; simpl;
    repeat case_decide; try done;
    match goal with
    | |- context [componentStates w !! ?p] => by destruct (componentStates w !! p)
    end.
Qed.

Lemma devRunOn_enter_devProcess c target w path :
  devProcess_of (devRunOn_enter c target w) path = devProcess_of w path.
Proof.
  unfold devRunOn_enter, getComponentDevState, devProcess_of. cbv zeta.
  destruct (componentStates w !! contextPath c) eqn:Hc, target; simpl;
    rewrite !lookup_alter; case_decide; simplify_eq/=;
    rewrite ?lookup_insert_eq, ?lookup_insert_ne, ?Hc by done; simpl;
    repeat case_decide; try done;
    match goal with
    | |- context [componentStates w !! ?p] => by destruct (componentStates w !! p)
    end.
Qed.

Lemma states_devTerminal w w' path :
  componentStates w' = componentStates w -> devTerminal_of w' path = devTerminal_of w path.
Proof. unfold devTerminal_of. by intros ->. Qed.

Lemma states_devProcess w w' path :
  componentStates w' = componentStates w -> devProcess_of w' path = devProcess_of w path.
Proof. unfold devProcess_of. by intros ->. Qed.

(** Only the dev command and the closing of a terminal change the terminal
    a session holds. *)
Lemma handle_devTerminal (ev : Event) (w : World) (path : string) :
  (forall c target, ev <> Dev c (Some target)) ->
  (forall k, ev <> Resume k) ->
  (forall t, ev <> TerminalClose t) ->
  devTerminal_of (handle ev w) path = devTerminal_of w path.
Proof.
  intros Hdev Hres Hclose. destruct ev; unfold handle; fold handle.
  - destruct target as [target|]; [by destruct (Hdev component target)|].
    rewrite <- (devRunOn_enter_devTerminal component None w path). by apply states_devTerminal.
  - by destruct (Hres k).
  - destruct (terminals w !! t); [|done]. by apply states_devTerminal.
  - by destruct (Hclose t).
  - destruct (terminals w !! t) as [T|]; [|done].
    unfold pty_handleInput. case_decide; [done|].
    destruct (devProcess_of w _).
    + destruct (_ && _); [|done]. simpl. rewrite interrupt_devTerminal.
      by apply states_devTerminal.
    + by destruct (devTerminal_of w _).
  - destruct (processes w !! pid) as [p|]; [|done].
    unfold on_spawn. simpl.
    destruct (devTerminal_of _ (cwd p)) as [t'|]; [|done]. states_solve.
  - destruct (processes w !! pid) as [p|]; [|done]. unfold on_error. states_solve.
  - destruct (processes w !! pid) as [p|]; [|done]. unfold on_stdout_data.
    case_decide; states_solve.
  - destruct (processes w !! pid) as [p|]; [|done]. unfold on_stderr_data.
    by destruct (stop_request_sigabrt_sent _ _).
  - destruct (processes w !! pid) as [p|]; [|done]. unfold on_exit.
    destruct (devProcessStopRequest_of _ _) as [env|] eqn:Hreq.
    + unfold devTerminal_of. simpl. rewrite dispose_componentStates. simpl.
      rewrite !lookup_alter. repeat case_decide; simplify_eq/=; states_cases; auto.
    + states_solve.
  - unfold forceExitDevMode.
    destruct (componentStates w !! contextPath component) as [cs|]; [|done]. simpl.
    destruct (devProcess cs); [|done]. destruct (exitCode_is_null _ _); [|done].
    destruct (devProcessStopRequest cs); [|done]. simpl.
    apply states_devTerminal, sendSigabrt_componentStates.
  - destruct (timers w !! t) as [T|]; [|done]. by case_decide.
  - case_decide; [|done]. apply states_devTerminal.
    by rewrite warning_answered_componentStates.
Qed.

(** Only the 'spawn' listener gives a session a process. *)
Lemma handle_devProcess (ev : Event) (w : World) (path : string) :
  (forall pid, ev <> ProcessSpawn pid) ->
  devProcess_of (handle ev w) path = devProcess_of w path \/
  devProcess_of (handle ev w) path = None.
Proof.
  intros Hspawn. destruct ev; unfold handle; fold handle.
  - left. rewrite <- (devRunOn_enter_devProcess component target w path).
    destruct target; [|by apply states_devProcess].
    unfold devRunOn, devRunOn_createTerminal.
    generalize (devRunOn_enter component (Some r) w). intros w1. states_solve.
  - left. destruct (suspended w !! k) as [[c target]|]; [|done].
    unfold devRunOn_createTerminal. states_solve.
  - left. destruct (terminals w !! t); [|done]. by apply states_devProcess.
  - left. destruct (terminals w !! t) as [T|]; [|done].
    unfold pty_close. cbv zeta.
    set (w1 := with_terminals (alter closed t) w).
    assert (H1 : devProcess_of w1 path = devProcess_of w path) by reflexivity.
    rewrite <- H1. clearbody w1.
    set (w2 := match devProcess_of w1 _ with Some _ => _ | None => _ end).
    assert (H2 : devProcess_of w2 path = devProcess_of w1 path).
    { subst w2. destruct (devProcess_of w1 (contextPath _)); [|done].
      destruct (_ && _); [|done].
      apply interrupt_devProcess. }
    rewrite <- H2. clearbody w2. states_solve.
  - left. destruct (terminals w !! t) as [T|]; [|done].
    unfold pty_handleInput. case_decide; [done|].
    destruct (devProcess_of w _) eqn:Hp.
    + destruct (_ && _); [|done]. simpl. rewrite interrupt_devProcess.
      by apply states_devProcess.
    + by destruct (devTerminal_of w _).
  - by destruct (Hspawn pid).
  - left. destruct (processes w !! pid) as [p|]; [|done]. unfold on_error. states_solve.
  - left. destruct (processes w !! pid) as [p|]; [|done]. unfold on_stdout_data.
    case_decide; states_solve.
  - left. destruct (processes w !! pid) as [p|]; [|done]. unfold on_stderr_data.
    by destruct (stop_request_sigabrt_sent _ _).
  - destruct (processes w !! pid) as [p|]; [|by left]. unfold on_exit.
    destruct (devProcessStopRequest_of _ _) as [env|] eqn:Hreq.
    + unfold devProcess_of. simpl. rewrite dispose_componentStates. simpl.
      rewrite !lookup_alter. repeat case_decide; simplify_eq/=; states_cases; auto.
    + states_solve.
  - left. unfold forceExitDevMode.
    destruct (componentStates w !! contextPath component) as [cs|]; [|done]. simpl.
    destruct (devProcess cs); [|done]. destruct (exitCode_is_null _ _); [|done].
    destruct (devProcessStopRequest cs); [|done]. simpl.
    apply states_devProcess, sendSigabrt_componentStates.
  - left. destruct (timers w !! t) as [T|]; [|done]. by case_decide.
  - left. case_decide; [|done]. apply states_devProcess.
    by rewrite warning_answered_componentStates.
Qed.

Lemma createTerminal_terminal_ok c target w path :
  (devProcess_of w (contextPath c) = None) ->
  terminal_ok w path -> terminal_ok (devRunOn_createTerminal c target w) path.
Proof.
  intros Hnone Hok t. unfold devRunOn_createTerminal, devTerminal_of, devProcess_of.
  simpl. rewrite !lookup_alter. case_decide as Hp.
  - subst path. intros Ht.
    exists (mkTerminal c target false false 0 false).
    unfold devProcess_of in Hnone.
    destruct (componentStates w !! contextPath c) as [cs|] eqn:Hcs; [|done].
    simpl in *. injection Ht as <-. split; [|done].
    by rewrite lookup_app_r, Nat.sub_diag.
  - intros Ht. destruct (Hok t Ht) as (T & HT & H1 & H2 & H3). exists T.
    split; [|done]. by apply lookup_app_l_Some.
Qed.

Lemma step_terminal_ok (ev : Event) (w : World) (path : string) :
  (forall p, session_ok w p) -> enabled ev w = true -> calm ev w = true ->
  terminal_ok w path -> terminal_ok (handle ev w) path.
Proof.
  intros Hses Hen Hcalm Hok.
  destruct ev as [c [target|]|k|t|t|t data|pid| | | | | | |];
    try (apply (terminal_ok_frame w);
         [by apply handle_devTerminal|by apply handle_devProcess
         |by apply terminals_le_handle|done]).
  - (* the dev command on a run target *)
    unfold handle, devRunOn. apply createTerminal_terminal_ok.
    + rewrite devRunOn_enter_devProcess. simpl in Hcalm.
      destruct (Hses (contextPath c)) as (_ & _ & Hpr & _).
      destruct (devProcess_of w (contextPath c)); [|done].
      destruct Hpr as [[Hs|Hs] _]; [done|..]; by rewrite Hs in Hcalm.
    + apply (terminal_ok_frame w); [apply devRunOn_enter_devTerminal
        |left; apply devRunOn_enter_devProcess
        |apply terminals_le_same, devRunOn_enter_terminals|done].
  - (* the dev command resumes *)
    unfold handle. destruct (suspended w !! k) as [[c target]|] eqn:Hk; [|done].
    apply createTerminal_terminal_ok; [|done].
    change (devProcess_of w (contextPath c) = None).
    destruct (Hses (contextPath c)) as (Hone & _ & Hpr & _).
    destruct (devProcess_of w (contextPath c)); [|done].
    destruct Hpr as [_ Hsp]; [done|].
    assert (1 <= count (suspended_for (contextPath c)) (suspended w)).
    { eapply count_pos; [done|]. by rewrite suspended_for_pair, bool_decide_eq_true_2. }
    unfold starts in Hone. lia.
  - (* a terminal is closed *)
    unfold handle. destruct (terminals w !! t) as [T0|] eqn:HT0; [|done].
    intros t' Ht'.
    destruct (decide (contextPath (term_component T0) = path)) as [Hp|Hp].
    { exfalso. revert Ht'. unfold pty_close, devTerminal_of. simpl.
      rewrite lookup_alter_eq' || rewrite lookup_alter. subst path.
      rewrite ?decide_True by done.
      by destruct (componentStates _ !! _). }
    assert (Hl : componentStates (pty_close (contextPath (term_component T0))
                                    (with_terminals (alter closed t) w)) !! path
                 = componentStates w !! path).
    { by rewrite pty_close_lookup_ne. }
    unfold devTerminal_of, devProcess_of in *. rewrite Hl in Ht' |- *.
    destruct (Hok t' Ht') as (T & HT & H1 & H2 & H3). exists T.
    split; [|done]. rewrite pty_close_terminals. simpl.
    rewrite list_lookup_alter_ne; [done|]. intros ->. congruence.
  - (* a process signals 'spawn' *)
    unfold handle. destruct (processes w !! pid) as [p|] eqn:Hp; [|done].
    simpl in Hen. rewrite Hp in Hen. apply bool_decide_eq_true in Hen.
    unfold on_spawn.
    set (w1 := with_processes (alter (set_phase Spawned) pid) w).
    assert (Hok1 : terminal_ok w1 path) by done.
    destruct (devTerminal_of w1 (cwd p)) as [t0|] eqn:Ht0; [|done]. simpl.
    intros t Ht.
    assert (Hsame : devTerminal_of w path = Some t).
    { revert Ht. unfold devTerminal_of. simpl. rewrite !lookup_alter.
      repeat case_decide; simplify_eq/=; by destruct (componentStates w !! _). }
    destruct (Hok t Hsame) as (T & HT & H1 & H2 & H3).
    exists (if decide (t0 = t) then shown T else T). split; [|split; [|split]].
    + simpl. case_decide; subst.
      * by rewrite list_lookup_alter_eq, HT.
      * by rewrite list_lookup_alter_ne.
    + by case_decide.
    + by case_decide.
    + intros Hop. assert (Hop' : term_opened T = false) by (by case_decide).
      unfold devProcess_of. simpl. rewrite !lookup_alter.
      destruct (decide (cwd p = path)) as [Hcwd|Hcwd].
      2:{ by apply H3. }
      exfalso. subst path.
      destruct (Hses (cwd p)) as (Hone & _).
      assert (1 <= count (in_phase Pending (cwd p)) (processes w)).
      { eapply count_pos; [done|]. by rewrite in_phase_is, bool_decide_eq_true_2. }
      assert (1 <= count (openable_for (cwd p)) (terminals w)).
      { eapply count_pos; [done|]. unfold openable_for.
        by rewrite bool_decide_eq_true_2, Hop', H2. }
      unfold starts in Hone. lia.
Qed.

Lemma unraced_terminal_ok w path : unraced w -> terminal_ok w path.
Proof.
  induction 1 as [timeout|w ev Hr IH Hen Hcalm].
  - intros t. unfold devTerminal_of. simpl. by rewrite lookup_empty.
  - apply step_terminal_ok; [|done..]. intros p. by apply unraced_session_ok.
Qed.

(** Without the proviso. *)
Lemma terminal_held_frame w w' path :
  devTerminal_of w' path = devTerminal_of w path ->
  terminals_le w w' ->
  terminal_held w path -> terminal_held w' path.
Proof.
  intros Ht Hle Hok t Hdt. rewrite Ht in Hdt.
  destruct (Hok t Hdt) as (T & HT & Hpath & Hcl).
  destruct (Hle t T HT) as (T' & HT' & Hp' & Hc' & Ho').
  exists T'. split; [done|]. split; congruence.
Qed.

Lemma createTerminal_terminal_held c target w path :
  terminal_held w path -> terminal_held (devRunOn_createTerminal c target w) path.
Proof.
  intros Hok t. unfold devRunOn_createTerminal, devTerminal_of.
  simpl. rewrite !lookup_alter. case_decide as Hp.
  - subst path. intros Ht.
    exists (mkTerminal c target false false 0 false).
    destruct (componentStates w !! contextPath c) as [cs|] eqn:Hcs; [|done].
    simpl in *. injection Ht as <-. split; [|done].
    by rewrite lookup_app_r, Nat.sub_diag.
  - intros Ht. destruct (Hok t Ht) as (T & HT & H1 & H2). exists T.
    split; [|done]. by apply lookup_app_l_Some.
Qed.

Lemma close_own_devTerminal (t : nat) (T : Terminal) (w : World) :
  terminals w !! t = Some T ->
  devTerminal_of (handle (TerminalClose t) w) (contextPath (term_component T)) = None.
Proof.
  intros HT. unfold handle. rewrite HT. unfold pty_close, devTerminal_of. simpl.
  rewrite lookup_alter_eq. by destruct (componentStates _ !! _).
Qed.

Lemma close_devTerminal (t : nat) (w : World) (path : string) :
  devTerminal_of (handle (TerminalClose t) w) path = devTerminal_of w path \/
  devTerminal_of (handle (TerminalClose t) w) path = None.
Proof.
  unfold handle. destruct (terminals w !! t) as [T0|] eqn:HT0; [|by left].
  destruct (decide (contextPath (term_component T0) = path)) as [Hp|Hp].
  - right. unfold pty_close, devTerminal_of. simpl. subst path.
    rewrite lookup_alter_eq. by destruct (componentStates _ !! _).
  - left. unfold devTerminal_of. by rewrite pty_close_lookup_ne.
Qed.

Lemma step_terminal_held (ev : Event) (w : World) (path : string) :
  terminal_held w path -> terminal_held (handle ev w) path.
Proof.
  intros Hok.
  destruct ev as [c [target|]|k|t0|t| | | | | | | | |];
    try (apply (terminal_held_frame w);
         [by apply handle_devTerminal|by apply terminals_le_handle|done]).
  - unfold handle, devRunOn. apply createTerminal_terminal_held.
    apply (terminal_held_frame w); [apply devRunOn_enter_devTerminal
      |apply terminals_le_same, devRunOn_enter_terminals|done].
  - unfold handle. destruct (suspended w !! k) as [[c target]|] eqn:Hk; [|done].
    by apply createTerminal_terminal_held.
  - intros t' Ht'.
    destruct (close_devTerminal t w path) as [Hsame|Hnone]; [|congruence].
    rewrite Hsame in Ht'. destruct (Hok t' Ht') as (T & HT & H1 & H2).
    unfold handle. destruct (terminals w !! t) as [T0|] eqn:HT0; [|by exists T].
    exists T. split; [|done]. rewrite pty_close_terminals. simpl.
    rewrite list_lookup_alter_ne; [done|]. intros ->.
    pose proof (close_own_devTerminal t' T w HT) as Hown.
    rewrite H1, Hsame in Hown. congruence.
Qed.

Lemma reachable_terminal_held w path : reachable w -> terminal_held w path.
Proof.
  induction 1 as [timeout|w ev Hr IH Hen]; [|by apply step_terminal_held].
  intros t. unfold devTerminal_of. simpl. by rewrite lookup_empty.
Qed.

Lemma handle_keeps_session (ev : Event) (w : World) (path : string) :
  is_Some (componentStates w !! path) ->
  is_Some (componentStates (handle ev w) !! path).
Proof.
  intros [cs Hcs].
  assert (Hrel : related same_axes w (handle ev w)).
  { destruct ev; first [ apply related_dev; related_side
                       | apply related_handle; related_side ]. }
  destruct (Hrel _ _ Hcs) as (cs' & Hcs' & _). eauto.
Qed.

(** While no event creates a terminal for a workspace, a session without
    terminal stays without. *)
Lemma no_terminal_stays (ev : Event) (w : World) (path : string) :
  creates_terminal path w ev = false ->
  (exists cs, componentStates w !! path = Some cs /\ devTerminal cs = None) ->
  exists cs, componentStates (handle ev w) !! path = Some cs /\ devTerminal cs = None.
Proof.
  intros Hno (cs & Hcs & Hnone).
  assert (Hold : devTerminal_of w path = None).
  { unfold devTerminal_of. by rewrite Hcs. }
  destruct (handle_keeps_session ev w path) as [cs' Hcs']; [by rewrite Hcs|].
  exists cs'. split; [done|].
  assert (Hnew : devTerminal_of (handle ev w) path = None).
  { destruct ev as [c [target|]|k|t0|t| | | | | | | | |];
      try (by rewrite handle_devTerminal).
    - unfold devTerminal_of. rewrite handle_lookup_ne; [by rewrite Hcs|].
      simpl in *. intros [= Hp]. by rewrite bool_decide_eq_true_2 in Hno.
    - unfold devTerminal_of. rewrite handle_lookup_ne; [by rewrite Hcs|].
      simpl in *. destruct (suspended w !! k) as [[c target]|]; [|done].
      intros [= Hp]. by rewrite bool_decide_eq_true_2 in Hno.
    - destruct (close_devTerminal t w path) as [Hsame|Hn]; congruence. }
  unfold devTerminal_of in Hnew. by rewrite Hcs' in Hnew.
Qed.

Lemma no_terminal_run (evs : list Event) (w : World) (path : string) :
  before_terminal path evs w ->
  (exists cs, componentStates w !! path = Some cs /\ devTerminal cs = None) ->
  exists cs, componentStates (run evs w) !! path = Some cs /\ devTerminal cs = None.
Proof.
  revert w. induction evs as [|ev evs IH]; intros w Hb Hcs; [done|].
  destruct Hb as [Hno Hb]. simpl. apply IH; [done|]. by apply no_terminal_stays.
Qed.
(** ** The terminal of a session *)

(** X11. In every reachable world the terminal a session holds is a terminal
    that was created for its workspace and has not been closed.  In the
    worlds reached without [devRunOn] running on a session that is starting,
    running or stopping, a session that holds a process holds a terminal
    that has been opened, or none. *)
Theorem session_terminal_is_open (w : World) (path : string) (cs : ComponentDevState)
    (t : nat) :
  reachable w ->
  componentStates w !! path = Some cs ->
  devTerminal cs = Some t ->
  exists T,
    terminals w !! t = Some T /\
    contextPath (term_component T) = path /\
    term_closed T = false /\
    (unraced w -> devProcess cs <> None -> term_opened T = true).
Proof.
  intros Hr Hcs Ht.
  assert (Hdt : devTerminal_of w path = Some t).
  { unfold devTerminal_of. by rewrite Hcs. }
  destruct (reachable_terminal_held w path Hr t Hdt) as (T & HT & H1 & H2).
  exists T. repeat split; try done. intros Hu Hp.
  destruct (unraced_terminal_ok w path Hu t Hdt) as (T' & HT' & _ & _ & H3).
  assert (T' = T) by congruence. subst T'.
  destruct (term_opened T); [done|]. unfold devProcess_of in H3.
  rewrite Hcs in H3. by destruct Hp, H3.
Qed.

(** X12. In every reachable world, the command that exits dev mode stops a
    running session that holds its process, no stop request, and a terminal
    that has been opened (the last two always hold in the worlds reached
    without [devRunOn] running on a session that is starting, running or
    stopping), whichever terminal is active: the terminal of the session is
    shown and echoes ^C, SIGINT goes to the process, the session is
    [DEV_STOPPING] and one timer is armed for its one new stop request. *)
Theorem exit_command_stops_session (w : World) (component : ComponentWorkspaceFolder)
    (active : option nat) (cs : ComponentDevState) (pid t : nat) (T : Terminal) :
  reachable w ->
  componentStates w !! contextPath component = Some cs ->
  devStatus cs = Some DEV_RUNNING ->
  devProcess cs = Some pid ->
  devTerminal cs = Some t ->
  terminals w !! t = Some T ->
  unraced w \/ (devProcessStopRequest cs = None /\ term_opened T = true) ->
  exists w',
    exitDevMode component active w = Some w' /\
    stop_requested (contextPath component) pid w w' /\
    terminals w' !! t = Some (shown T) /\
    written w' = written w ++ [(t, Text ("^C" +:+ CRLF))].
Proof.
  intros Hr Hcs Hst Hp Ht HT Hcase.
  assert (Hdt : devTerminal_of w (contextPath component) = Some t).
  { unfold devTerminal_of. by rewrite Hcs. }
  destruct (reachable_terminal_held w (contextPath component) Hr t Hdt)
    as (T' & HT' & H1 & H2).
  assert (T' = T) by congruence. subst T'.
  assert (Hfacts : devProcessStopRequest cs = None /\ term_opened T = true).
  { destruct Hcase as [Hu|Hfacts]; [|done]. split.
    - destruct (devProcessStopRequest cs) eqn:Hq; [|done].
      assert (Hs : devStatus cs = Some DEV_STOPPING).
      { apply (reachable_request_session w _ cs Hr Hcs); [done|]. by rewrite Hq. }
      congruence.
    - destruct (unraced_terminal_ok w _ Hu t Hdt) as (T' & HT'' & _ & _ & H3).
      assert (T' = T) by congruence. subst T'.
      destruct (term_opened T); [done|]. unfold devProcess_of in H3.
      rewrite Hcs in H3. simpl in H3. rewrite Hp in H3. by discriminate H3. }
  destruct Hfacts as [Hreq Hop].
  unfold exitDevMode. rewrite Hcs, Ht. cbn [mbind option_bind].
  unfold sendSequence.
  set (w1 := with_terminals (alter shown t) w).
  assert (HT1 : terminals w1 !! t = Some (shown T)).
  { subst w1. simpl. by rewrite list_lookup_alter_eq, HT. }
  assert (Hcs1 : componentStates w1 !! contextPath component = Some cs) by done.
  unfold enabled, handle. rewrite HT1.
  cbn [term_opened term_closed term_component shown]. rewrite Hop, H2, H1.
  unfold pty_handleInput, devStatus_of, devProcess_of, devProcessStopRequest_of.
  rewrite Hcs1. cbn [mbind option_bind]. rewrite Hst, Hp, Hreq.
  rewrite decide_False by done. simpl.
  eexists. split; [reflexivity|]. split; [|split].
  - by eapply (interrupt_stop_requested _ _ cs w).
  - done.
  - done.
Qed.

(** X13. Closing any terminal of a workspace, even one the session no longer
    holds, takes the terminal away from the session: from then on, whatever
    happens, and until [devRunOn] creates a terminal for the workspace again
    (a dev command on a run target, or one without that has come back from
    its await), the commands that show the terminal and exit dev mode throw
    a [TypeError], and no Ctrl-C is sent. *)
Theorem commands_throw_after_close (w : World) (component : ComponentWorkspaceFolder)
    (active : option nat) (cs : ComponentDevState) (t : nat) (T : Terminal)
    (evs : list Event) :
  componentStates w !! contextPath component = Some cs ->
  terminals w !! t = Some T ->
  contextPath (term_component T) = contextPath component ->
  before_terminal (contextPath component) evs (handle (TerminalClose t) w) ->
  let w' := run evs (handle (TerminalClose t) w) in
  devTerminal_of w' (contextPath component) = None /\
  showDevTerminal component w' = None /\
  exitDevMode component active w' = None.
Proof.
  intros Hcs HT Hpath Hb w'. subst w'.
  assert (Hclosed : exists cs', componentStates (handle (TerminalClose t) w)
                      !! contextPath component = Some cs' /\ devTerminal cs' = None).
  { destruct (handle_keeps_session (TerminalClose t) w (contextPath component))
      as [cs' Hcs']; [by rewrite Hcs|].
    exists cs'. split; [done|].
    pose proof (close_own_devTerminal t T w HT) as Hown.
    rewrite Hpath in Hown. unfold devTerminal_of in Hown. by rewrite Hcs' in Hown. }
  destruct (no_terminal_run evs _ _ Hb Hclosed) as (cs' & Hcs' & Hno).
  unfold devTerminal_of, showDevTerminal, exitDevMode. rewrite Hcs'. simpl.
  by rewrite Hno.
Qed.
(** ** What the terminal shows *)

Lemma replaceAll_app (a b : string) :
  replaceAll_LF_CRLF (a +:+ b) = replaceAll_LF_CRLF a +:+ replaceAll_LF_CRLF b.
Proof.
  induction a as [|c a IH]; [done|].
  change (replaceAll_LF_CRLF (String c (a +:+ b))
          = replaceAll_LF_CRLF (String c a) +:+ replaceAll_LF_CRLF b).
  simpl. case_decide; rewrite IH; reflexivity.
Qed.

Lemma string_app_assoc (a b c : string) : (a +:+ b) +:+ c = a +:+ (b +:+ c).
Proof.
  induction a as [|x a IH]; [done|].
  change (String x ((a +:+ b) +:+ c) = String x (a +:+ (b +:+ c))). by rewrite IH.
Qed.

Lemma string_app_nil_r (a : string) : a +:+ "" = a.
Proof.
  induction a as [|x a IH]; [done|].
  change (String x (a +:+ "") = String x a). by rewrite IH.
Qed.

Lemma terminal_text_snoc t l o :
  foldr (fun o rest => text_for t o +:+ rest) "" (l ++ [o])
  = foldr (fun o rest => text_for t o +:+ rest) "" l +:+ text_for t o.
Proof.
  induction l as [|x l IH]; simpl; [by rewrite string_app_nil_r|].
  by rewrite IH, string_app_assoc.
Qed.

(** Decoding the bytes of two chunks one after the other. *)
Lemma decode_app (st : Utf8State) (a b : string) :
  utf8_final st a = utf8_start ->
  decode st (a +:+ b) = decode st a +:+ decode utf8_start b.
Proof.
  revert st. induction a as [|c a IH]; intros st Hst.
  - simpl in Hst. subst st. reflexivity.
  - change (decode st (String c (a +:+ b))
            = decode st (String c a) +:+ decode utf8_start b).
    simpl in *. destruct (utf8_step st c) as [out st']. simpl in Hst.
    by rewrite IH, string_app_assoc.
Qed.

Lemma toString_app (a b : string) :
  utf8_final utf8_start a = utf8_start ->
  toString (a +:+ b) = toString a +:+ toString b.
Proof. apply decode_app. Qed.

(** A character of two bytes that is cut by the chunk boundary decodes to
    two replacement characters. *)
Lemma toString_cut_character :
  let a := String "195"%char "" in
  let b := String "169"%char "" in
  toString (a +:+ b) = a +:+ b /\
  toString a +:+ toString b = REPLACEMENT +:+ REPLACEMENT.
Proof. vm_compute. by split. Qed.

(** X14. When the first of two chunks of standard output does not end inside
    a character, then what the terminal shows, the state of the session and
    the notifications are those that the two chunks in one leave.  (Each
    chunk is decoded by itself, so that a character cut by the chunk boundary
    is shown as replacement characters.) *)
Theorem stdout_chunks_concatenate (w : World) (pid : nat) (a b : string) :
  utf8_final utf8_start a = utf8_start ->
  let once := handle (ProcessStdout pid (a +:+ b)) w in
  let twice := handle (ProcessStdout pid b) (handle (ProcessStdout pid a) w) in
  componentStates twice = componentStates once /\
  stateChanged twice = stateChanged once /\
  forall t, terminal_text t twice = terminal_text t once.
Proof.
  intros Hend. simpl. destruct (processes w !! pid) as [p|] eqn:Hp; [|by rewrite Hp].
  assert (Hp' : processes (on_stdout_data (cwd p) (sink p) a w) !! pid = Some p).
  { unfold on_stdout_data. by case_decide. }
  rewrite Hp'. unfold on_stdout_data at 1 3 4 6 7.
  set (w1 := on_stdout_data (cwd p) (sink p) a w).
  assert (Hst : devStatus_of w1 (cwd p) <> Some DEV_STARTING).
  { subst w1. unfold on_stdout_data. case_decide as Hs; [|done].
    unfold devStatus_of in *. simpl. rewrite lookup_alter_eq.
    by destruct (componentStates w !! cwd p). }
  rewrite (decide_False (P := devStatus_of w1 (cwd p) = Some DEV_STARTING)) by done.
  subst w1. unfold on_stdout_data, terminal_text.
  rewrite (toString_app a b Hend).
  case_decide; simpl; (split; [done|split; [done|]]); intros t;
    rewrite !terminal_text_snoc; simpl; repeat case_decide;
    by rewrite ?string_app_nil_r, ?string_app_assoc, ?replaceAll_app.
Qed.
(** ** Ports for the debugger *)

Lemma debugPortCandidate_port d pf p :
  debugPortCandidate d pf = Some (Some p) -> p = containerPort pf.
Proof.
  unfold debugPortCandidate. destruct (find _ (devfile_components d)) as [dc|]; [|done].
  destruct (container dc) as [c|]; [|done].
  destruct (endpoints c) as [eps|]; [|done]. simpl.
  destruct (find _ eps) as [ep|] eqn:Hf; [|done]. simpl.
  apply find_some in Hf as [_ Hb]. apply bool_decide_eq_true in Hb.
  destruct (String.prefix _ _); [|done]. congruence.
Qed.

Lemma debugPortCandidate_throws d pf :
  debugPortCandidate d pf = None <-> undeclared d pf.
Proof.
  unfold debugPortCandidate, undeclared. split.
  - destruct (find _ (devfile_components d)) as [dc|]; [|done].
    destruct (container dc) as [c|] eqn:Hc; [|done]. intros H.
    exists dc, c. split; [done|]. split; [done|].
    destruct (endpoints c) as [eps|]; [|done]. simpl in H.
    destruct (find _ eps) as [ep|] eqn:Hf; [done|].
    intros ep Hep Heq. apply list_elem_of_In in Hep.
    pose proof (find_none _ _ Hf ep Hep) as Hb. simpl in Hb.
    by rewrite bool_decide_eq_true_2 in Hb.
  - intros (dc & c & -> & -> & H). destruct (endpoints c) as [eps|]; [|done]. simpl.
    destruct (find _ eps) as [ep|] eqn:Hf; [|done].
    apply find_some in Hf as [Hin Hb]. apply bool_decide_eq_true in Hb.
    apply list_elem_of_In in Hin. by destruct (H ep Hin).
Qed.

Lemma debugPortsCandidates_elem d fps cands :
  debugPortsCandidates d fps = Some cands ->
  forall p, p ∈ cands <-> debug_port d fps p.
Proof.
  revert cands. induction fps as [|pf fps IH]; intros cands H p; simpl in H.
  - injection H as <-. split; [by intros ?%elem_of_nil|].
    by intros (pf & ?%elem_of_nil & _).
  - destruct (debugPortCandidate d pf) as [c|] eqn:Hc; [|done]. simpl in H.
    destruct (debugPortsCandidates d fps) as [cs|]; [|done]. simpl in H.
    injection H as <-. specialize (IH cs eq_refl p). unfold debug_port in *.
    destruct c as [q|].
    + rewrite elem_of_cons, IH. split.
      * intros [->|(pf' & Hin & Hpf')].
        -- exists pf. split; [left|done].
        -- exists pf'. split; [by right|done].
      * intros (pf' & Hin & Hpf'). apply elem_of_cons in Hin as [->|Hin].
        -- left. congruence.
        -- right. eauto.
    + rewrite IH. split.
      * intros (pf' & Hin & Hpf'). exists pf'. split; [by right|done].
      * intros (pf' & Hin & Hpf'). apply elem_of_cons in Hin as [->|Hin]; [congruence|eauto].
Qed.

(** X15. When the search for debug ports does not throw and some port is
    forwarded, the ports offered to the debugger are some of the forwarded
    ports and at least one: all of them when none forwards to a debug
    endpoint, and otherwise exactly those whose container port is the target
    of a debug endpoint that some port forwards to, whatever container they
    forward to themselves. *)
Theorem offered_debug_ports (d : ComponentDescription) (fps : list ForwardedPort)
    (cands : list Z) :
  debugPortsCandidates d fps = Some cands ->
  fps <> [] ->
  let offered := filteredForwardedPorts cands fps in
  offered <> [] /\
  offered `sublist_of` fps /\
  ((forall p, ~ debug_port d fps p) -> offered = fps) /\
  ((exists p, debug_port d fps p) ->
   forall fp, fp ∈ offered <-> fp ∈ fps /\ debug_port d fps (containerPort fp)).
Proof.
  intros Hc Hne offered. pose proof (debugPortsCandidates_elem d fps cands Hc) as Hel.
  subst offered. unfold filteredForwardedPorts.
  destruct cands as [|q cands].
  - split; [done|]. split; [done|]. split; [done|].
    intros [p Hp]. apply Hel in Hp. by apply elem_of_nil in Hp.
  - set (cs := q :: cands) in *.
    assert (Hq : debug_port d fps q) by (apply Hel; left).
    split; [|split; [apply sublist_filter|split]].
    + destruct Hq as (pf & Hin & Hpf). intros Hnil.
      assert (Hf : pf ∈ filter (fun fp => containerPort fp ∈ cs) fps).
      { apply list_elem_of_filter. split; [|done].
        apply Hel. exists pf. split; [done|].
        by rewrite <- (debugPortCandidate_port d pf q Hpf). }
      rewrite Hnil in Hf. by apply elem_of_nil in Hf.
    + intros Hno. by destruct (Hno q).
    + intros _ fp. rewrite list_elem_of_filter, Hel. tauto.
Qed.

(** X16. The search for debug ports throws exactly when some forwarded port
    names a container of the devfile that declares no endpoint with the
    forwarded container port as target. *)
Theorem debug_ports_search_throws (d : ComponentDescription) (fps : list ForwardedPort) :
  debugPortsCandidates d fps = None <-> exists pf, pf ∈ fps /\ undeclared d pf.
Proof.
  induction fps as [|pf fps IH]; simpl.
  - split; [done|]. by intros (pf & ?%elem_of_nil & _).
  - destruct (debugPortCandidate d pf) as [c|] eqn:Hc; simpl.
    + destruct (debugPortsCandidates d fps) as [cs|]; simpl.
      * split; [done|]. intros (pf' & Hin & Hun).
        apply elem_of_cons in Hin as [->|Hin].
        -- apply debugPortCandidate_throws in Hun. congruence.
        -- assert (Hex : exists pf, pf ∈ fps /\ undeclared d pf) by eauto.
           by apply IH in Hex.
      * split; [|done]. intros _. destruct IH as [IH _].
        destruct (IH eq_refl) as (pf' & Hin & Hun). exists pf'. split; [by right|done].
    + split; [|done]. intros _. exists pf. split; [left|].
      by apply debugPortCandidate_throws.
Qed.

Lemma choose_elem ports pick port : choose ports pick = Some port -> port ∈ ports.
Proof.
  unfold choose. intros H.
  assert (Hpick : (i ← pick; ports !! i) = Some port -> port ∈ ports).
  { destruct pick as [i|]; simpl; [|done]. apply list_elem_of_lookup_2. }
  destruct ports as [|x [|y l]]; auto.
  injection H as <-. left.
Qed.

Lemma filtered_elem d fps cands fp :
  debugPortsCandidates d fps = Some cands ->
  fp ∈ filteredForwardedPorts cands fps ->
  fp ∈ fps /\ ((exists p, debug_port d fps p) -> debug_port d fps (containerPort fp)).
Proof.
  intros Hc Hin. pose proof (debugPortsCandidates_elem d fps cands Hc) as Hel.
  unfold filteredForwardedPorts in Hin. destruct cands as [|q cands].
  - split; [done|]. intros [p Hp]. apply Hel in Hp. by apply elem_of_nil in Hp.
  - apply list_elem_of_filter in Hin as [Hq Hin]. split; [done|]. intros _. by apply Hel.
Qed.

Lemma startOdoAndConnectDebugger_cases (describe : string -> bool -> ComponentDescription)
    (pick : option nat) (started : bool) (component : ComponentWorkspaceFolder)
    (config : DebugConfiguration) (e : Editor) :
  let e0 := with_world (getComponentDevState component) e in
  let d := describe (contextPath component)
             (bool_decide (is_Some (getDevPlatform component (world e)).1)) in
  let r := (startOdoAndConnectDebugger describe pick started component config e).1 in
  let e' := (startOdoAndConnectDebugger describe pick started component config e).2 in
  (e' = e0 /\
   (r = Thrown \/ r = Returned None \/
    r = Returned (Some (mkStartDebuggerResult (cfg_type config)
                          "Component has no ports forwarded.")) /\
    (devForwardedPorts d = None \/ devForwardedPorts d = Some []))) \/
  (exists fps fp config',
     devForwardedPorts d = Some fps /\ fp ∈ fps /\
     ((exists p, debug_port d fps p) -> debug_port d fps (containerPort fp)) /\
     e' = startDebugging config' e0 /\
     cfg_contextPath config' = Some (contextPath component) /\
     cfg_name config' = cfg_name config /\
     cfg_type config' = cfg_type config /\
     cfg_request config' = cfg_request config /\
     (if decide (cfg_type config = "python")
      then snd <$> cfg_connect config' = Some (Some (localPort fp)) /\
           cfg_port config' = cfg_port config
      else cfg_port config' = Some (localPort fp) /\
           cfg_connect config' = cfg_connect config) /\
     r = if started
         then Returned (Some (mkStartDebuggerResult (cfg_type config)
                                "Debugger session has successfully started."))
         else Rejected "Debugger session failed to start." (cfg_type config)).
Proof.
  intros e0 d r e'. subst r e'. unfold startOdoAndConnectDebugger.
  change (with_world (getComponentDevState component) e) with e0.
  change (describe _ _) with d.
  destruct (devForwardedPorts d) as [[|pf rest]|] eqn:Hfps;
    [left; split; [done|]; right; right; split; [done|by right]| |
     left; split; [done|]; right; right; split; [done|by left]].
  destruct (debugPortsCandidates d (pf :: rest)) as [cands|] eqn:Hc; [|left; auto].
  destruct (choose _ pick) as [port|] eqn:Hch; [|left; auto].
  apply choose_elem, list_elem_of_fmap in Hch as (fp0 & -> & Hin).
  destruct (filtered_elem _ _ _ _ Hc Hin) as [Hfp Hdbg]. simpl.
  case_decide as Hpy.
  - destruct (cfg_connect config) as [[host port]|] eqn:Hconn; [|left; auto].
    right. eexists _, fp0, _. split; [done|]. split; [done|]. split; [done|].
    split; [by destruct started|]. simpl.
    repeat split; try done. by destruct started.
  - right. eexists _, fp0, _. split; [done|]. split; [done|]. split; [done|].
    split; [by destruct started|]. simpl.
    repeat split; try done. by destruct started.
Qed.

(** X17. Connecting the debugger changes nothing but the session state it
    may create, and asks for at most one debug session.  It asks for one
    exactly when it ends with "successfully started" or with the rejection
    "failed to start", and then the configuration carries the context path
    of the component, its own name, type and request, and the local port of
    one of the forwarded ports (under [connect] for Python), which forwards
    to a debug port whenever there is one. *)
Theorem debugger_request (describe : string -> bool -> ComponentDescription)
    (pick : option nat) (started : bool) (component : ComponentWorkspaceFolder)
    (config : DebugConfiguration) (e : Editor) :
  let e0 := with_world (getComponentDevState component) e in
  let d := describe (contextPath component)
             (bool_decide (is_Some (getDevPlatform component (world e)).1)) in
  let r := (startOdoAndConnectDebugger describe pick started component config e).1 in
  let e' := (startOdoAndConnectDebugger describe pick started component config e).2 in
  (e' = e0 /\
   (r = Thrown \/ r = Returned None \/
    r = Returned (Some (mkStartDebuggerResult (cfg_type config)
                          "Component has no ports forwarded.")) /\
    (devForwardedPorts d = None \/ devForwardedPorts d = Some []))) \/
  (exists fps fp config',
     devForwardedPorts d = Some fps /\ fp ∈ fps /\
     ((exists p, debug_port d fps p) -> debug_port d fps (containerPort fp)) /\
     e' = startDebugging config' e0 /\
     cfg_contextPath config' = Some (contextPath component) /\
     cfg_name config' = cfg_name config /\
     cfg_type config' = cfg_type config /\
     cfg_request config' = cfg_request config /\
     (if decide (cfg_type config = "python")
      then snd <$> cfg_connect config' = Some (Some (localPort fp)) /\
           cfg_port config' = cfg_port config
      else cfg_port config' = Some (localPort fp) /\
           cfg_connect config' = cfg_connect config) /\
     r = if started
         then Returned (Some (mkStartDebuggerResult (cfg_type config)
                                "Debugger session has successfully started."))
         else Rejected "Debugger session failed to start." (cfg_type config)).
Proof. apply startOdoAndConnectDebugger_cases. Qed.

(** ** The registry of debug sessions *)

Lemma truthy_Some p : p <> "" -> truthy (Some p) = Some p.
Proof. by destruct p. Qed.

(** X18. Once the editor has announced a debug session for the context path
    of a component, the debug command for that component starts no debugger:
    it answers [null], shows the warning that a session is already running,
    opens the debug view if the user asks for it, and reports no progress.
    When the editor announces the end of that session the registry is as it
    was before. *)
Theorem registered_session_blocks_debugger
    (describe : string -> bool -> ComponentDescription)
    (answer : option string) (pick : option nat) (started : bool) (tags : list string)
    (component : ComponentWorkspaceFolder) (session : DebugConfiguration) (e : Editor) :
  cfg_contextPath session = Some (contextPath component) ->
  contextPath component <> "" ->
  let e1 := onDidStartDebugSession session e in
  let r := (debug describe answer pick started tags (Some component) e1).1 in
  let e2 := (debug describe answer pick started tags (Some component) e1).2 in
  r = Returned None /\
  debugging e2 = debugging e /\
  progress e2 = progress e /\
  world e2 = show (WarningMessage ("Debugger session is already running for "
                                   +:+ metadata_name component +:+ ".")
                     ["Show 'Run and Debug' view"]) (world e) /\
  commands e2 = commands e ++ match answer with
                              | Some _ => [("workbench.view.debug", None)]
                              | None => []
                              end /\
  (debugSessions e !! contextPath component = None ->
   onDidTerminateDebugSession session e1 = e).
Proof.
  intros Hs Hne e1 r e2. subst r e2 e1.
  unfold onDidStartDebugSession, onDidTerminateDebugSession, debug, startDebugger.
  rewrite Hs, truthy_Some by done. simpl. rewrite lookup_insert_eq.
  destruct answer; simpl; rewrite ?app_nil_r; repeat split; try done;
    intros Hno; unfold with_debugSessions; simpl;
    rewrite delete_insert_id by done; by destruct e.
Qed.

(** The entry of a context path stays in the registry while no session of
    that path is announced to have terminated. *)
Lemma registered_stays (path : string) (ns : list SessionNotice) (e : Editor) :
  forallb (fun n => negb (ends_session path n)) ns = true ->
  is_Some (debugSessions e !! path) ->
  is_Some (debugSessions (announce_all ns e) !! path) /\
  debugging (announce_all ns e) = debugging e.
Proof.
  revert e. induction ns as [|n ns IH]; intros e Hns Hreg; [done|].
  simpl in Hns. apply andb_true_iff in Hns as [Hn Hns].
  unfold announce_all. simpl. fold (announce_all ns (announce n e)).
  assert (Hstep : is_Some (debugSessions (announce n e) !! path) /\
                  debugging (announce n e) = debugging e).
  { destruct n as [session|session]; simpl in *.
    - unfold onDidStartDebugSession. destruct (truthy _) as [p|]; [|done].
      simpl. split; [|done]. destruct (decide (p = path)) as [->|Hne].
      + by rewrite lookup_insert_eq.
      + by rewrite lookup_insert_ne.
    - unfold onDidTerminateDebugSession. destruct (truthy _) as [p|]; [|done].
      simpl. split; [|done]. rewrite lookup_delete_ne; [done|].
      intros ->. by rewrite bool_decide_eq_true_2 in Hn. }
  destruct Hstep as [Hreg' Hdbg]. destruct (IH _ Hns Hreg') as [H1 H2].
  split; [done|congruence].
Qed.

Lemma debug_registered (describe : string -> bool -> ComponentDescription)
    (answer : option string) (pick : option nat) (started : bool) (tags : list string)
    (component : ComponentWorkspaceFolder) (e : Editor) :
  is_Some (debugSessions e !! contextPath component) ->
  (debug describe answer pick started tags (Some component) e).1 = Returned None /\
  debugging (debug describe answer pick started tags (Some component) e).2 = debugging e.
Proof.
  intros [session Hs]. unfold debug, startDebugger. rewrite Hs. by destruct answer.
Qed.

(** X19. After the debugger has been connected with success and the editor
    has announced the session it was asked for, the debug command for the
    same component starts no second session, whatever the user answers and
    whichever sessions the editor announces to have started or terminated in
    between, as long as it announces the end of no session of the context
    path of the component. *)
Theorem debugger_runs_once
    (describe : string -> bool -> ComponentDescription) (pick : option nat)
    (component : ComponentWorkspaceFolder) (config : DebugConfiguration) (e : Editor)
    (language : string) :
  contextPath component <> "" ->
  (startOdoAndConnectDebugger describe pick true component config e).1 =
    Returned (Some (mkStartDebuggerResult language
                      "Debugger session has successfully started.")) ->
  let e1 := (startOdoAndConnectDebugger describe pick true component config e).2 in
  exists session,
    debugging e1 = debugging e ++ [session] /\
    forall ns describe' answer pick' started tags,
      forallb (fun n => negb (ends_session (contextPath component) n)) ns = true ->
      let again := debug describe' answer pick' started tags (Some component)
                     (announce_all ns (onDidStartDebugSession session e1)) in
      again.1 = Returned None /\ debugging again.2 = debugging e1.
Proof.
  intros Hne Hr e1. subst e1.
  destruct (startOdoAndConnectDebugger_cases describe pick true component config e)
    as [[He [Hth|[Hnull|[Hno _]]]]|(fps & fp0 & config' & _ & _ & _ & He & Hctx & _)];
    try (rewrite Hr in *; discriminate).
  exists config'. rewrite He. split; [done|].
  intros ns describe' answer pick' started tags Hns again. subst again.
  match goal with |- context [onDidStartDebugSession config' ?x] => set (e1 := x) end.
  assert (Hreg : is_Some (debugSessions (onDidStartDebugSession config' e1)
                            !! contextPath component)).
  { unfold onDidStartDebugSession. rewrite Hctx, truthy_Some by done. simpl.
    by rewrite lookup_insert_eq. }
  destruct (registered_stays _ ns _ Hns Hreg) as [Hreg' Hdbg].
  destruct (debug_registered describe' answer pick' started tags component _ Hreg')
    as [H1 H2].
  split; [done|]. rewrite H2, Hdbg.
  unfold onDidStartDebugSession. by destruct (truthy _).
Qed.

(** ** Which debugger is started *)

Lemma snoc_not_self {A} (l : list A) x : l <> l ++ [x].
Proof.
  intros H. apply (f_equal length) in H. rewrite length_app in H. simpl in H. lia.
Qed.

Lemma install_commands ids e :
  commands (install ids e) =
  commands e ++ ((fun id => ("workbench.extensions.installExtension", Some id)) <$> ids).
Proof.
  unfold install. revert e.
  induction ids as [|id ids IH]; intros e; simpl; [by rewrite app_nil_r|].
  rewrite IH. simpl. by rewrite <- app_assoc.
Qed.

Lemma install_frame ids e :
  world (install ids e) = world e /\ debugging (install ids e) = debugging e /\
  installed (install ids e) = installed e.
Proof.
  unfold install. revert e. induction ids as [|id ids IH]; intros e; simpl; [done|].
  by destruct (IH (executeCommand
    "workbench.extensions.installExtension" (Some id) e)) as (-> & -> & ->).
Qed.

Lemma offer_install_debugging w p r m response e :
  debugging (offer_install w p r m response e) = debugging e.
Proof.
  unfold offer_install. case_decide; [|done]. simpl.
  by destruct (install_frame m (report p (warn w ["Install"] e))) as (_ & -> & _).
Qed.

(** X20. A debugger is asked for only when no session is registered for the
    component and nothing needs installing, and then without a message, a
    command or a progress notification; the configuration names the context
    path of the component, and its type is java when the component is tagged
    Java, python when it is tagged Python but not Java, and pwa-node when it
    is tagged Node.js but neither Java nor Python. *)
Theorem debugger_language
    (describe : string -> bool -> ComponentDescription)
    (answer : option string) (pick : option nat) (started : bool) (tags : list string)
    (component : ComponentWorkspaceFolder) (e : Editor) (cfg : DebugConfiguration) :
  let e' := (startDebugger describe answer pick started tags component e).2 in
  debugging e' = debugging e ++ [cfg] ->
  debugSessions e !! contextPath component = None /\
  missing tags e = [] /\
  commands e' = commands e /\
  messages (world e') = messages (world e) /\
  progress e' = progress e /\
  cfg_contextPath cfg = Some (contextPath component) /\
  cfg_type cfg = (if bool_decide ("Java" ∈ tags) then "java"
                  else if bool_decide ("Python" ∈ tags) then "python"
                  else "pwa-node") /\
  ("Java" ∈ tags \/ "Python" ∈ tags \/ "Node.js" ∈ tags).
Proof.
  intros e'. subst e'. unfold startDebugger, missing, required, getExtension.
  destruct (debugSessions e !! contextPath component) eqn:Hreg.
  { simpl. destruct answer; simpl; intros H; by apply snoc_not_self in H. }
  assert (Hcases : forall config e0,
    debugging e0 = debugging e -> commands e0 = commands e ->
    messages (world e0) = messages (world e) -> progress e0 = progress e ->
    debugging (startOdoAndConnectDebugger describe pick started component config e0).2
      = debugging e ++ [cfg] ->
    commands (startOdoAndConnectDebugger describe pick started component config e0).2
      = commands e /\
    messages (world (startOdoAndConnectDebugger describe pick started component config e0).2)
      = messages (world e) /\
    progress (startOdoAndConnectDebugger describe pick started component config e0).2
      = progress e /\
    cfg_contextPath cfg = Some (contextPath component) /\
    cfg_type cfg = cfg_type config).
  { intros config e0 Hd Hc Hm Hp.
    assert (Hm0 : messages (world (with_world (getComponentDevState component) e0))
                  = messages (world e)).
    { rewrite <- Hm. simpl. unfold getComponentDevState.
      by destruct (componentStates (world e0) !! contextPath component). }
    destruct (startOdoAndConnectDebugger_cases describe pick started component config e0)
      as [[-> _]|(fps & fp0 & config' & _ & _ & _ & -> & Hctx & _ & Hty & _)].
    - intros H. change (debugging e0 = debugging e ++ [cfg]) in H.
      rewrite Hd in H. by apply snoc_not_self in H.
    - intros H. change (debugging e0 ++ [config'] = debugging e ++ [cfg]) in H.
      rewrite Hd in H. apply app_inj_tail in H as [_ ->].
      split; [exact Hc|]. split; [exact Hm0|]. split; [exact Hp|]. done. }
  destruct (bool_decide ("Java" ∈ tags)) eqn:Hj;
    [|destruct (bool_decide ("Python" ∈ tags)) eqn:Hpy;
      [|destruct (bool_decide ("Node.js" ∈ tags)) eqn:Hn]].
  - apply bool_decide_eq_true in Hj. simpl.
    destruct (bool_decide (JAVA_EXT ∈ installed e)) eqn:H1;
      destruct (bool_decide (JAVA_DEBUG_EXT ∈ installed e)) eqn:H2; simpl;
      try (rewrite offer_install_debugging; intros H; by apply snoc_not_self in H).
    apply bool_decide_eq_true in H1, H2. intros H.
    destruct (Hcases _ e eq_refl eq_refl eq_refl eq_refl H) as (? & ? & ? & ? & ?).
    split; [done|]. split.
    { rewrite !filter_cons, filter_nil. by rewrite !decide_False by auto. }
    auto 10.
  - apply bool_decide_eq_true in Hpy. rewrite orb_true_r. simpl.
    destruct (bool_decide (PYTHON_EXT ∈ installed e)) eqn:H1; simpl;
      try (rewrite offer_install_debugging; intros H; by apply snoc_not_self in H).
    apply bool_decide_eq_true in H1. intros H.
    destruct (Hcases _ e eq_refl eq_refl eq_refl eq_refl H) as (? & ? & ? & ? & ?).
    split; [done|]. split.
    { rewrite !filter_cons, filter_nil. by rewrite !decide_False by auto. }
    auto 10.
  - apply bool_decide_eq_true in Hn. simpl. intros H.
    destruct (Hcases _ e eq_refl eq_refl eq_refl eq_refl H) as (? & ? & ? & ? & ?).
    split; [done|]. split; [done|]. auto 10.
  - simpl. intros H. by apply snoc_not_self in H.
Qed.

(** X21. While an extension the component needs is missing, no debugger is
    started, also when the user has the extensions installed: the call
    answers [null], asks for no debug session and touches no dev session.
    If the user chooses Install, exactly the missing extensions are
    installed, in their order, followed by a reload of the window; if not,
    no command is run. *)
Theorem missing_extension_blocks_debugger
    (describe : string -> bool -> ComponentDescription)
    (answer : option string) (pick : option nat) (started : bool) (tags : list string)
    (component : ComponentWorkspaceFolder) (e : Editor) :
  debugSessions e !! contextPath component = None ->
  missing tags e <> [] ->
  let r := (startDebugger describe answer pick started tags component e).1 in
  let e' := (startDebugger describe answer pick started tags component e).2 in
  r = Returned None /\
  debugging e' = debugging e /\
  installed e' = installed e /\
  componentStates (world e') = componentStates (world e) /\
  commands e' =
    commands e ++
    (if decide (answer = Some "Install")
     then ((fun id => ("workbench.extensions.installExtension", Some id)) <$> missing tags e)
          ++ [("workbench.action.reloadWindow", None)]
     else []).
Proof.
  intros Hreg Hmiss r e'. subst r e'. revert Hmiss.
  unfold startDebugger, missing, required, getExtension. rewrite Hreg.
  assert (Hoffer : forall w p rr m,
    let e1 := offer_install w p rr m answer e in
    debugging e1 = debugging e /\ installed e1 = installed e /\
    componentStates (world e1) = componentStates (world e) /\
    commands e1 = commands e ++
      (if decide (answer = Some "Install")
       then ((fun id => ("workbench.extensions.installExtension", Some id)) <$> m)
            ++ [("workbench.action.reloadWindow", None)]
       else [])).
  { intros w p rr m e1. subst e1. unfold offer_install.
    case_decide; simpl; [|by rewrite app_nil_r].
    set (e1 := report p (warn w ["Install"] e)).
    destruct (install_frame m e1) as (Hw & Hd & Hi).
    rewrite Hw, Hd, Hi, install_commands. simpl. by rewrite <- app_assoc. }
  destruct (bool_decide ("Java" ∈ tags)) eqn:Hj;
    [|destruct (bool_decide ("Python" ∈ tags)) eqn:Hpy].
  - simpl. rewrite !filter_cons, filter_nil.
    destruct (bool_decide (JAVA_EXT ∈ installed e)) eqn:H1;
      destruct (bool_decide (JAVA_DEBUG_EXT ∈ installed e)) eqn:H2;
      [apply bool_decide_eq_true in H1, H2|apply bool_decide_eq_true in H1;
       apply bool_decide_eq_false in H2|apply bool_decide_eq_false in H1;
       apply bool_decide_eq_true in H2|apply bool_decide_eq_false in H1, H2];
      rewrite ?(decide_True (P := JAVA_EXT ∉ installed e)),
              ?(decide_False (P := JAVA_EXT ∉ installed e)),
              ?(decide_True (P := JAVA_DEBUG_EXT ∉ installed e)),
              ?(decide_False (P := JAVA_DEBUG_EXT ∉ installed e)) by auto;
      intros Hmiss; try done; simpl;
      match goal with
      | |- context [offer_install ?w ?p ?rr ?m answer e] =>
          destruct (Hoffer w p rr m) as (? & ? & ? & ?)
      end; by repeat split.
  - rewrite orb_true_r. simpl. rewrite !filter_cons, filter_nil.
    destruct (bool_decide (PYTHON_EXT ∈ installed e)) eqn:H1;
      [apply bool_decide_eq_true in H1|apply bool_decide_eq_false in H1];
      rewrite ?(decide_True (P := PYTHON_EXT ∉ installed e)),
              ?(decide_False (P := PYTHON_EXT ∉ installed e)) by auto;
      intros Hmiss; try done; simpl.
    destruct (Hoffer
      "Python extension (Publisher: Microsoft) is required to support debugging."
      "Installing extensions required to debug Python Component ..."
      "Please reload the window to activate installed extension."
      [PYTHON_EXT]) as (? & ? & ? & ?). by repeat split.
  - by rewrite filter_nil.
Qed.

(** ** Deleting the source folder *)

Lemma workspaceFolderToRmIndex_None path folders i :
  workspaceFolderToRmIndex path folders i = None <-> path ∉ folders.
Proof.
  revert i. induction folders as [|f folders IH]; intros i; simpl.
  - split; [intros _; apply not_elem_of_nil|done].
  - case_decide as Hf.
    + subst f. split; [done|]. intros H. destruct H. left.
    + rewrite IH, not_elem_of_cons. split; [by split|by intros [_ ?]].
Qed.

Lemma workspaceFolderToRmIndex_Some path folders i j :
  workspaceFolderToRmIndex path folders i = Some j ->
  exists l1 l2,
    folders = l1 ++ path :: l2 /\ (path ∉ l1) /\ j = i + length l1.
Proof.
  revert i. induction folders as [|f folders IH]; intros i; simpl; [done|].
  case_decide as Hf.
  - subst f. intros [= <-]. exists [], folders. split; [done|].
    split; [apply not_elem_of_nil|simpl; lia].
  - intros H. destruct (IH _ H) as (l1 & l2 & -> & Hno & ->).
    exists (f :: l1), l2. split; [done|]. split; [|simpl; lia].
    apply not_elem_of_cons. by split.
Qed.

(** X22. Deleting the source folder does nothing but show its warning unless
    the user confirms.  When the user confirms, the folder is removed from
    disk, and the workspace loses the first folder with the context path of
    the component and nothing else, or nothing when no folder has that path;
    without workspace the call then throws, after the removal. *)
Theorem delete_source_folder (context : ComponentWorkspaceFolder)
    (response : option string) (e : Editor) :
  let r := (deleteSourceFolder context response e).1 in
  let e' := (deleteSourceFolder context response e).2 in
  let path := contextPath context in
  (response <> Some "Delete Source Folder" ->
   r = Returned () /\ removed e' = removed e /\ workspaceFolders e' = workspaceFolders e) /\
  (response = Some "Delete Source Folder" ->
   removed e' = removed e ++ [path] /\
   match workspaceFolders e with
   | None => r = Thrown /\ workspaceFolders e' = None
   | Some folders =>
       r = Returned () /\
       exists folders',
         workspaceFolders e' = Some folders' /\
         ((path ∉ folders) -> folders' = folders) /\
         ((path ∈ folders) ->
          exists l1 l2,
            folders = l1 ++ path :: l2 /\ (path ∉ l1) /\ folders' = l1 ++ l2)
   end).
Proof.
  intros r e' path. subst r e' path. unfold deleteSourceFolder, DELETE_SOURCE_FOLDER.
  cbv zeta. case_decide as Hr; (split; [done|]); [intros _|done]. simpl.
  split; [by destruct (workspaceFolders e) as [folders|];
            [destruct (workspaceFolderToRmIndex _ _ _)|]|].
  destruct (workspaceFolders e) as [folders|] eqn:Hws; [|done].
  destruct (workspaceFolderToRmIndex (contextPath context) folders 0) as [i|] eqn:Hi.
  - destruct (workspaceFolderToRmIndex_Some _ _ _ _ Hi) as (l1 & l2 & -> & Hno & ->).
    split; [done|]. exists (l1 ++ l2). simpl. rewrite Hws. simpl.
    split; [by rewrite delete_middle|]. split.
    + intros Hnot. destruct Hnot. apply elem_of_app. right. left.
    + intros _. by exists l1, l2.
  - apply workspaceFolderToRmIndex_None in Hi.
    split; [done|]. exists folders. split; [done|]. by split.
Qed.

(** ** Opening the component in the browser *)

(** X23. Opening a component in the browser changes nothing but the session
    state it may create, and opens at most one URL: the address and local
    port of a forwarded port when the call answers [undefined]; none when it
    answers [null], which it does only when several ports are forwarded, or
    the message that no port is forwarded, which it does only then. *)
Theorem browser_opens_forwarded_port
    (describe : string -> bool -> ComponentDescription) (pick : option nat)
    (component : ComponentWorkspaceFolder) (e : Editor) :
  let d := describe (contextPath component)
             (bool_decide (is_Some (getDevPlatform component (world e)).1)) in
  let r := (openInBrowser describe pick component e).1 in
  let e' := (openInBrowser describe pick component e).2 in
  world e' = getComponentDevState component (world e) /\
  debugging e' = debugging e /\
  ((r = open_undefined /\
    exists fps fp,
      devForwardedPorts d = Some fps /\ fp ∈ fps /\
      commands e' = commands e ++
        [("vscode.open",
          Some ("http://" +:+ localAddress fp +:+ ":" +:+ pretty (localPort fp)))]) \/
   (r = open_null /\ commands e' = commands e /\
    exists fps, devForwardedPorts d = Some fps /\ 1 < length fps) \/
   (r = open_message
          "No forwarded ports available for component yet. Pleas wait and try again." /\
    commands e' = commands e /\
    (devForwardedPorts d = None \/ devForwardedPorts d = Some []))).
Proof.
  intros d r e'. subst r e'. unfold openInBrowser.
  change (describe _ _) with d.
  destruct (devForwardedPorts d) as [[|fp1 [|fp2 rest]]|] eqn:Hfps.
  - split; [done|]. split; [done|]. right. right. auto.
  - split; [done|]. split; [done|]. left. split; [done|].
    exists [fp1], fp1. split; [done|]. split; [left|done].
  - destruct (i ← pick; (port_item <$> fp1 :: fp2 :: rest) !! i) as [port|] eqn:Hp.
    + split; [done|]. split; [done|]. left. split; [done|].
      destruct pick as [i|]; [|done].
      change ((port_item <$> fp1 :: fp2 :: rest) !! i = Some port) in Hp.
      apply list_lookup_fmap_Some in Hp as (fp0 & -> & Hfp).
      exists (fp1 :: fp2 :: rest), fp0. split; [done|].
      split; [by eapply list_elem_of_lookup_2|done].
    + split; [done|]. split; [done|]. right. left. split; [done|]. split; [done|].
      exists (fp1 :: fp2 :: rest). split; [done|]. simpl. lia.
  - split; [done|]. split; [done|]. right. right. auto.
Qed.

(** ** The two dev commands *)

Lemma devRunOn_enter_state c target w :
  exists cs,
    componentStates (devRunOn_enter c target w) !! contextPath c = Some cs /\
    devStatus cs = Some DEV_STARTING /\ runOn cs = target.
Proof.
  unfold devRunOn_enter, getComponentDevState. cbv zeta.
  destruct (componentStates w !! contextPath c) as [cs|] eqn:Hcs, target; simpl;
    rewrite !lookup_alter_eq, ?lookup_insert_eq, ?Hcs; simpl; eauto.
Qed.

(** X24. After the dev command the component is starting on the cluster:
    its platform is undefined, the environment for [odo] is empty, the label
    reads "dev starting", and the resources pushed before are deleted first.
    After the podman command with podman present it is starting on podman:
    the platform is podman, the environment sets [ODO_EXPERIMENTAL_MODE], the
    label says so, and nothing is deleted.  With podman absent the podman
    command touches no session, and opens the podman site only if the user
    asks for it. *)
Theorem dev_commands_set_platform (result : option string)
    (component : ComponentWorkspaceFolder) (e : Editor) :
  let on_cluster := world (dev component e) in
  let on_podman := world (devOnPodman true result component e) in
  let absent := devOnPodman false result component e in
  ((getDevPlatform component on_cluster).1 = None /\
   (createExperimentalEnv component on_cluster).1 = [] /\
   (renderStateLabel component on_cluster).1 = " (dev starting)" /\
   executed on_cluster =
     executed (world e) ++ [Command_deletePreviouslyPushedResources (metadata_name component)]) /\
  ((getDevPlatform component on_podman).1 = Some podman /\
   (createExperimentalEnv component on_podman).1 = [("ODO_EXPERIMENTAL_MODE", "true")] /\
   (renderStateLabel component on_podman).1 = " (dev starting on podman)" /\
   executed on_podman = executed (world e)) /\
  (componentStates (world absent) = componentStates (world e) /\
   terminals (world absent) = terminals (world e) /\
   stateChanged (world absent) = stateChanged (world e) /\
   executed (world absent) = executed (world e) /\
   commands absent =
     commands e ++ (if decide (result = Some "Install podman")
                    then [("vscode.open", Some "https://podman.io/")] else [])).
Proof.
  intros on_cluster on_podman absent. subst on_cluster on_podman absent.
  split; [|split].
  - unfold dev. cbn [world with_world]. unfold handle.
    destruct (devRunOn_enter_state component None (world e)) as (cs & Hcs & Hst & Hro).
    unfold getDevPlatform, createExperimentalEnv, renderStateLabel, getComponentDevState,
      runOn_of.
    cbn [componentStates with_suspended]. rewrite Hcs. cbn [fst snd].
    cbn [componentStates with_suspended]. rewrite Hcs. simpl. rewrite Hst, Hro.
    repeat split; try done.
    unfold devRunOn_enter, getComponentDevState.
    by destruct (componentStates (world e) !! contextPath component).
  - unfold devOnPodman. cbn [world with_world]. unfold handle, devRunOn.
    destruct (devRunOn_enter_state component (Some podman) (world e))
      as (cs & Hcs & Hst & Hro).
    set (w1 := devRunOn_enter component (Some podman) (world e)) in *.
    assert (Hex : executed w1 = executed (world e)).
    { subst w1. unfold devRunOn_enter, getComponentDevState.
      by destruct (componentStates (world e) !! contextPath component). }
    clearbody w1.
    unfold getDevPlatform, createExperimentalEnv, renderStateLabel, getComponentDevState,
      runOn_of, devRunOn_createTerminal.
    simpl. rewrite !lookup_alter_eq, Hcs. simpl. rewrite !lookup_alter_eq, Hcs. simpl.
    rewrite Hst, Hro. by repeat split.
  - unfold devOnPodman. case_decide; simpl; by rewrite ?app_nil_r.
Qed.

(** ** Signals *)

Lemma signals_ok_frame w w' :
  processes w' = processes w ->
  (forall env, process_of w' env = process_of w env) ->
  (forall path, devProcess_of w' path = devProcess_of w path) ->
  (forall path, devProcessStopRequest_of w' path = devProcessStopRequest_of w path) ->
  signals_ok w -> signals_ok w'.
Proof.
  intros Hp He Hd Hr (HA & HB & HC). unfold signals_ok.
  rewrite Hp. split; [done|]. split.
  - intros path pid. rewrite Hd, Hr. apply HB.
  - intros env pid. rewrite He. apply HC.
Qed.

Lemma in_order_sigint : in_order [SIGINT].
Proof. right. by exists 0. Qed.

Lemma in_order_sigabrt l : in_order l -> l <> [] -> in_order (l ++ [SIGABRT]).
Proof.
  intros [->|[n ->]] Hne; [done|]. right. exists (S n).
  change (SIGINT :: (replicate n SIGABRT ++ [SIGABRT]) = SIGINT :: replicate (S n) SIGABRT).
  f_equal. induction n as [|n IH]; simpl; [done|]. by rewrite IH.
Qed.

Lemma lookup_alter_Some {A} (f : A -> A) (l : list A) i j y :
  alter f i l !! j = Some y ->
  (i = j /\ exists x, l !! j = Some x /\ y = f x) \/ (i <> j /\ l !! j = Some y).
Proof.
  destruct (decide (i = j)) as [->|Hne].
  - rewrite list_lookup_alter_eq. destruct (l !! j) as [x|]; [|done].
    intros [= <-]. left. eauto.
  - rewrite list_lookup_alter_ne by done. auto.
Qed.

(** SIGABRT for the process of a closure. *)
Lemma signals_ok_sigabrt w w' env pid :
  process_of w env = Some pid ->
  processes w' = alter (deliver SIGABRT) pid (processes w) ->
  (forall env, process_of w' env = process_of w env) ->
  (forall path, devProcess_of w' path = devProcess_of w path) ->
  (forall path, devProcessStopRequest_of w' path = devProcessStopRequest_of w path) ->
  signals_ok w -> signals_ok w'.
Proof.
  intros Henv Hp He Hd Hr (HA & HB & HC).
  destruct (HC _ _ Henv) as (p0 & Hp0 & Hph0 & Hrun0).
  destruct (HA _ _ Hp0) as [Hord0 _].
  assert (Hdel : in_order (received (deliver SIGABRT p0)) /\
                 phase (deliver SIGABRT p0) = phase p0 /\
                 cwd (deliver SIGABRT p0) = cwd p0 /\
                 running (deliver SIGABRT p0) = running p0 /\
                 (received p0 <> [] -> received (deliver SIGABRT p0) <> []) /\
                 (received (deliver SIGABRT p0) = [] -> received p0 = [])).
  { unfold deliver. destruct (running p0) eqn:Hrun; [|done]. simpl.
    repeat split; try done.
    - apply in_order_sigabrt; auto.
    - intros _ H. by destruct (received p0).
    - intros H. by destruct (received p0). }
  destruct Hdel as (Ho & Hph & Hcwd & Hrun & Hne & Hnil).
  unfold signals_ok. rewrite Hp. split; [|split].
  - intros pid' p Hl. apply lookup_alter_Some in Hl as [(-> & x & Hx & ->)|[Hne' Hl]].
    + rewrite Hp0 in Hx. injection Hx as <-. split; [done|]. by rewrite Hph.
    + exact (HA _ _ Hl).
  - intros path pid'. rewrite Hd, Hr. intros Hdp.
    destruct (HB _ _ Hdp) as (p & Hl & Hs & Hc & Hn).
    destruct (decide (pid = pid')) as [->|Hne'].
    + rewrite Hp0 in Hl. injection Hl as ->.
      exists (deliver SIGABRT p). rewrite list_lookup_alter_eq, Hp0.
      split; [done|]. split; [congruence|]. split; [congruence|].
      intros Hnone. specialize (Hn Hnone).
      assert (Hr' : running p = true) by (unfold running; by rewrite Hs).
      by destruct (Hrun0 Hr').
    + exists p. by rewrite list_lookup_alter_ne.
  - intros env' pid'. rewrite He. intros Hpr.
    destruct (HC _ _ Hpr) as (p & Hl & Hs & Hn).
    destruct (decide (pid = pid')) as [->|Hne'].
    + rewrite Hp0 in Hl. injection Hl as ->.
      exists (deliver SIGABRT p). rewrite list_lookup_alter_eq, Hp0.
      split; [done|]. split; [congruence|]. rewrite Hrun. auto.
    + exists p. by rewrite list_lookup_alter_ne.
Qed.

Lemma interrupt_process_of path pid w env :
  process_of (interrupt path pid w) env =
  if decide (env = length (stopRequests w)) then Some pid else process_of w env.
Proof.
  unfold process_of, interrupt, exitDevelopmentMode. simpl. case_decide as He.
  - subst env. by rewrite lookup_app_r, Nat.sub_diag.
  - destruct (decide (env < length (stopRequests w))) as [Hlt|Hge].
    + by rewrite lookup_app_l.
    + rewrite !lookup_ge_None_2; [done|lia|rewrite length_app; simpl; lia].
Qed.

Lemma interrupt_request path pid w path' :
  devProcessStopRequest_of (interrupt path pid w) path' =
  if decide (path = path')
  then (fun _ => length (stopRequests w)) <$> componentStates w !! path
  else devProcessStopRequest_of w path'.
Proof.
  unfold devProcessStopRequest_of, interrupt, exitDevelopmentMode. simpl.
  rewrite !lookup_alter. case_decide; [|done]. subst path'.
  rewrite decide_True by done. by destruct (componentStates w !! path).
Qed.

Lemma signals_ok_interrupt path pid w :
  devProcess_of w path = Some pid ->
  devProcessStopRequest_of w path = None ->
  signals_ok w -> signals_ok (interrupt path pid w).
Proof.
  intros Hdp Hreq (HA & HB & HC).
  destruct (HB _ _ Hdp) as (p0 & Hp0 & Hph0 & Hcwd0 & Hnil0). specialize (Hnil0 Hreq).
  assert (Hdel : deliver SIGINT p0 =
                 mkProcess (spawnargs p0) (cwd p0) (sink p0) (phase p0) (exitCode p0)
                   (signalCode p0) [SIGINT]).
  { unfold deliver, running. by rewrite Hph0, Hnil0. }
  assert (Hstate : is_Some (componentStates w !! path)).
  { unfold devProcess_of in Hdp. by destruct (componentStates w !! path). }
  destruct Hstate as [cs Hcs].
  unfold signals_ok.
  change (processes (interrupt path pid w)) with (alter (deliver SIGINT) pid (processes w)).
  split; [|split].
  - intros pid' p Hl. apply lookup_alter_Some in Hl as [(-> & x & Hx & ->)|[Hne' Hl]].
    + rewrite Hp0 in Hx. injection Hx as <-. rewrite Hdel. simpl.
      split; [apply in_order_sigint|]. by rewrite Hph0.
    + exact (HA _ _ Hl).
  - intros path' pid'. rewrite interrupt_devProcess, interrupt_request. intros Hdp'.
    destruct (HB _ _ Hdp') as (p & Hl & Hs & Hc & Hn).
    destruct (decide (pid = pid')) as [->|Hne'].
    + rewrite Hp0 in Hl. injection Hl as ->.
      assert (path' = path) by congruence. subst path'.
      exists (deliver SIGINT p). rewrite list_lookup_alter_eq, Hp0.
      split; [done|]. rewrite Hdel. simpl. split; [done|]. split; [done|].
      rewrite decide_True, Hcs by done. done.
    + exists p. rewrite list_lookup_alter_ne by done.
      split; [done|]. split; [done|]. split; [done|].
      case_decide as Hpath; [|done]. subst path'. congruence.
  - intros env' pid'. rewrite interrupt_process_of. intros Hpr.
    assert (Hcase : pid' = pid \/ (pid' <> pid /\ process_of w env' = Some pid')).
    { case_decide; [left; congruence|].
      destruct (decide (pid' = pid)); [by left|by right]. }
    destruct Hcase as [->|[Hne' Hold]].
    + exists (deliver SIGINT p0). rewrite list_lookup_alter_eq, Hp0.
      split; [done|]. rewrite Hdel. simpl. split; [by rewrite Hph0|done].
    + destruct (HC _ _ Hold) as (p & Hl & Hs & Hn). exists p.
      by rewrite list_lookup_alter_ne.
Qed.

Lemma request_process_interrupt path pid w :
  devProcess_of w path = Some pid ->
  request_process_ok w -> request_process_ok (interrupt path pid w).
Proof.
  intros Hdp HD.
  assert (Hstate : is_Some (componentStates w !! path)).
  { unfold devProcess_of in Hdp. by destruct (componentStates w !! path). }
  destruct Hstate as [cs Hcs].
  intros path' env'. rewrite interrupt_request, interrupt_process_of, interrupt_devProcess.
  case_decide as Hpath.
  - subst path'. rewrite Hcs. simpl. intros [= <-]. exists pid.
    by rewrite decide_True.
  - intros Hr'. destruct (HD _ _ Hr') as (pid' & Hpr & Hd'). exists pid'.
    split; [|done]. rewrite decide_False; [done|].
    unfold process_of in Hpr. intros ->.
    by rewrite lookup_ge_None_2 in Hpr.
Qed.

Lemma same_signals_ok w w' : same_signals w w' -> signals_ok w -> signals_ok w'.
Proof. intros (? & ? & ? & ?). by apply signals_ok_frame. Qed.

Lemma same_signals_refl w : same_signals w w.
Proof. by repeat split. Qed.

Lemma same_signals_trans w1 w2 w3 :
  same_signals w1 w2 -> same_signals w2 w3 -> same_signals w1 w3.
Proof.
  intros (H1 & H2 & H3 & H4) (H1' & H2' & H3' & H4').
  split; [congruence|]. split; [|split]; intros x.
  - by rewrite H2', H2.
  - by rewrite H3', H3.
  - by rewrite H4', H4.
Qed.

Lemma same_signals_fields w w' :
  componentStates w' = componentStates w -> processes w' = processes w ->
  stopRequests w' = stopRequests w -> same_signals w w'.
Proof.
  intros Hc Hp Hs.
  unfold same_signals, same_requests, process_of, devProcess_of, devProcessStopRequest_of.
  by rewrite Hc, Hp, Hs.
Qed.

Lemma same_signals_assign p f w :
  (forall cs, devProcess (f cs) = devProcess cs) ->
  (forall cs, devProcessStopRequest (f cs) = devProcessStopRequest cs) ->
  same_signals w (assign p f w).
Proof.
  intros Hd Hr. split; [done|]. split; [done|].
  split; intros path; unfold devProcess_of, devProcessStopRequest_of; simpl;
    rewrite lookup_alter; case_decide; subst; try done;
    destruct (componentStates w !! _); simpl; by rewrite ?Hd, ?Hr.
Qed.

Lemma same_signals_alter_env f env w :
  (forall e, env_devProcess (f e) = env_devProcess e) ->
  same_signals w (with_stopRequests (alter f env) w).
Proof.
  intros Hf. split; [done|]. split; [|done]. intros env'. unfold process_of. simpl.
  destruct (decide (env = env')) as [->|Hne].
  - rewrite list_lookup_alter_eq. destruct (stopRequests w !! env'); simpl; by rewrite ?Hf.
  - by rewrite list_lookup_alter_ne.
Qed.

Lemma same_signals_getComponentDevState c w : same_signals w (getComponentDevState c w).
Proof.
  unfold getComponentDevState.
  destruct (componentStates w !! contextPath c) eqn:Hc; [apply same_signals_refl|].
  split; [done|]. split; [done|].
  split; intros path; unfold devProcess_of, devProcessStopRequest_of; simpl;
    (destruct (decide (contextPath c = path)) as [<-|Hne];
     [by rewrite lookup_insert_eq, Hc|by rewrite lookup_insert_ne]).
Qed.

Lemma same_signals_stateChanged f w : same_signals w (with_stateChanged f w).
Proof. by apply same_signals_fields. Qed.
Lemma same_signals_written f w : same_signals w (with_written f w).
Proof. by apply same_signals_fields. Qed.
Lemma same_signals_messages f w : same_signals w (with_messages f w).
Proof. by apply same_signals_fields. Qed.
Lemma same_signals_timers f w : same_signals w (with_timers f w).
Proof. by apply same_signals_fields. Qed.
Lemma same_signals_terminals f w : same_signals w (with_terminals f w).
Proof. by apply same_signals_fields. Qed.
Lemma same_signals_prompts f w : same_signals w (with_prompts f w).
Proof. by apply same_signals_fields. Qed.
Lemma same_signals_executed f w : same_signals w (with_executed f w).
Proof. by apply same_signals_fields. Qed.
Lemma same_signals_suspended f w : same_signals w (with_suspended f w).
Proof. by apply same_signals_fields. Qed.
Lemma same_signals_set_devStatus p v w : same_signals w (assign p (set_devStatus v) w).
Proof. by apply same_signals_assign. Qed.
Lemma same_signals_set_devTerminal p v w : same_signals w (assign p (set_devTerminal v) w).
Proof. by apply same_signals_assign. Qed.
Lemma same_signals_set_runOn p v w : same_signals w (assign p (set_runOn v) w).
Proof. by apply same_signals_assign. Qed.
Lemma same_signals_set_sigAbortSent env b w :
  same_signals w (with_stopRequests (alter (set_sigAbortSent b) env) w).
Proof. by apply same_signals_alter_env. Qed.
Lemma same_signals_set_devCleaningTimeout env h w :
  same_signals w (with_stopRequests (alter (set_devCleaningTimeout h) env) w).
Proof. by apply same_signals_alter_env. Qed.
Lemma same_signals_clearTimeout h w : same_signals w (clearTimeout h w).
Proof. destruct h; [by apply same_signals_fields|apply same_signals_refl]. Qed.
Lemma same_signals_refresh t w : same_signals w (refresh t w).
Proof. by apply same_signals_fields. Qed.

Create HintDb same_signals.
#[local] Hint Resolve same_signals_stateChanged same_signals_written same_signals_messages
  same_signals_timers same_signals_terminals same_signals_prompts same_signals_executed
  same_signals_suspended same_signals_set_devStatus same_signals_set_devTerminal
  same_signals_set_runOn same_signals_set_sigAbortSent same_signals_set_devCleaningTimeout
  same_signals_clearTimeout same_signals_refresh same_signals_getComponentDevState
  : same_signals.

Ltac same_signals_chain :=
  cbv zeta;
  repeat (eapply same_signals_trans;
          [| solve [unfold fire_stateChanged, fire_output, show;
                    eauto 2 with same_signals] ]);
  try apply same_signals_refl.

Lemma same_signals_dispose env w : same_signals w (dispose env w).
Proof. unfold dispose. destruct (stopRequests w !! env); same_signals_chain. Qed.

(** A new process, yet to signal. *)
Lemma signals_ok_new w w' p :
  processes w' = processes w ++ [p] -> phase p = Pending -> received p = [] ->
  (forall env, process_of w' env = process_of w env) ->
  (forall path, devProcess_of w' path = devProcess_of w path) ->
  (forall path, devProcessStopRequest_of w' path = devProcessStopRequest_of w path) ->
  signals_ok w -> signals_ok w'.
Proof.
  intros Hp Hph Hrec He Hd Hr (HA & HB & HC). unfold signals_ok. rewrite Hp.
  split; [|split].
  - intros pid p' Hl. apply lookup_app_Some in Hl as [Hl|[_ Hl]]; [exact (HA _ _ Hl)|].
    destruct (pid - length (processes w)); simplify_eq/=.
    split; [by left; rewrite Hrec|done].
  - intros path pid. rewrite Hd, Hr. intros Hdp.
    destruct (HB _ _ Hdp) as (p' & Hl & Hrest). exists p'. split; [|done].
    by apply lookup_app_l_Some.
  - intros env pid. rewrite He. intros Hpr.
    destruct (HC _ _ Hpr) as (p' & Hl & Hrest). exists p'. split; [|done].
    by apply lookup_app_l_Some.
Qed.

(** A process leaves [Pending]. *)
Lemma signals_ok_phase w w' pid p ph :
  processes w !! pid = Some p -> phase p = Pending -> ph <> Pending ->
  processes w' = alter (set_phase ph) pid (processes w) ->
  (forall env, process_of w' env = process_of w env) ->
  (forall path, devProcess_of w' path = devProcess_of w path) ->
  (forall path, devProcessStopRequest_of w' path = devProcessStopRequest_of w path) ->
  signals_ok w -> signals_ok w'.
Proof.
  intros Hl0 Hph0 Hph Hp He Hd Hr (HA & HB & HC). unfold signals_ok. rewrite Hp.
  split; [|split].
  - intros pid' p' Hl. apply lookup_alter_Some in Hl as [(-> & x & Hx & ->)|[Hne' Hl]].
    + destruct (HA _ _ Hx) as [Ho _]. by split.
    + exact (HA _ _ Hl).
  - intros path pid'. rewrite Hd, Hr. intros Hdp.
    destruct (HB _ _ Hdp) as (p' & Hl & Hs & Hrest). exists p'. split; [|done].
    rewrite list_lookup_alter_ne; [done|]. intros ->. congruence.
  - intros env pid'. rewrite He. intros Hpr.
    destruct (HC _ _ Hpr) as (p' & Hl & Hs & Hrest). exists p'. split; [|done].
    rewrite list_lookup_alter_ne; [done|]. intros ->. congruence.
Qed.

(** A session takes hold of a spawned process of its workspace. *)
Lemma signals_ok_hold w w' path pid p :
  processes w !! pid = Some p -> phase p = Spawned -> received p = [] -> cwd p = path ->
  processes w' = processes w ->
  (forall env, process_of w' env = process_of w env) ->
  (forall path', devProcess_of w' path' =
                 if decide (path = path') then Some pid else devProcess_of w path') ->
  (forall path', devProcessStopRequest_of w' path' = devProcessStopRequest_of w path') ->
  signals_ok w -> signals_ok w'.
Proof.
  intros Hl0 Hph0 Hrec0 Hcwd0 Hp He Hd Hr (HA & HB & HC).
  unfold signals_ok. rewrite Hp. split; [done|]. split.
  - intros path' pid'. rewrite Hd, Hr. case_decide as Hpath.
    + subst path'. intros [= <-]. exists p. by repeat split.
    + apply HB.
  - intros env pid'. rewrite He. apply HC.
Qed.

(** A process exits and its session lets go of it. *)
Lemma signals_ok_exit w w' pid p code signal :
  processes w !! pid = Some p ->
  processes w' = alter (exited code signal) pid (processes w) ->
  (forall env, process_of w' env = process_of w env) ->
  (forall path, devProcess_of w' path =
                if decide (cwd p = path) then None else devProcess_of w path) ->
  (forall path, devProcessStopRequest_of w' path =
                if decide (cwd p = path) then None else devProcessStopRequest_of w path) ->
  signals_ok w -> signals_ok w'.
Proof.
  intros Hl0 Hp He Hd Hr (HA & HB & HC). unfold signals_ok. rewrite Hp.
  split; [|split].
  - intros pid' p' Hl. apply lookup_alter_Some in Hl as [(-> & x & Hx & ->)|[Hne' Hl]].
    + destruct (HA _ _ Hx) as [Ho _]. by split.
    + exact (HA _ _ Hl).
  - intros path pid'. rewrite Hd, Hr. case_decide as Hpath; [done|]. intros Hdp.
    destruct (HB _ _ Hdp) as (p' & Hl & Hs & Hc & Hrest). exists p'. split; [|done].
    rewrite list_lookup_alter_ne; [done|]. intros ->. congruence.
  - intros env pid'. rewrite He. intros Hpr.
    destruct (HC _ _ Hpr) as (p' & Hl & Hs & Hrest).
    destruct (decide (pid = pid')) as [->|Hne'].
    + exists (exited code signal p'). rewrite list_lookup_alter_eq, Hl.
      split; [done|]. split; [done|]. done.
    + exists p'. by rewrite list_lookup_alter_ne.
Qed.

Lemma signals_ok_abort env e w :
  stopRequests w !! env = Some e ->
  signals_ok w ->
  signals_ok (kill (env_devProcess e) SIGABRT
                (with_stopRequests (alter (set_sigAbortSent true) env) w)).
Proof.
  intros He. apply (signals_ok_sigabrt w _ env (env_devProcess e)).
  - unfold process_of. by rewrite He.
  - done.
  - by destruct (same_signals_set_sigAbortSent env true w) as (_ & ? & _ & _).
  - done.
  - done.
Qed.

Lemma signals_ok_sendSigabrt env w : signals_ok w -> signals_ok (sendSigabrt env w).
Proof.
  unfold sendSigabrt. destruct (stopRequests w !! env) as [e|] eqn:He; [|done].
  by apply signals_ok_abort.
Qed.

Lemma signals_ok_warning_answered env action w :
  signals_ok w -> signals_ok (warning_answered env action w).
Proof.
  unfold warning_answered. destruct (stopRequests w !! env) as [e|] eqn:He; [|done].
  destruct (devCleaningTimeout e) as [t|].
  - case_decide; [apply same_signals_ok; same_signals_chain|].
    case_decide; [|done]. by apply signals_ok_abort.
  - apply same_signals_ok. same_signals_chain.
Qed.

Lemma signals_ok_pty_close path w : signals_ok w -> signals_ok (pty_close path w).
Proof.
  intros Hok. unfold pty_close. cbv zeta.
  eapply same_signals_ok; [apply same_signals_set_devTerminal|].
  destruct (devProcess_of w path) as [pid|] eqn:Hdp; [|done].
  destruct (exitCode_is_null pid w); [|done]. simpl.
  case_bool_decide as Hreq; [|done]. by apply signals_ok_interrupt.
Qed.

Lemma signals_ok_pty_handleInput path t data w w' :
  pty_handleInput path t data w = Some w' -> signals_ok w -> signals_ok w'.
Proof.
  unfold pty_handleInput. case_decide; [by intros [= <-]|].
  destruct (devProcess_of w path) as [pid|] eqn:Hdp.
  - case_bool_decide as Hreq; simpl; [|by intros [= <-]].
    destruct (charCodeAt0_is_3 data); intros [= <-]; [|done]. intros Hok.
    apply signals_ok_interrupt; [done..|].
    eapply same_signals_ok; [|exact Hok]. same_signals_chain.
  - destruct (devTerminal_of w path); simpl; [|done]. intros [= <-].
    apply same_signals_ok. same_signals_chain.
Qed.

Lemma on_exit_signals path t w :
  processes (on_exit path t w) = processes w /\
  (forall env, process_of (on_exit path t w) env = process_of w env) /\
  (forall path', devProcess_of (on_exit path t w) path' =
                 if decide (path = path') then None else devProcess_of w path') /\
  (forall path', devProcessStopRequest_of (on_exit path t w) path' =
                 if decide (path = path') then None else devProcessStopRequest_of w path').
Proof.
  unfold on_exit. cbv zeta.
  set (w1 := match devProcessStopRequest_of w path with Some _ => _ | None => _ end).
  assert (H1 : processes w1 = processes w /\
               (forall env, process_of w1 env = process_of w env) /\
               (forall path', devProcess_of w1 path' = devProcess_of w path') /\
               (forall path', devProcessStopRequest_of w1 path' =
                  if decide (path = path') then None else devProcessStopRequest_of w path')).
  { subst w1. destruct (devProcessStopRequest_of w path) as [env|] eqn:Hreq.
    - destruct (same_signals_dispose env w) as (Hp & He & Hd & Hr).
      split; [done|]. split; [done|]. split.
      + intros path'. rewrite <- Hd. unfold devProcess_of. simpl. rewrite lookup_alter.
        case_decide; subst; [|done]. by destruct (componentStates _ !! _).
      + intros path'. rewrite <- Hr. unfold devProcessStopRequest_of. simpl.
        rewrite lookup_alter. case_decide; subst; [|done].
        by destruct (componentStates _ !! _).
    - split; [done|]. split; [done|]. split; [done|].
      intros path'. case_decide; subst; done. }
  clearbody w1. destruct H1 as (Hp & He & Hd & Hr).
  split; [done|]. split; [done|]. split.
  - intros path'. rewrite <- Hd. unfold devProcess_of. simpl. rewrite !lookup_alter.
    repeat case_decide; subst; try done. by destruct (componentStates _ !! _).
  - intros path'. rewrite <- Hr. unfold devProcessStopRequest_of. simpl.
    rewrite !lookup_alter. repeat case_decide; subst; try done.
    by destruct (componentStates _ !! _).
Qed.

Lemma step_signals_ok (ev : Event) (w : World) :
  enabled ev w = true ->
  signals_ok w -> signals_ok (handle ev w).
Proof.
  intros Hen Hok. destruct ev; unfold handle; fold handle.
  - eapply same_signals_ok; [|exact Hok].
    destruct target; unfold devRunOn, devRunOn_createTerminal, devRunOn_enter;
      same_signals_chain.
  - destruct (suspended w !! k) as [[c target]|]; [|done].
    eapply same_signals_ok; [|exact Hok]. unfold devRunOn_createTerminal.
    same_signals_chain.
  - destruct (terminals w !! t) as [T|]; [|done].
    unfold pty_open. cbv zeta.
    eapply (signals_ok_new w); [reflexivity|reflexivity|reflexivity|done..].
  - destruct (terminals w !! t) as [T|]; [|done]. apply signals_ok_pty_close.
    eapply same_signals_ok; [|exact Hok]. same_signals_chain.
  - destruct (terminals w !! t) as [T|]; [|done].
    destruct (pty_handleInput _ _ _ _) as [w'|] eqn:Hin; [|done]. simpl.
    by eapply signals_ok_pty_handleInput.
  - simpl in Hen. destruct (processes w !! pid) as [p|] eqn:Hp; [|done].
    apply bool_decide_eq_true in Hen.
    set (w1 := with_processes (alter (set_phase Spawned) pid) w).
    assert (Hok1 : signals_ok w1) by by eapply (signals_ok_phase w w1 pid p Spawned).
    assert (Hp1 : processes w1 !! pid = Some (set_phase Spawned p)).
    { subst w1. simpl. by rewrite list_lookup_alter_eq, Hp. }
    assert (Hnil : received (set_phase Spawned p) = []).
    { destruct Hok as (HA & _). destruct (HA _ _ Hp) as [_ Hnil]. by apply Hnil. }
    clearbody w1. unfold on_spawn.
    destruct (devTerminal_of w1 (cwd p)) as [t|] eqn:Ht; [|done].
    assert (Hcs : is_Some (componentStates w1 !! cwd p)).
    { unfold devTerminal_of in Ht. by destruct (componentStates w1 !! cwd p). }
    destruct Hcs as [cs Hcs]. simpl.
    eapply (signals_ok_hold w1 _ (cwd p) pid (set_phase Spawned p)); try done.
    + intros path'. unfold devProcess_of. simpl.
      rewrite !lookup_alter. repeat case_decide; subst; try done. by rewrite Hcs.
    + intros path'. unfold devProcessStopRequest_of. simpl.
      rewrite !lookup_alter. repeat case_decide; subst; try done. by rewrite Hcs.
  - simpl in Hen. destruct (processes w !! pid) as [p|] eqn:Hp; [|done].
    apply bool_decide_eq_true in Hen.
    eapply same_signals_ok; [unfold on_error; same_signals_chain|].
    by eapply (signals_ok_phase w _ pid p Failed).
  - destruct (processes w !! pid) as [p|]; [|done].
    eapply same_signals_ok; [|exact Hok]. unfold on_stdout_data.
    case_decide; same_signals_chain.
  - destruct (processes w !! pid) as [p|]; [|done].
    eapply same_signals_ok; [|exact Hok]. unfold on_stderr_data.
    destruct (stop_request_sigabrt_sent _ _); same_signals_chain.
  - destruct (processes w !! pid) as [p|] eqn:Hp; [|done].
    destruct (on_exit_signals (cwd p) (sink p)
                (with_processes (alter (exited code signal) pid) w))
      as (H1 & H2 & H3 & H4).
    by eapply (signals_ok_exit w _ pid p code signal).
  - unfold forceExitDevMode.
    destruct (componentStates w !! contextPath component) as [cs|]; [|done]. simpl.
    destruct (devProcess cs); [|done]. destruct (exitCode_is_null _ _); [|done].
    destruct (devProcessStopRequest cs); [|done]. simpl.
    by apply signals_ok_sendSigabrt.
  - destruct (timers w !! t) as [T|]; [|done]. case_decide; [|done].
    eapply same_signals_ok; [|exact Hok]. unfold timeout_callback. same_signals_chain.
  - case_decide; [|done]. apply signals_ok_warning_answered.
    eapply same_signals_ok; [|exact Hok]. same_signals_chain.
Qed.

Lemma reachable_signals_ok w : reachable w -> signals_ok w.
Proof.
  induction 1 as [timeout|w ev Hr IH Hen]; [|by apply step_signals_ok].
  unfold signals_ok, process_of, devProcess_of, devProcessStopRequest_of. simpl.
  repeat split; intros; rewrite ?lookup_empty in *; done.
Qed.

(** ** The stop request of a session and the process it holds *)

Lemma same_requests_ok w w' :
  same_requests w w' -> request_process_ok w -> request_process_ok w'.
Proof. intros (He & Hd & Hr) HD path env. rewrite Hr, He, Hd. apply HD. Qed.

Lemma same_requests_refl w : same_requests w w.
Proof. by repeat split. Qed.

Lemma same_requests_trans w1 w2 w3 :
  same_requests w1 w2 -> same_requests w2 w3 -> same_requests w1 w3.
Proof.
  intros (H2 & H3 & H4) (H2' & H3' & H4').
  split; [|split]; intros x.
  - by rewrite H2', H2.
  - by rewrite H3', H3.
  - by rewrite H4', H4.
Qed.

Lemma same_signals_requests w w' : same_signals w w' -> same_requests w w'.
Proof. by intros [_ H]. Qed.

Lemma same_requests_processes f w : same_requests w (with_processes f w).
Proof. by repeat split. Qed.

Ltac same_requests_chain :=
  cbv zeta;
  repeat (eapply same_requests_trans;
          [| solve [apply same_requests_processes
                   |apply same_signals_requests;
                    unfold fire_stateChanged, fire_output, show;
                    eauto 2 with same_signals] ]);
  try apply same_requests_refl.

Lemma request_process_abort env e w :
  request_process_ok w ->
  request_process_ok (kill (env_devProcess e) SIGABRT
                        (with_stopRequests (alter (set_sigAbortSent true) env) w)).
Proof. apply same_requests_ok. same_requests_chain. Qed.

Lemma same_requests_warning_answered env action w :
  same_requests w (warning_answered env action w).
Proof.
  unfold warning_answered.
  destruct (stopRequests w !! env) as [e|]; [|apply same_requests_refl].
  destruct (devCleaningTimeout e); [|same_requests_chain].
  repeat case_decide; same_requests_chain.
Qed.

Lemma step_request_process (ev : Event) (w : World) :
  (forall path, session_ok w path) -> (forall path, request_ok w path) ->
  enabled ev w = true ->
  request_process_ok w -> request_process_ok (handle ev w).
Proof.
  intros Hses Hreq Hen Hok. destruct ev; unfold handle; fold handle.
  - eapply same_requests_ok; [|exact Hok].
    destruct target; unfold devRunOn, devRunOn_createTerminal, devRunOn_enter;
      same_requests_chain.
  - destruct (suspended w !! k) as [[c target]|]; [|done].
    eapply same_requests_ok; [|exact Hok]. unfold devRunOn_createTerminal.
    same_requests_chain.
  - destruct (terminals w !! t) as [T|]; [|done].
    eapply same_requests_ok; [|exact Hok]. unfold pty_open. same_requests_chain.
  - destruct (terminals w !! t) as [T|]; [|done].
    unfold pty_close. cbv zeta.
    eapply same_requests_ok; [apply same_signals_requests, same_signals_set_devTerminal|].
    destruct (devProcess_of _ _) as [pid|] eqn:Hdp; [|done].
    destruct (_ && _); [|done]. by apply request_process_interrupt.
  - destruct (terminals w !! t) as [T|]; [|done].
    unfold pty_handleInput. case_decide; [done|].
    destruct (devProcess_of w _) as [pid|] eqn:Hdp.
    + destruct (_ && _); [|done]. simpl.
      apply request_process_interrupt; [done|].
      eapply same_requests_ok; [|exact Hok]. same_requests_chain.
    + destruct (devTerminal_of w _); simpl; [|done].
      eapply same_requests_ok; [|exact Hok]. same_requests_chain.
  - simpl in Hen. destruct (processes w !! pid) as [p|] eqn:Hp; [|done].
    apply bool_decide_eq_true in Hen.
    assert (Hno : devProcessStopRequest_of w (cwd p) = None).
    { destruct (devProcessStopRequest_of w (cwd p)) eqn:Hr; [|done].
      assert (Hs : devStatus_of w (cwd p) = Some DEV_STOPPING).
      { apply Hreq. by rewrite Hr. }
      by destruct (pending_not_stopping w pid p Hp Hen (Hses _)). }
    set (w1 := with_processes (alter (set_phase Spawned) pid) w).
    assert (Hok1 : request_process_ok w1) by done.
    assert (Hno1 : devProcessStopRequest_of w1 (cwd p) = None) by done.
    clearbody w1. unfold on_spawn.
    destruct (devTerminal_of w1 (cwd p)) as [t|] eqn:Ht; [|done]. simpl.
    intros path env.
    assert (Hr : devProcessStopRequest_of
                   (fire_stateChanged (cwd p)
                      (assign (cwd p) (set_devStatus (Some DEV_RUNNING))
                         (assign (cwd p) (set_devProcess (Some pid))
                            (with_terminals (alter shown t) w1)))) path
                 = devProcessStopRequest_of w1 path).
    { unfold devProcessStopRequest_of. simpl. rewrite !lookup_alter.
      repeat case_decide; subst; try done. by destruct (componentStates w1 !! _). }
    rewrite Hr. intros Hreq1.
    assert (Hne : cwd p <> path) by congruence.
    destruct (Hok1 _ _ Hreq1) as (pid' & Hpr & Hdp). exists pid'. split; [done|].
    unfold devProcess_of in *. simpl. by rewrite !lookup_alter_ne.
  - destruct (processes w !! pid) as [p|] eqn:Hp; [|done].
    eapply same_requests_ok; [|exact Hok]. unfold on_error. same_requests_chain.
  - destruct (processes w !! pid) as [p|]; [|done].
    eapply same_requests_ok; [|exact Hok]. unfold on_stdout_data.
    case_decide; same_requests_chain.
  - destruct (processes w !! pid) as [p|]; [|done].
    eapply same_requests_ok; [|exact Hok]. unfold on_stderr_data.
    destruct (stop_request_sigabrt_sent _ _); same_requests_chain.
  - destruct (processes w !! pid) as [p|] eqn:Hp; [|done].
    destruct (on_exit_signals (cwd p) (sink p)
                (with_processes (alter (exited code signal) pid) w))
      as (H1 & H2 & H3 & H4).
    intros path env. rewrite H4, H2, H3. case_decide; [done|]. apply Hok.
  - unfold forceExitDevMode.
    destruct (componentStates w !! contextPath component) as [cs|]; [|done]. simpl.
    destruct (devProcess cs); [|done]. destruct (exitCode_is_null _ _); [|done].
    destruct (devProcessStopRequest cs) as [env|]; [|done]. simpl.
    unfold sendSigabrt. destruct (stopRequests w !! env); [|done].
    by apply request_process_abort.
  - destruct (timers w !! t) as [T|]; [|done]. case_decide; [|done].
    eapply same_requests_ok; [|exact Hok]. unfold timeout_callback. same_requests_chain.
  - case_decide; [|done].
    eapply same_requests_ok; [|exact Hok].
    eapply same_requests_trans; [|apply same_requests_warning_answered].
    same_requests_chain.
Qed.

Lemma unraced_request_process w : unraced w -> request_process_ok w.
Proof.
  induction 1 as [timeout|w ev Hr IH Hen Hcalm].
  - intros path env. unfold devProcessStopRequest_of. simpl. by rewrite lookup_empty.
  - apply step_request_process; [| |done..].
    + intros path. by apply unraced_session_ok.
    + intros path. by apply unraced_request_ok.
Qed.


Lemma held_process (w : World) (path : string) (cs : ComponentDevState) (pid : nat) :
  reachable w ->
  componentStates w !! path = Some cs ->
  devProcess cs = Some pid ->
  exists p,
    processes w !! pid = Some p /\ phase p = Spawned /\ cwd p = path /\
    (devProcessStopRequest cs = None -> received p = []) /\
    (forall env, devProcessStopRequest cs = Some env ->
       exists pid' p',
         process_of w env = Some pid' /\ processes w !! pid' = Some p' /\
         (running p' = true -> head (received p') = Some SIGINT)) /\
    (unraced w ->
     forall env, devProcessStopRequest cs = Some env ->
       process_of w env = Some pid /\ head (received p) = Some SIGINT).
Proof.
  intros Hr Hcs Hdp. destruct (reachable_signals_ok w Hr) as (HA & HB & HC).
  assert (Hdp' : devProcess_of w path = Some pid).
  { unfold devProcess_of. by rewrite Hcs. }
  assert (Hreq : devProcessStopRequest_of w path = devProcessStopRequest cs).
  { unfold devProcessStopRequest_of. by rewrite Hcs. }
  assert (Hfirst : forall pid' p', processes w !! pid' = Some p' -> received p' <> [] ->
                                   head (received p') = Some SIGINT).
  { intros pid' p' Hl' Hne. destruct (HA _ _ Hl') as [[Hno|[n Hn]] _]; [done|].
    by rewrite Hn. }
  destruct (HB _ _ Hdp') as (p & Hl & Hph & Hcwd & Hnil). exists p.
  rewrite Hreq in Hnil. split; [done|]. split; [done|]. split; [done|].
  split; [done|]. split.
  - intros env Henv. rewrite <- Hreq in Henv.
    destruct (reachable_timers_ok w Hr) as (_ & _ & _ & _ & _ & H6 & _).
    pose proof (H6 _ _ Henv) as Hh. unfold handle_of in Hh.
    destruct (stopRequests w !! env) as [e|] eqn:He; [|done].
    assert (Hpr : process_of w env = Some (env_devProcess e)).
    { unfold process_of. by rewrite He. }
    destruct (HC _ _ Hpr) as (p' & Hl' & _ & Hrun).
    exists (env_devProcess e), p'. split; [done|]. split; [done|].
    intros Hrunning. by apply (Hfirst _ _ Hl'), Hrun.
  - intros Hu env Henv. rewrite <- Hreq in Henv.
    destruct (unraced_request_process w Hu _ _ Henv) as (pid' & Hpr & Hd').
    assert (pid' = pid) by congruence. subst pid'. split; [done|].
    destruct (HC _ _ Hpr) as (p' & Hl' & _ & Hrun).
    assert (p' = p) by congruence. subst p'.
    apply (Hfirst _ _ Hl), Hrun. unfold running. by rewrite Hph.
Qed.

(** X25. In every reachable world a process has received no signal, or one
    SIGINT followed by SIGABRTs only: SIGINT is sent to a process at most
    once, and SIGABRT only after it. *)
Theorem signals_in_order (w : World) (pid : nat) (p : ChildProcess) :
  reachable w ->
  processes w !! pid = Some p ->
  received p = [] \/ exists n, received p = SIGINT :: replicate n SIGABRT.
Proof.
  intros Hr Hp. destruct (reachable_signals_ok w Hr) as (HA & _).
  by destruct (HA _ _ Hp).
Qed.

(** X26. In every reachable world the process a session holds is a process
    of its workspace that has signalled 'spawn' and has not exited; it has
    received no signal as long as the session has no stop request; and the
    stop request of the session was created for a process that has received
    SIGINT first, if it is still there.  In the worlds reached without
    [devRunOn] running on a session that is starting, running or stopping,
    that process is the one the session holds. *)
Theorem held_process_and_signals (w : World) (path : string) (cs : ComponentDevState)
    (pid : nat) :
  reachable w ->
  componentStates w !! path = Some cs ->
  devProcess cs = Some pid ->
  exists p,
    processes w !! pid = Some p /\ phase p = Spawned /\ cwd p = path /\
    (devProcessStopRequest cs = None -> received p = []) /\
    (forall env, devProcessStopRequest cs = Some env ->
       exists pid' p',
         process_of w env = Some pid' /\ processes w !! pid' = Some p' /\
         (running p' = true -> head (received p') = Some SIGINT)) /\
    (unraced w ->
     forall env, devProcessStopRequest cs = Some env ->
       process_of w env = Some pid /\ head (received p) = Some SIGINT).
Proof. apply held_process. Qed.
(** ** Binding a service *)

Lemma head_filter_Some {A} (P : A -> Prop) `{!forall x, Decision (P x)} (l : list A) x :
  head (filter P l) = Some x <->
  exists l1 l2, l = l1 ++ x :: l2 /\ P x /\ forall y, y ∈ l1 -> ~ P y.
Proof.
  induction l as [|a l IH]; simpl.
  - split; [done|]. intros (l1 & l2 & Hl & _). by destruct l1.
  - rewrite filter_cons. case_decide as Ha; simpl.
    + split.
      * intros [= ->]. exists [], l. split; [done|]. split; [done|].
        by intros y ?%elem_of_nil.
      * intros (l1 & l2 & Hl & Hx & Hno). destruct l1 as [|b l1]; simplify_eq/=; [done|].
        destruct (Hno b); [left|done].
    + rewrite IH. split.
      * intros (l1 & l2 & -> & Hx & Hno). exists (a :: l1), l2. split; [done|].
        split; [done|]. intros y [->|Hy]%elem_of_cons; auto.
      * intros (l1 & l2 & Hl & Hx & Hno). destruct l1 as [|b l1]; simplify_eq/=; [done|].
        exists l1, l2. split; [done|]. split; [done|].
        intros y Hy. apply Hno. by right.
Qed.

Lemma head_filter_None {A} (P : A -> Prop) `{!forall x, Decision (P x)} (l : list A) :
  head (filter P l) = None <-> forall y, y ∈ l -> ~ P y.
Proof.
  induction l as [|a l IH]; simpl.
  - split; [by intros _ y ?%elem_of_nil|done].
  - rewrite filter_cons. case_decide as Ha; simpl.
    + split; [done|]. intros Hno. destruct (Hno a); [left|done].
    + rewrite IH. split.
      * intros Hno y [->|Hy]%elem_of_cons; auto.
      * intros Hno y Hy. apply Hno. by right.
Qed.

(** X27. Adding a binding calls [odo.addBinding] at most once, and only
    after the wizard was submitted: for the context path of the component,
    the binding name of the form, and the first of the bindable services
    whose label, namespace/name, is the selected one.  The wizard is opened
    with the labels of all services, in their order.  The call throws
    exactly when the wizard was submitted with a label that none of the
    services has; without services it opens no wizard. *)
Theorem binding_is_for_the_selected_service (services : option (list BindableService))
    (result : option string) (wizard : WizardEnd) (component : ComponentWorkspaceFolder)
    (e : Editor) :
  let r := (addBinding services result wizard component e).1 in
  let e' := (addBinding services result wizard component e).2 in
  let offered := default [] services in
  (offered = [] -> r = Returned () /\ views e' = views e /\ bindings e' = bindings e /\
                   telemetry e' = telemetry e) /\
  (offered <> [] ->
   views e' = views e ++ [(contextPath component, service_label <$> offered)] /\
   match wizard with
   | wizard_reject =>
       r = Returned () /\ bindings e' = bindings e /\
       telemetry e' = telemetry e ++ ["startAddBindingWizard"]
   | wizard_submit selectedService bindingName =>
       telemetry e' = telemetry e ++ ["startAddBindingWizard"; "finishAddBindingWizard"] /\
       ((r = Thrown /\ bindings e' = bindings e /\
         forall service, service ∈ offered -> service_label service <> selectedService) \/
        (exists l1 service l2,
           offered = l1 ++ service :: l2 /\
           service_label service = selectedService /\
           (forall other, other ∈ l1 -> service_label other <> selectedService) /\
           r = Returned () /\
           bindings e' = bindings e ++
             [(contextPath component, service_namespace service, service_name service,
               bindingName)]))
   end).
Proof.
  intros r e' offered. subst r e' offered. unfold addBinding. cbv zeta.
  destruct services as [[|s services]|]; simpl.
  - split; [|intros H; by destruct H]. intros _. case_decide; repeat split; reflexivity.
  - split; [done|]. intros _.
    destruct wizard as [sel name|]; [|by repeat split].
    destruct (head (filter (fun service => service_label service = sel) (s :: services)))
      as [service|] eqn:Hh.
    + simpl. rewrite <- app_assoc. split; [done|]. split; [done|]. right.
      apply head_filter_Some in Hh as (l1 & l2 & Hl & Hx & Hno).
      exists l1, service, l2. by repeat split.
    + simpl. rewrite <- app_assoc. split; [done|]. split; [done|]. left.
      split; [done|]. split; [done|]. exact (proj1 (head_filter_None _ _) Hh).
  - split; [|intros H; by destruct H]. intros _. case_decide; repeat split; reflexivity.
Qed.

(** ** The properties above, on the example session *)

Lemma unraced_up : unraced Scenario.up.
Proof.
  assert (H : unraced
                (run [Dev Scenario.app None; Resume 0; TerminalOpen 0; ProcessSpawn 0]
                   (initial 20000))).
  { apply unraced_run; [apply unraced_initial|]. vm_compute. reflexivity. }
  vm_compute in H. vm_compute. exact H.
Qed.

Lemma unraced_stopping : unraced Scenario.stopping.
Proof.
  assert (H : unraced (run [TerminalInput 0 Scenario.ctrl_c] Scenario.up)).
  { apply unraced_run; [apply unraced_up|]. vm_compute. reflexivity. }
  vm_compute in H. vm_compute. exact H.
Qed.

Lemma unraced_forced : unraced Scenario.forced.
Proof.
  assert (H : unraced (run [TimerExpires 0; WarningAnswer 0 (Some "Force exit")]
                         Scenario.stopping)).
  { apply unraced_run; [apply unraced_stopping|]. vm_compute. reflexivity. }
  vm_compute in H. vm_compute. exact H.
Qed.

Lemma reachable_up : reachable Scenario.up.
Proof. apply unraced_reachable, unraced_up. Qed.

Lemma reachable_stopping : reachable Scenario.stopping.
Proof. apply unraced_reachable, unraced_stopping. Qed.

Lemma reachable_forced : reachable Scenario.forced.
Proof. apply unraced_reachable, unraced_forced. Qed.

(** C9, as the specification words it, does not hold: the 'exit' listener
    drops the stop request that has sent SIGABRT, and a chunk that the
    process has left on stderr and that is read after that is written to the
    terminal again. *)
Lemma stderr_forwarded_after_exit :
  let w := handle (ProcessExit 0 None (Some SIGABRT)) Scenario.forced in
  unraced w /\
  stop_request_sigabrt_sent "/home/user/app" Scenario.forced = true /\
  enabled (ProcessStderr 0 "panic") w = true /\
  written (handle (ProcessStderr 0 "panic") w) = written w ++ [(0, Text (red "panic"))].
Proof.
  intros w. split.
  - subst w. apply unraced_step; [apply unraced_forced|vm_compute; reflexivity..].
  - vm_compute. repeat split; reflexivity.
Qed.

Lemma other_workspaces_untouched_witness :
  componentStates (handle (ProcessExit 1 (Some 0%Z) None) Examples.both) !! "/home/user/app"
  = componentStates Examples.both !! "/home/user/app".
Proof. apply other_workspaces_untouched. vm_compute. discriminate. Defined.

Lemma status_change_is_notified_witness :
  workspace_of (ProcessSpawn 0) Scenario.starting = Some "/home/user/app" /\
  stateChanged (handle (ProcessSpawn 0) Scenario.starting)
  = stateChanged Scenario.starting ++ ["/home/user/app"].
Proof. apply status_change_is_notified. left. vm_compute. discriminate. Defined.

Lemma stop_request_while_stopping_witness :
  let cs := mkDevState (Some 0) (Some 0) (Some DEV_STOPPING) None (Some 0)
              (Some DEB) None None in
  componentStates Scenario.stopping !! "/home/user/app" = Some cs /\
  (devStatus cs = Some DEV_STOPPING -> devProcessStopRequest cs <> None) /\
  (devProcessStopRequest cs <> None -> devProcess cs <> None) /\
  (devProcessStopRequest cs <> None <-> devStatus cs = Some DEV_STOPPING).
Proof.
  split; [reflexivity|].
  destruct (stop_request_while_stopping Scenario.stopping "/home/user/app" _
              reachable_stopping eq_refl) as (H1 & H2 & H3).
  split; [exact H1|split; [exact H2|exact (H3 unraced_stopping)]].
Defined.

Lemma live_timer_has_session_witness :
  exists path cs e,
    componentStates Scenario.stopping !! path = Some cs /\
    devProcessStopRequest cs = Some 0 /\
    devProcess cs <> None /\
    stopRequests Scenario.stopping !! 0 = Some e /\
    devCleaningTimeout e = Some 0 /\
    devStatus cs = Some DEV_STOPPING.
Proof.
  destruct (live_timer_has_session Scenario.stopping 0 (mkTimeout Armed 20000 0)
              reachable_stopping eq_refl)
    as (path & cs & e & H1 & H2 & H3 & H4 & H5 & H6); [discriminate|].
  exists path, cs, e. repeat split; try done. exact (H6 unraced_stopping).
Defined.

Lemma stopping_session_has_live_timer_witness :
  let cs := mkDevState (Some 0) (Some 0) (Some DEV_STOPPING) None (Some 0)
              (Some DEB) None None in
  exists env e T,
    devProcessStopRequest cs = Some env /\
    stopRequests Scenario.stopping !! env = Some e /\
    devCleaningTimeout e = Some env /\
    timers Scenario.stopping !! env = Some T /\
    timer_env T = env /\
    (timer_state T = Armed \/ timer_state T = Expired).
Proof.
  apply (stopping_session_has_live_timer Scenario.stopping "/home/user/app");
    [apply reachable_stopping|vm_compute; reflexivity|reflexivity].
Defined.

Lemma events_keep_other_axes_witness :
  exists cs',
    componentStates (handle (ProcessExit 0 None (Some SIGINT)) Scenario.stopping)
      !! "/home/user/app" = Some cs' /\
    debugStatus cs' = Some DEB /\ deployStatus cs' = None /\ contextValue cs' = None.
Proof.
  exact (events_keep_other_axes (ProcessExit 0 None (Some SIGINT)) Scenario.stopping
           "/home/user/app" _ eq_refl).
Defined.

Lemma run_target_is_last_dev_target_witness :
  runOn_of (handle (Dev Scenario.app (Some podman)) Scenario.gone) "/home/user/app"
  = Some podman /\
  runOn_of (handle (ProcessStdout 1 "ready") Examples.both) "/home/user/api" = Some podman.
Proof.
  split.
  - exact (run_target_is_last_dev_target (Dev Scenario.app (Some podman)) Scenario.gone
             "/home/user/app" _ eq_refl).
  - exact (run_target_is_last_dev_target (ProcessStdout 1 "ready") Examples.both
             "/home/user/api" _ eq_refl).
Defined.

Lemma context_value_tells_dev_state_witness :
  exists v,
    generateContextValue Scenario.app Scenario.up = Some v /\
    (test COMPONENT_DEV_STARTING v = true <-> Some DEV_RUNNING = Some DEV_STARTING) /\
    (test COMPONENT_DEV_RUNNING v = true <-> Some DEV_RUNNING = Some DEV_RUNNING) /\
    (test COMPONENT_DEV_STOPPING v = true <-> Some DEV_RUNNING = Some DEV_STOPPING) /\
    test COMPONENT_DEB_STARTING v = false /\
    test COMPONENT_DEB_RUNNING v = false /\
    test COMPONENT_DEB_STOPPING v = false /\
    test COMPONENT_DEP_STARTING v = false /\
    test COMPONENT_DEP_RUNNING v = false /\
    test COMPONENT_DEP_STOPPING v = false.
Proof.
  exact (context_value_tells_dev_state Scenario.up Scenario.app _ reachable_up eq_refl).
Defined.

Lemma label_agrees_with_context_value_witness :
  exists v,
    generateContextValue Scenario.app Scenario.stopping = Some v /\
    (renderStateLabel Scenario.app Scenario.stopping).2 = Scenario.stopping /\
    let label := (renderStateLabel Scenario.app Scenario.stopping).1 in
    (String.prefix " (dev starting" label = true <-> test COMPONENT_DEV_STARTING v = true) /\
    (String.prefix " (dev running" label = true <-> test COMPONENT_DEV_RUNNING v = true) /\
    (String.prefix " (dev stopping" label = true <-> test COMPONENT_DEV_STOPPING v = true) /\
    (label = "" <->
       test COMPONENT_DEV_STARTING v = false /\
       test COMPONENT_DEV_RUNNING v = false /\
       test COMPONENT_DEV_STOPPING v = false).
Proof.
  exact (label_agrees_with_context_value Scenario.stopping Scenario.app _
           reachable_stopping eq_refl).
Defined.

Lemma context_value_needs_state_witness :
  generateContextValue Scenario.app (initial 20000) = None /\
  (renderStateLabel Scenario.app (initial 20000)).1 = "" /\
  generateContextValue Scenario.app (renderStateLabel Scenario.app (initial 20000)).2
  = Some "openshift.component.dev-nrn.deb-nrn".
Proof. exact (context_value_needs_state (initial 20000) Scenario.app eq_refl). Defined.

Lemma session_terminal_is_open_witness :
  let cs := mkDevState (Some 0) (Some 0) (Some DEV_RUNNING) None None (Some DEB) None None in
  componentStates Scenario.up !! "/home/user/app" = Some cs /\
  exists T,
    terminals Scenario.up !! 0 = Some T /\
    contextPath (term_component T) = "/home/user/app" /\
    term_closed T = false /\
    term_opened T = true.
Proof.
  split; [reflexivity|].
  destruct (session_terminal_is_open Scenario.up "/home/user/app" _ 0 reachable_up
              eq_refl eq_refl) as (T & H1 & H2 & H3 & H4).
  exists T. repeat split; try done. by apply (H4 unraced_up).
Defined.

Lemma exit_command_stops_session_witness :
  let T := mkTerminal Scenario.app None true false 1 false in
  terminals Scenario.up !! 0 = Some T /\
  exists w',
    exitDevMode Scenario.app None Scenario.up = Some w' /\
    stop_requested "/home/user/app" 0 Scenario.up w' /\
    terminals w' !! 0 = Some (shown T) /\
    written w' = written Scenario.up ++ [(0, Text ("^C" +:+ CRLF))].
Proof.
  split; [reflexivity|].
  exact (exit_command_stops_session Scenario.up Scenario.app None _ 0 0 _ reachable_up
           eq_refl eq_refl eq_refl eq_refl eq_refl (or_introl unraced_up)).
Defined.

Lemma commands_throw_after_close_witness :
  let w' := run [ProcessStdout 0 "ready"; Dev Scenario.app None; ProcessExit 0 (Some 0%Z) None]
              (handle (TerminalClose 0) Scenario.up) in
  devTerminal_of w' "/home/user/app" = None /\
  showDevTerminal Scenario.app w' = None /\
  exitDevMode Scenario.app (Some 0) w' = None.
Proof.
  apply (commands_throw_after_close Scenario.up Scenario.app (Some 0) _ 0 _
           [ProcessStdout 0 "ready"; Dev Scenario.app None; ProcessExit 0 (Some 0%Z) None]
           eq_refl eq_refl eq_refl).
  vm_compute. repeat split; reflexivity.
Defined.

Lemma stdout_chunks_concatenate_witness :
  let a := "caf" +:+ String "195"%char (String "169"%char "") in
  let b := String "010"%char "ready" in
  let once := handle (ProcessStdout 0 (a +:+ b)) Scenario.starting in
  let twice := handle (ProcessStdout 0 b) (handle (ProcessStdout 0 a) Scenario.starting) in
  utf8_final utf8_start a = utf8_start /\
  componentStates twice = componentStates once /\
  stateChanged twice = stateChanged once /\
  forall t, terminal_text t twice = terminal_text t once.
Proof.
  split; [reflexivity|].
  apply (stdout_chunks_concatenate Scenario.starting 0). reflexivity.
Defined.

Lemma offered_debug_ports_witness :
  let offered := filteredForwardedPorts [5858%Z] Examples.ports in
  offered <> [] /\
  offered `sublist_of` Examples.ports /\
  ((forall p, ~ debug_port Examples.description Examples.ports p) ->
   offered = Examples.ports) /\
  ((exists p, debug_port Examples.description Examples.ports p) ->
   forall fp, fp ∈ offered <->
              fp ∈ Examples.ports /\
              debug_port Examples.description Examples.ports (containerPort fp)).
Proof.
  apply (offered_debug_ports Examples.description Examples.ports [5858%Z]);
    [vm_compute; reflexivity|discriminate].
Defined.

Lemma registered_session_blocks_debugger_witness :
  let e1 := onDidStartDebugSession Examples.attached Examples.editor in
  let r := (debug Examples.describe None None true ["Java"] (Some Scenario.app) e1).1 in
  let e2 := (debug Examples.describe None None true ["Java"] (Some Scenario.app) e1).2 in
  r = Returned None /\
  debugging e2 = debugging Examples.editor /\
  progress e2 = progress Examples.editor /\
  world e2 = show (WarningMessage ("Debugger session is already running for "
                                   +:+ metadata_name Scenario.app +:+ ".")
                     ["Show 'Run and Debug' view"]) (world Examples.editor) /\
  commands e2 = commands Examples.editor ++ [] /\
  (debugSessions Examples.editor !! contextPath Scenario.app = None ->
   onDidTerminateDebugSession Examples.attached e1 = Examples.editor).
Proof.
  apply (registered_session_blocks_debugger Examples.describe None None true ["Java"]
           Scenario.app Examples.attached Examples.editor); [reflexivity|discriminate].
Defined.

Lemma debugger_runs_once_witness :
  let e1 := (startOdoAndConnectDebugger Examples.describe None true Scenario.app
               Examples.java Examples.editor).2 in
  exists session,
    debugging e1 = debugging Examples.editor ++ [session] /\
    forall ns describe' answer pick' started tags,
      forallb (fun n => negb (ends_session (contextPath Scenario.app) n)) ns = true ->
      let again := debug describe' answer pick' started tags (Some Scenario.app)
                     (announce_all ns (onDidStartDebugSession session e1)) in
      again.1 = Returned None /\ debugging again.2 = debugging e1.
Proof.
  apply (debugger_runs_once Examples.describe None Scenario.app Examples.java
           Examples.editor "java"); [discriminate|vm_compute; reflexivity].
Defined.

Lemma debugger_language_witness :
  let e' := (startDebugger Examples.describe None None true ["Java"; "Maven"]
               Scenario.app Examples.editor).2 in
  debugSessions Examples.editor !! "/home/user/app" = None /\
  missing ["Java"; "Maven"] Examples.editor = [] /\
  commands e' = commands Examples.editor /\
  messages (world e') = messages (world Examples.editor) /\
  progress e' = progress Examples.editor /\
  cfg_contextPath Examples.attached = Some "/home/user/app" /\
  cfg_type Examples.attached = "java" /\
  ("Java" ∈ ["Java"; "Maven"] \/ "Python" ∈ ["Java"; "Maven"] \/
   "Node.js" ∈ ["Java"; "Maven"]).
Proof.
  apply (debugger_language Examples.describe None None true ["Java"; "Maven"]
           Scenario.app Examples.editor Examples.attached).
  vm_compute. reflexivity.
Defined.

Lemma missing_extension_blocks_debugger_witness :
  let r := (startDebugger Examples.describe (Some "Install") None true ["Java"]
              Scenario.app Examples.bare).1 in
  let e' := (startDebugger Examples.describe (Some "Install") None true ["Java"]
               Scenario.app Examples.bare).2 in
  r = Returned None /\
  debugging e' = debugging Examples.bare /\
  installed e' = installed Examples.bare /\
  componentStates (world e') = componentStates (world Examples.bare) /\
  commands e' =
    [("workbench.extensions.installExtension", Some "vscjava.vscode-java-debug");
     ("workbench.action.reloadWindow", None)].
Proof.
  apply (missing_extension_blocks_debugger Examples.describe (Some "Install") None true
           ["Java"] Scenario.app Examples.bare); [reflexivity|vm_compute; discriminate].
Defined.

Lemma signals_in_order_witness :
  let p := mkProcess (Command_dev true None) "/home/user/app" 0 Spawned None None
             [SIGINT; SIGABRT] in
  received p = [] \/ exists n, received p = SIGINT :: replicate n SIGABRT.
Proof.
  exact (signals_in_order Scenario.forced 0
           (mkProcess (Command_dev true None) "/home/user/app" 0 Spawned None None
              [SIGINT; SIGABRT])
           reachable_forced eq_refl).
Defined.

Lemma held_process_and_signals_witness :
  let cs := mkDevState (Some 0) (Some 0) (Some DEV_STOPPING) None (Some 0)
              (Some DEB) None None in
  componentStates Scenario.stopping !! "/home/user/app" = Some cs /\
  exists p,
    processes Scenario.stopping !! 0 = Some p /\ phase p = Spawned /\
    cwd p = "/home/user/app" /\
    process_of Scenario.stopping 0 = Some 0 /\ head (received p) = Some SIGINT.
Proof.
  split; [reflexivity|].
  destruct (held_process_and_signals Scenario.stopping "/home/user/app" _ 0
              reachable_stopping eq_refl eq_refl) as (p & H1 & H2 & H3 & _ & _ & H6).
  exists p. split; [done|]. split; [done|]. split; [done|].
  exact (H6 unraced_stopping 0 eq_refl).
Defined.
